(** * KrishiMitra: a shallow embedding of the validation, masking, formatting,
    webhook, encryption and farmer-profile code, and the properties checked
    against it.

    Part I translates the Python sources, one module per source file.
    The phone and PIN validators, the phone formatter and the webhook take
    any Python [str]: there a string is the list of its code points, and
    the regular-expression class [\d] is the set of decimal digits of the
    Unicode database.  Elsewhere a [str] is modelled by [string], a
    character being one code point below 256, on which [\d] is exactly
    the ten ASCII digits.  Python [int] is [Z]; [float] and [datetime] are
    abstract, as are the third-party Fernet cipher and the standard codecs.
    Exceptions are explicit results.  Part II states and proves the
    properties. *)

From Stdlib Require Import ZArith Lia Bool List Ascii String DecimalString DecimalZ.
From stdpp Require Import base option list strings gmap.
Import ListNotations.

Local Open Scope Z_scope.

(* ===================================================================== *)
(* ===================================================================== *)
(** * Part I: the code *)
(* ===================================================================== *)
(* ===================================================================== *)

(* ===================================================================== *)
(** * Python string primitives *)
(* ===================================================================== *)

Module Py.

(** [list(s)] and [''.join(l)]. *)
Fixpoint chars (s : string) : list ascii :=
  match s with
  | EmptyString => []
  | String c r => c :: chars r
  end.

Fixpoint join (l : list ascii) : string :=
  match l with
  | [] => EmptyString
  | c :: r => String c (join r)
  end.

(** [s + t] on strings. *)
Fixpoint concat (s t : string) : string :=
  match s with
  | EmptyString => t
  | String c r => String c (concat r t)
  end.

(** [len(s)], a Python [int]. *)
Definition len (s : string) : Z := Z.of_nat (String.length s).

(** Truthiness of a string: [not s] holds exactly for the empty string. *)
Definition truthy (s : string) : bool :=
  match s with
  | EmptyString => false
  | String _ _ => true
  end.

Definition code (c : ascii) : Z := Z.of_nat (nat_of_ascii c).

(** The class [\d] and the range [[lo-hi]]. *)
Definition in_range (lo hi c : ascii) : bool :=
  (code lo <=? code c) && (code c <=? code hi).

Definition isdigit (c : ascii) : bool := in_range "0" "9" c.

(** [int(c)] for a one-character string: [None] stands for [ValueError]. *)
Definition int_of_char (c : ascii) : option Z :=
  if isdigit c then Some (code c - 48) else None.

(** [s.startswith(p)]. *)
Fixpoint startswith (s p : string) {struct p} : bool :=
  match p with
  | EmptyString => true
  | String b p' =>
      match s with
      | EmptyString => false
      | String a s' => Ascii.eqb a b && startswith s' p'
      end
  end.

(** [s[k:]] for a literal [k >= 0]. *)
Fixpoint drop (k : nat) (s : string) : string :=
  match k with
  | O => s
  | S k' =>
      match s with
      | EmptyString => EmptyString
      | String _ r => drop k' r
      end
  end.

(** [s[:k]] for [k >= 0]. *)
Fixpoint take (k : nat) (s : string) : string :=
  match k with
  | O => EmptyString
  | S k' =>
      match s with
      | EmptyString => EmptyString
      | String c r => String c (take k' r)
      end
  end.

(** [s[:k]] for any Python [int]: a negative bound counts from the end and
    is clamped at the start of the string. *)
Definition slice_to (s : string) (k : Z) : string :=
  if k <? 0 then take (Z.to_nat (len s + k)) s else take (Z.to_nat k) s.

(** [s[k:]] for any Python [int]. *)
Definition slice_from (s : string) (k : Z) : string :=
  if k <? 0 then drop (Z.to_nat (len s + k)) s else drop (Z.to_nat k) s.

(** [re.sub(cls, '', s)] for a one-character class [cls] given by the
    predicate [removed]. *)
Fixpoint re_sub_class (removed : ascii -> bool) (s : string) : string :=
  match s with
  | EmptyString => EmptyString
  | String c r =>
      if removed c then re_sub_class removed r
      else String c (re_sub_class removed r)
  end.

(** Where [$] matches in Python's [re] without flags: at the very end, or
    just before a final newline. *)
Definition at_dollar (s : string) : bool :=
  match s with
  | EmptyString => true
  | String c EmptyString => Ascii.eqb c "010"
  | _ => false
  end.

(** [cls{n}] followed by the continuation [k], anchored at the current
    position. *)
Fixpoint re_class_times (cls : ascii -> bool) (n : nat)
         (k : string -> bool) (s : string) : bool :=
  match n with
  | O => k s
  | S n' =>
      match s with
      | EmptyString => false
      | String c r => cls c && re_class_times cls n' k r
      end
  end.

(** [c * n] for a one-character string. *)
Fixpoint replicate_char (n : nat) (c : ascii) : string :=
  match n with
  | O => EmptyString
  | S n' => String c (replicate_char n' c)
  end.

(** Python list indexing with a non-negative index; [None] stands for
    [IndexError]. *)
Definition index {A} (l : list A) (i : Z) : option A :=
  if i <? 0 then None else nth_error l (Z.to_nat i).

End Py.

Infix "+++" := Py.concat (at level 60, right associativity).

(* ===================================================================== *)
(** * Python strings over all of Unicode *)
(* ===================================================================== *)

Module unicode.

(** A [str] as the sequence of its code points. *)
Definition ustring := list Z.

(** A literal of the source whose characters are all ASCII. *)
Definition lit (s : string) : ustring := map Py.code (Py.chars s).

(** What the class [\d] matches.  Python's [re] takes the decimal digits
    (category Nd) of the Unicode database the interpreter was built with;
    the databases differ from version to version, but never below 128. *)
Class UnicodeData := {
  isdecimal : Z -> bool
}.

Class UnicodeLaws `{UnicodeData} : Prop := {
  isdecimal_ascii :
    forall c, 0 <= c < 128 -> isdecimal c = (48 <=? c) && (c <=? 57)
}.

(** The decimal digits of Unicode 14.0, the database of Python 3.11: each
    run as its first code point and its length. *)
Definition decimal_runs : list (Z * Z) :=
  [ (48, 10); (1632, 10); (1776, 10); (1984, 10); (2406, 10); (2534, 10);
    (2662, 10); (2790, 10); (2918, 10); (3046, 10); (3174, 10); (3302, 10);
    (3430, 10); (3558, 10); (3664, 10); (3792, 10); (3872, 10); (4160, 10);
    (4240, 10); (6112, 10); (6160, 10); (6470, 10); (6608, 10); (6784, 10);
    (6800, 10); (6992, 10); (7088, 10); (7232, 10); (7248, 10); (42528, 10);
    (43216, 10); (43264, 10); (43472, 10); (43504, 10); (43600, 10);
    (44016, 10); (65296, 10); (66720, 10); (68912, 10); (69734, 10);
    (69872, 10); (69942, 10); (70096, 10); (70384, 10); (70736, 10);
    (70864, 10); (71248, 10); (71360, 10); (71472, 10); (71904, 10);
    (72016, 10); (72784, 10); (73040, 10); (73120, 10); (92768, 10);
    (92864, 10); (93008, 10); (120782, 50); (123200, 10); (123632, 10);
    (125264, 10); (130032, 10) ].

Definition in_run (c : Z) (run : Z * Z) : bool :=
  (fst run <=? c) && (c <? fst run + snd run).

Definition table_isdecimal (c : Z) : bool := existsb (in_run c) decimal_runs.

#[export] Instance unicode_14 : UnicodeData := {| isdecimal := table_isdecimal |}.

(** [len(s)] and the truthiness of a string. *)
Definition len (s : ustring) : Z := Z.of_nat (length s).

Definition truthy (s : ustring) : bool :=
  match s with
  | [] => false
  | _ :: _ => true
  end.

(** [s == t]. *)
Fixpoint eqb (s t : ustring) : bool :=
  match s, t with
  | [], [] => true
  | a :: s', b :: t' => (a =? b) && eqb s' t'
  | _, _ => false
  end.

(** The range [[lo-hi]] of a character class. *)
Definition in_range (lo hi c : Z) : bool := (lo <=? c) && (c <=? hi).

(** [s.startswith(p)]. *)
Fixpoint startswith (s p : ustring) {struct p} : bool :=
  match p with
  | [] => true
  | b :: p' =>
      match s with
      | [] => false
      | a :: s' => (a =? b) && startswith s' p'
      end
  end.

(** [s[:k]] and [s[k:]] for any Python [int]: a negative bound counts
    from the end and is clamped at the start of the string. *)
Definition slice_to (s : ustring) (k : Z) : ustring :=
  if k <? 0 then firstn (Z.to_nat (len s + k)) s else firstn (Z.to_nat k) s.

Definition slice_from (s : ustring) (k : Z) : ustring :=
  if k <? 0 then skipn (Z.to_nat (len s + k)) s else skipn (Z.to_nat k) s.

(** Where [$] matches in Python's [re] without flags: at the very end, or
    just before a final newline. *)
Definition at_dollar (s : ustring) : bool :=
  match s with
  | [] => true
  | [c] => c =? 10
  | _ => false
  end.

(** [cls{n}] followed by the continuation [k], anchored at the current
    position. *)
Fixpoint re_class_times (cls : Z -> bool) (n : nat)
         (k : ustring -> bool) (s : ustring) : bool :=
  match n with
  | O => k s
  | S n' =>
      match s with
      | [] => false
      | c :: r => cls c && re_class_times cls n' k r
      end
  end.

End unicode.

(* ===================================================================== *)
(** * core/utils/validation.py: Aadhaar numbers *)
(* ===================================================================== *)

Module validation.
Import Py.

Definition multiplication_table : list (list Z) :=
  [ [0; 1; 2; 3; 4; 5; 6; 7; 8; 9];
    [1; 2; 3; 4; 0; 6; 7; 8; 9; 5];
    [2; 3; 4; 0; 1; 7; 8; 9; 5; 6];
    [3; 4; 0; 1; 2; 8; 9; 5; 6; 7];
    [4; 0; 1; 2; 3; 9; 5; 6; 7; 8];
    [5; 9; 8; 7; 6; 0; 4; 3; 2; 1];
    [6; 5; 9; 8; 7; 1; 0; 4; 3; 2];
    [7; 6; 5; 9; 8; 2; 1; 0; 4; 3];
    [8; 7; 6; 5; 9; 3; 2; 1; 0; 4];
    [9; 8; 7; 6; 5; 4; 3; 2; 1; 0] ].

Definition permutation_table : list (list Z) :=
  [ [0; 1; 2; 3; 4; 5; 6; 7; 8; 9];
    [1; 5; 7; 6; 2; 8; 3; 0; 9; 4];
    [5; 8; 0; 3; 7; 9; 6; 1; 4; 2];
    [8; 9; 1; 6; 0; 4; 3; 5; 2; 7];
    [9; 4; 5; 3; 1; 2; 6; 8; 7; 0];
    [4; 2; 8; 6; 5; 7; 3; 9; 0; 1];
    [2; 7; 9; 3; 8; 0; 6; 4; 1; 5];
    [7; 0; 4; 6; 9; 1; 3; 2; 5; 8] ].

Definition inverse_table : list Z := [0; 4; 3; 2; 1; 5; 6; 7; 8; 9].

(** One iteration of the loop body:
    [checksum = multiplication_table[checksum][permutation_table[i % 8][int(digit)]]]. *)
Definition checksum_step (checksum : Z) (i : Z) (digit : ascii) : option Z :=
  d ← int_of_char digit;
  prow ← index permutation_table (i mod 8);
  p ← index prow d;
  mrow ← index multiplication_table checksum;
  index mrow p.

(** The loop over [enumerate(reversed(aadhaar))], threading [checksum];
    [None] stands for an exception raised by an index or by [int]. *)
Fixpoint checksum_loop (checksum : Z) (items : list (Z * ascii)) : option Z :=
  match items with
  | [] => Some checksum
  | (i, digit) :: rest =>
      c ← checksum_step checksum i digit;
      checksum_loop c rest
  end.

Definition enumerate {A} (l : list A) : list (Z * A) :=
  combine (map Z.of_nat (seq 0 (length l))) l.

Definition _verify_aadhaar_checksum (aadhaar : string) : option bool :=
  c ← checksum_loop 0 (enumerate (rev (chars aadhaar)));
  Some (c =? 0).

(** [len(set(cleaned))]. *)
Definition len_set (s : string) : Z := Z.of_nat (length (remove_dups (chars s))).

(** The outer [None] stands for an uncaught exception. *)
Definition validate_aadhaar_number (aadhaar : string)
  : option (bool * option string) :=
  if negb (truthy aadhaar) then Some (false, None)
  else
    let cleaned := re_sub_class (fun c => negb (isdigit c)) aadhaar in
    if negb (len cleaned =? 12) then Some (false, None)
    else if len_set cleaned =? 1 then Some (false, None)
    else
      ok ← _verify_aadhaar_checksum cleaned;
      if negb ok then Some (false, None)
      else Some (true, Some cleaned).

(** ** Vocabulary of the Aadhaar properties *)

(** Ten digits [0] to [9], the first in 6-9: what the pattern of the
    models, [^\+91[6-9]\d{9}$], asks after [+91]. *)
Definition mobile10 (d : string) : bool :=
  match d with
  | EmptyString => false
  | String c r =>
      in_range "6" "9" c && (String.length r =? 9)%nat && forallb isdigit (chars r)
  end.

(** The Verhoeff walk as the property words it: start from 0, visit the
    digits right to left, and at position [pos] replace the running value
    [c] by [d(c, p(pos mod 8, digit))]. *)
Definition d_op (j k : Z) : Z :=
  nth (Z.to_nat k) (nth (Z.to_nat j) multiplication_table []) 0.

Definition p_op (pos n : Z) : Z :=
  nth (Z.to_nat n) (nth (Z.to_nat (pos mod 8)) permutation_table []) 0.

Definition digit_value (c : ascii) : Z := code c - 48.

Fixpoint verhoeff_walk (pos c : Z) (digits_right_to_left : list Z) : Z :=
  match digits_right_to_left with
  | [] => c
  | n :: rest => verhoeff_walk (pos + 1) (d_op c (p_op pos n)) rest
  end.

Definition verhoeff_ok (s : string) : bool :=
  verhoeff_walk 0 0 (rev (map digit_value (chars s))) =? 0.

Definition twelve_digits (s : string) : bool :=
  (String.length s =? 12)%nat && forallb isdigit (chars s).

(** A string made of one character repeated. *)
Definition single_repeated (s : string) : Prop :=
  exists c, s = replicate_char (String.length s) c.

End validation.

(* ===================================================================== *)
(** * core/utils/validation.py: phone numbers and PIN codes *)
(* ===================================================================== *)

Module validation_phone.
Import unicode.

Section Code.
Context `{UnicodeData}.

(** What [re.sub(r'[^\d+]', '', s)] keeps: the characters of [\d], and
    [+]. *)
Definition keep (c : Z) : bool := isdecimal c || (c =? 43).

(** [re.match(r'^[6-9]\d{9}$', s)] as a boolean. *)
Definition re_match_mobile (s : ustring) : bool :=
  re_class_times (in_range 54 57) 1
    (re_class_times isdecimal 9 at_dollar) s.

(** The [if]/[elif] chain that picks [mobile_part]; [None] is its final
    [else: return False, None]. *)
Definition mobile_part_of (cleaned : ustring) : option ustring :=
  if startswith cleaned (lit "+91") then Some (skipn 3 cleaned)
  else if startswith cleaned (lit "91") && (len cleaned =? 12) then Some (skipn 2 cleaned)
  else if startswith cleaned (lit "0") && (len cleaned =? 11) then Some (skipn 1 cleaned)
  else if len cleaned =? 10 then Some cleaned
  else None.

Definition validate_phone_number (phone : ustring) (country_code : ustring)
  : bool * option ustring :=
  if negb (truthy phone) then (false, None)
  else
    let cleaned := List.filter keep phone in
    match mobile_part_of cleaned with
    | None => (false, None)
    | Some mobile_part =>
        if negb (re_match_mobile mobile_part) then (false, None)
        else (true, Some (country_code ++ mobile_part))
    end.

(** [re.match(r'^[1-9][0-9]{5}$', s)] as a boolean. *)
Definition re_match_pincode (s : ustring) : bool :=
  re_class_times (in_range 49 57) 1
    (re_class_times (in_range 48 57) 5 at_dollar) s.

(** [re.sub(r'\D', '', pincode)] keeps what [\d] matches. *)
Definition validate_pincode (pincode : ustring) : bool * option ustring :=
  if negb (truthy pincode) then (false, None)
  else
    let cleaned := List.filter isdecimal pincode in
    if negb (re_match_pincode cleaned) then (false, None)
    else (true, Some cleaned).

(** ** Vocabulary of the phone and PIN properties *)

(** A 10-digit mobile number as the code reads it: ten characters, the
    first one of [6789], the others decimal digits of any script. *)
Definition mobile10 (d : ustring) : bool :=
  match d with
  | [] => false
  | c :: r => in_range 54 57 c && (length r =? 9)%nat && forallb isdecimal r
  end.

(** The four accepted spellings of the mobile number [d]. *)
Definition shapes (d : ustring) : list ustring :=
  [ d; lit "+91" ++ d; lit "91" ++ d; lit "0" ++ d ].

(** What is left of an input once its formatting characters (everything
    but decimal digits and [+]) are dropped. *)
Definition strip_formatting (phone : ustring) : ustring := List.filter keep phone.

(** An input is reducible when stripping leaves one of the four shapes. *)
Definition reducible (phone : ustring) : Prop :=
  exists d, mobile10 d = true /\ In (strip_formatting phone) (shapes d).

(** The decimal digits of an input, of whatever script, in order. *)
Definition decimals (s : ustring) : ustring := List.filter isdecimal s.

End Code.

(** The same, with the ten digits [0] to [9] only. *)
Definition ascii_digit (c : Z) : bool := in_range 48 57 c.



(** Six digits [0] to [9], the first not [0]. *)
Definition pincode6 (c : ustring) : bool :=
  match c with
  | [] => false
  | a :: r => in_range 49 57 a && (length r =? 5)%nat && forallb ascii_digit r
  end.

End validation_phone.

(* ===================================================================== *)
(** * core/utils/formatting.py: phone numbers *)
(* ===================================================================== *)

Module formatting_phone.
Import unicode validation_phone.

Section Code.
Context `{UnicodeData}.

(** The [if]/[elif]/[else] chain that picks [country_code] and [number]. *)
Definition country_code_and_number (cleaned : ustring) : ustring * ustring :=
  if startswith cleaned (lit "+91") then (lit "+91", skipn 3 cleaned)
  else if startswith cleaned (lit "91") && (len cleaned =? 12)
  then (lit "+91", skipn 2 cleaned)
  else (lit "+91", if len cleaned >=? 10 then slice_from cleaned (-10) else cleaned).

Definition format_phone_number (phone format_type : ustring) : ustring :=
  let cleaned := List.filter keep phone in
  let '(country_code, number) := country_code_and_number cleaned in
  if len number =? 10 then
    if eqb format_type (lit "display")
    then country_code ++ lit " " ++ slice_to number 5 ++ lit " " ++ slice_from number 5
    else if eqb format_type (lit "international")
    then country_code ++ lit " " ++ number
    else if eqb format_type (lit "national")
    then lit "0" ++ number
    else country_code ++ number
  else phone.

End Code.

End formatting_phone.

(* ===================================================================== *)
(** * core/utils/formatting.py *)
(* ===================================================================== *)

Module formatting.
Import Py.

(** The scan behind [s.rfind(c, 0, end)]: [i] is the index of the head of
    [s], [last] the highest index seen so far at which [c] stands. *)
Fixpoint rfind_scan (c : ascii) (s : string) (i last : Z) : Z :=
  match s with
  | EmptyString => last
  | String a r => rfind_scan c r (i + 1) (if Ascii.eqb a c then i else last)
  end.

(** [text.rfind(c, 0, end_)] for a one-character [c]: the highest index of
    [c] inside [text[0:end_]], or [-1]. *)
Definition rfind (text : string) (c : ascii) (end_ : Z) : Z :=
  rfind_scan c (slice_to text end_) 0 (-1).

Definition truncate_text (text : string) (max_length : Z) (suffix : string) : string :=
  if negb (truthy text) || (len text <=? max_length) then text
  else if max_length >? len suffix then
    let truncate_at := max_length - len suffix in
    let last_space := rfind text " " truncate_at in
    if last_space >? max_length / 2
    then slice_to text last_space +++ suffix
    else slice_to text truncate_at +++ suffix
  else slice_to text max_length.

End formatting.

(* ===================================================================== *)
(** * core/security/encryption.py and core/utils/encryption.py: masking *)
(* ===================================================================== *)

Module masking.
Import Py.

(** [DataMasking.mask_phone_number]. *)
Definition mask_phone_number (phone : string) : string :=
  if negb (truthy phone) || (len phone <? 4) then "****"
  else "****" +++ slice_from phone (-4).

(** [s[a:b]] for literal bounds [0 <= a <= b]. *)
Definition slice (s : string) (a b : nat) : string := take (b - a) (drop a s).

(** [data.split("@", 1)] when ["@" in data]: the text before the first
    [@] and the text after it. *)
Fixpoint split_at (s : string) : option (string * string) :=
  match s with
  | EmptyString => None
  | String c r =>
      if Ascii.eqb c "@" then Some (EmptyString, r)
      else match split_at r with
           | Some (local_, domain) => Some (String c local_, domain)
           | None => None
           end
  end.

Definition first_char (s : string) : string := take 1 s.
Definition last_char (s : string) : string := slice_from s (-1).

(** [mask_sensitive_data(data, data_type)]. *)
Definition mask_sensitive_data (data : string) (data_type : string) : string :=
  if negb (truthy data) then ""
  else if String.eqb data_type "phone" then
    if len data >=? 10 then slice_to data (-4) +++ "****" else "****"
  else if String.eqb data_type "email" then
    match split_at data with
    | Some (local_, domain) =>
        let masked_local :=
          if len local_ >? 1
          then first_char local_ +++ replicate_char (Z.to_nat (len local_ - 1)) "*"
          else "*" in
        masked_local +++ "@" +++ domain
    | None => "****"
    end
  else if String.eqb data_type "aadhaar" then
    if len data >=? 12 then "XXXX-XXXX-" +++ slice_from data (-4) else "XXXX-XXXX-XXXX"
  else if String.eqb data_type "pan" then
    if len data >=? 10 then slice data 0 3 +++ "**" +++ slice data 5 9 +++ "*"
    else "**********"
  else if String.eqb data_type "account" then
    if len data >=? 4
    then replicate_char (Z.to_nat (len data - 4)) "X" +++ slice_from data (-4)
    else "XXXX"
  else
    if len data <=? 2 then replicate_char (Z.to_nat (len data)) "*"
    else if len data <=? 4
    then first_char data +++ replicate_char (Z.to_nat (len data - 2)) "*" +++ last_char data
    else first_char data +++ replicate_char (Z.to_nat (len data - 2)) "*" +++ last_char data.

(** ** Vocabulary of the masking property *)

(** The digits of a string, in order. *)
Definition digits_of (s : string) : list ascii := List.filter isdigit (chars s).

(** The masked text [out] shows no digit of [phone] beyond its last four:
    the digits of [out] are a tail of the digits of [phone], at most four
    long. *)
Definition shows_only_last4 (out phone : string) : Prop :=
  digits_of out `suffix_of` digits_of phone /\ (length (digits_of out) <= 4)%nat.

End masking.

(* ===================================================================== *)
(** * What a route handler produces *)
(* ===================================================================== *)

Module fastapi.

(** A value, answered with the route's success status, or a raised
    [HTTPException]. *)
Inductive response (A : Type) : Type :=
| Returned (status : Z) (body : A)
| HTTPException (status_code : Z) (detail : string).
Arguments Returned {A} status body.
Arguments HTTPException {A} status_code detail.

End fastapi.

(* ===================================================================== *)
(** * api/v1/whatsapp.py and core/config.py *)
(* ===================================================================== *)

Module whatsapp.
Import fastapi unicode.

(** The WhatsApp part of [Settings]; an unset variable leaves [None]. *)
Record Settings := {
  whatsapp_verify_token : option ustring;
  whatsapp_access_token : option ustring;
  whatsapp_phone_number_id : option ustring
}.

(** [Settings()] when the environment provides no value. *)
Definition default_settings : Settings :=
  {| whatsapp_verify_token := None;
     whatsapp_access_token := None;
     whatsapp_phone_number_id := None |}.

(** [a == b] between a [str] and an [Optional[str]]. *)
Definition str_eq_optional (a : ustring) (b : option ustring) : bool :=
  match b with
  | Some b' => eqb a b'
  | None => false
  end.

Definition verify_webhook (settings : Settings)
           (hub_mode hub_challenge hub_verify_token : ustring) : response ustring :=
  if eqb hub_mode (lit "subscribe")
     && str_eq_optional hub_verify_token (whatsapp_verify_token settings)
  then Returned 200 hub_challenge
  else HTTPException 403 "Invalid verification token".

(** ** The route as the application serves it *)










End whatsapp.

(* ===================================================================== *)
(** * Python floats and datetimes *)
(* ===================================================================== *)

(** Python's [float] is kept abstract: the code only adds floats, compares
    them, prints them with [str] and reads them back with [float].
    [float_parse] answers [None] where [float(s)] raises [ValueError]. *)
Class PyFloat := {
  float : Type;
  float_of_int : Z -> float;
  float_add : float -> float -> float;
  float_gt : float -> float -> bool;
  float_le : float -> float -> bool;
  float_str : float -> string;
  float_parse : string -> option float
}.

(** What the proofs use of the order on floats: [x > x] never holds, and
    [x > y] excludes [y > x]. *)
Class PyFloatOrder `{PyFloat} : Prop := {
  float_gt_irrefl : forall x, float_gt x x = false;
  float_gt_asym : forall x y, float_gt x y = true -> float_gt y x = false
}.

(** [datetime], with [isoformat] and [fromisoformat] ([None] for
    [ValueError]). *)
Class PyDatetime := {
  datetime : Type;
  isoformat : datetime -> string;
  fromisoformat : string -> option datetime
}.

(** Whole numbers with their decimal spelling: an instance to compute
    with. *)
Module ZInstances.

Definition Z_str (z : Z) : string := DecimalString.NilZero.string_of_int (Z.to_int z).

Definition Z_parse (s : string) : option Z :=
  match DecimalString.NilZero.int_of_string s with
  | Some d => Some (Z.of_int d)
  | None => None
  end.

#[export] Instance Z_PyFloat : PyFloat := {|
  float := Z;
  float_of_int := fun z => z;
  float_add := Z.add;
  float_gt := Z.gtb;
  float_le := Z.leb;
  float_str := Z_str;
  float_parse := Z_parse
|}.

#[export] Instance Z_PyDatetime : PyDatetime := {|
  datetime := Z;
  isoformat := Z_str;
  fromisoformat := Z_parse
|}.

End ZInstances.

(* ===================================================================== *)
(** * core/models/farmer.py *)
(* ===================================================================== *)

Module core_models_farmer.
Import Py.

Inductive IrrigationType := DRIP | SPRINKLER | FLOOD | RAINFED | CANAL | BOREWELL.

Inductive SoilType :=
  ALLUVIAL | BLACK_COTTON | RED_LATERITE | SANDY | CLAY | LOAMY | SALINE.

(** The outcome of building a model: the instance, or the
    [ValidationError] with the messages of the failed fields. *)
Inductive validated (A : Type) : Type :=
| Valid (a : A)
| ValidationError (errors : list string).
Arguments Valid {A} a.
Arguments ValidationError {A} errors.

Section Models.
Context `{PyFloat}.

(** A [CropInfo] instance; dates are proleptic ordinals. *)
Record CropInfo := {
  crop_type : string;
  area : float;
  planting_date : option Z;
  expected_harvest : option Z;
  variety : option string
}.

Record FarmDetails := {
  total_land_area : float;
  soil_type : SoilType;
  irrigation_type : IrrigationType;
  crops : list CropInfo;
  water_source : option string;
  farm_equipment : list string
}.

(** [confloat(gt=0, le=10000)]. *)
Definition confloat_gt0_le10000 (x : float) : bool :=
  float_gt x (float_of_int 0) && float_le x (float_of_int 10000).

(** [sum(crop.area for crop in v)]: a left fold from the integer 0. *)
Definition sum_areas (v : list CropInfo) : float :=
  fold_left float_add (map area v) (float_of_int 0).

(** The validator on [crops].  [values] holds [total_land_area] only
    when that field, declared first, passed its own check. *)
Definition validate_total_crop_area (v : list CropInfo) (values : option float)
  : validated (list CropInfo) :=
  match v, values with
  | _ :: _, Some total_land_area =>
      let total_crop_area := sum_areas v in
      if float_gt total_crop_area total_land_area
      then ValidationError ["Total crop area cannot exceed farm area"]
      else Valid v
  | _, _ => Valid v
  end.

(** [constr(max_length=100)] on an optional string. *)
Definition optional_max_length (n : Z) (s : option string) : bool :=
  match s with
  | Some s' => len s' <=? n
  | None => true
  end.

Definition errors_of {A} (r : validated A) : list string :=
  match r with
  | Valid _ => []
  | ValidationError errors => errors
  end.

(** [FarmDetails(total_land_area=..., soil_type=..., irrigation_type=...,
    crops=[...], water_source=..., farm_equipment=[...])] with [CropInfo]
    instances for the crops: every field is checked in declaration
    order and the failures are reported together. *)
Definition FarmDetails_new (total : float) (soil : SoilType) (irrigation : IrrigationType)
           (crop_list : list CropInfo) (water : option string) (equipment : list string)
  : validated FarmDetails :=
  let total_ok := confloat_gt0_le10000 total in
  let values := if total_ok then Some total else None in
  let errors :=
    (if total_ok then [] else ["total_land_area"])
    ++ errors_of (validate_total_crop_area crop_list values)
    ++ (if optional_max_length 100 water then [] else ["water_source"]) in
  match errors with
  | [] => Valid {| total_land_area := total; soil_type := soil;
                   irrigation_type := irrigation; crops := crop_list;
                   water_source := water; farm_equipment := equipment |}
  | _ :: _ => ValidationError errors
  end.

End Models.

End core_models_farmer.

(* ===================================================================== *)
(** * models/farmer.py and models/base.py: the other farm details *)
(* ===================================================================== *)

Module models_farmer.
Import Py core_models_farmer.

Inductive SoilType :=
  ALLUVIAL | BLACK_COTTON | RED_LATERITE | SANDY | CLAY | LOAMY | SALINE | PEATY
| MOUNTAIN.

Inductive IrrigationType :=
  RAINFED | CANAL | TUBEWELL | WELL | DRIP | SPRINKLER | FLOOD | FURROW.

Inductive CropCategory :=
  CEREALS | PULSES | OILSEEDS | CASH_CROPS | VEGETABLES | FRUITS | SPICES | FODDER
| FLOWERS.

Inductive CropSeason := KHARIF | RABI | ZAID | PERENNIAL.

Section Models.
Context `{PyFloat}.

(** Instances of the models of [base.py]. *)
Record Measurement := {
  value : float;
  unit : string;
  precision : option Z
}.

Record Currency := {
  code : string;
  symbol : string;
  currency_name : string
}.

Record MonetaryAmount := {
  amount : float;
  currency : Currency
}.

(** A [CropInfo] instance; dates are proleptic ordinals. *)
Record CropInfo := {
  crop_name : string;
  crop_variety : option string;
  category : CropCategory;
  season : CropSeason;
  area : Measurement;
  planting_date : option Z;
  expected_harvest_date : option Z;
  yield_expectation : option Measurement;
  input_cost : option MonetaryAmount;
  market_price_expectation : option MonetaryAmount;
  is_organic : bool;
  irrigation_method : option IrrigationType
}.

Record FarmDetails := {
  total_land_area : Measurement;
  cultivable_area : option Measurement;
  irrigated_area : option Measurement;
  soil_type : SoilType;
  soil_ph : option float;
  soil_health_card_number : option string;
  primary_irrigation_source : IrrigationType;
  water_availability : option string;
  farm_equipment : list string;
  storage_facilities : list string;
  crops : list CropInfo;
  livestock : option (list (string * Z));
  farm_certification : list string
}.

(** The validator on [cultivable_area]; [total_land_area], declared
    before it and given as an instance, is always in [info.data]. *)
Definition validate_cultivable_area (v : option Measurement) (total : Measurement)
  : validated (option Measurement) :=
  match v with
  | Some m =>
      if float_gt (value m) (value total)
      then ValidationError ["Cultivable area cannot exceed total land area"]
      else Valid v
  | None => Valid v
  end.

(** The validator on [irrigated_area]; [cultivable] is
    [info.data.get('cultivable_area')], absent when that field failed. *)
Definition validate_irrigated_area (v : option Measurement)
           (cultivable : option Measurement) (total : Measurement)
  : validated (option Measurement) :=
  match v with
  | Some m =>
      match cultivable with
      | Some c =>
          if float_gt (value m) (value c)
          then ValidationError ["Irrigated area cannot exceed cultivable area"]
          else Valid v
      | None =>
          if float_gt (value m) (value total)
          then ValidationError ["Irrigated area cannot exceed total land area"]
          else Valid v
      end
  | None => Valid v
  end.

(** [Field(ge=0, le=14)] on an optional float. *)
Definition soil_ph_ok (ph : option float) : bool :=
  match ph with
  | Some x => float_le (float_of_int 0) x && float_le x (float_of_int 14)
  | None => true
  end.

(** [FarmDetails] built from keyword arguments, the nested models given
    as instances: the
    fields are checked in declaration order and the failures reported
    together.  No validator is declared on [crops]. *)
Definition FarmDetails_new (fields : FarmDetails) : validated FarmDetails :=
  let cultivable := validate_cultivable_area (cultivable_area fields)
                      (total_land_area fields) in
  let data_cultivable :=
    match cultivable with
    | Valid v => v
    | ValidationError _ => None
    end in
  let errors :=
    errors_of cultivable
    ++ errors_of (validate_irrigated_area (irrigated_area fields) data_cultivable
                    (total_land_area fields))
    ++ (if soil_ph_ok (soil_ph fields) then [] else ["soil_ph"]) in
  match errors with
  | [] => Valid fields
  | _ :: _ => ValidationError errors
  end.

(** ** Vocabulary *)



End Models.

End models_farmer.

Module models_farmer_samples.
Import ZInstances models_farmer.




End models_farmer_samples.

(* ===================================================================== *)
(** * api/v1/farmers.py: the mounted farmers router *)
(* ===================================================================== *)

Module farmers_api.
Import Py.
Export fastapi.

(** ** DynamoDB: typed attribute values, items, and the table *)

#[warnings="-register-all"]
Inductive AttributeValue :=
| AV_S (s : string)
| AV_N (n : string)
| AV_BOOL (b : bool)
| AV_M (m : list (string * AttributeValue))
| AV_L (l : list AttributeValue).

(** A Python [dict] with string keys, in insertion order. *)
Definition Item := list (string * AttributeValue).

(** [d[k]]; [None] stands for [KeyError]. *)
Fixpoint dict_get (d : Item) (k : string) : option AttributeValue :=
  match d with
  | [] => None
  | (k', v) :: rest => if String.eqb k' k then Some v else dict_get rest k
  end.

(** [k in d]. *)
Definition dict_has (d : Item) (k : string) : bool :=
  match dict_get d k with Some _ => true | None => false end.

(** [v["S"]], [v["N"]], [v["BOOL"]], [v["M"]], [v["L"]] on a typed
    envelope; [None] stands for [KeyError]. *)
Definition get_S (v : AttributeValue) : option string :=
  match v with AV_S s => Some s | _ => None end.
Definition get_N (v : AttributeValue) : option string :=
  match v with AV_N n => Some n | _ => None end.
Definition get_BOOL (v : AttributeValue) : option bool :=
  match v with AV_BOOL b => Some b | _ => None end.
Definition get_M (v : AttributeValue) : option Item :=
  match v with AV_M m => Some m | _ => None end.
Definition get_L (v : AttributeValue) : option (list AttributeValue) :=
  match v with AV_L l => Some l | _ => None end.

(** [d[k]["S"]] and its siblings. *)
Definition S_at (d : Item) (k : string) : option string :=
  v ← dict_get d k; get_S v.
Definition N_at (d : Item) (k : string) : option string :=
  v ← dict_get d k; get_N v.
Definition BOOL_at (d : Item) (k : string) : option bool :=
  v ← dict_get d k; get_BOOL v.
Definition M_at (d : Item) (k : string) : option Item :=
  v ← dict_get d k; get_M v.
Definition L_at (d : Item) (k : string) : option (list AttributeValue) :=
  v ← dict_get d k; get_L v.

(** The farmer-profiles table behind the client, keyed by [farmerId];
    [available] is off when calls fail with some other [ClientError]. *)
Record DynamoDB := {
  table : gmap string Item;
  available : bool
}.

Inductive put_result :=
| PutDone (db : DynamoDB)
| PutClientError (code : string).

Inductive get_result :=
| GetDone (found : option Item)
| GetClientError (code : string).

(** [put_item(TableName, Item, ConditionExpression="attribute_not_exists(farmerId)")]. *)
Definition put_item (db : DynamoDB) (item : Item) : put_result :=
  if negb (available db) then PutClientError "ServiceUnavailable"
  else match S_at item "farmerId" with
       | None => PutClientError "ValidationException"
       | Some key =>
           match table db !! key with
           | Some _ => PutClientError "ConditionalCheckFailedException"
           | None => PutDone {| table := <[key := item]> (table db);
                                available := available db |}
           end
       end.

(** [get_item(TableName, Key={"farmerId": {"S": farmer_id}})]. *)
Definition get_item (db : DynamoDB) (farmer_id : string) : get_result :=
  if negb (available db) then GetClientError "ServiceUnavailable"
  else GetDone (table db !! farmer_id).

Section Models.
Context `{PyFloat} `{PyDatetime}.

(** ** The request and response models *)

Record Location := {
  state : string;
  district : string;
  village : string;
  latitude : option float;
  longitude : option float
}.

Record CropInfo := {
  crop_type : string;
  area : float;
  planting_date : option datetime;
  expected_harvest : option datetime
}.

Record FarmDetails := {
  total_land_area : float;
  soil_type : string;
  irrigation_type : string;
  crops : list CropInfo
}.

Record Preferences := {
  organic_farming : bool;
  risk_tolerance : string;
  preferred_language : string
}.

Record FarmerProfile := {
  name : string;
  phone_number : string;
  location : Location;
  farm_details : FarmDetails;
  preferences : Preferences
}.

Record FarmerProfileResponse := {
  r_farmer_id : string;
  r_name : string;
  r_phone_number : string;
  r_location : Location;
  r_farm_details : FarmDetails;
  r_preferences : Preferences;
  r_created_at : datetime;
  r_updated_at : datetime
}.

(** ** Field constraints *)

(** [Field(gt=0)]. *)
Definition gt0 (x : float) : bool := float_gt x (float_of_int 0).

(** The pattern [^[+]?[1-9]\d{1,14}$] of [FarmerProfile.phone_number]. *)
Definition phone_pattern (s : string) : bool :=
  let after_plus :=
    match s with
    | String c r => if Ascii.eqb c "+" then r else s
    | EmptyString => s
    end in
  match after_plus with
  | String d ds =>
      in_range "1" "9" d && forallb isdigit (chars ds)
      && (1 <=? len ds) && (len ds <=? 14)
  | EmptyString => false
  end.

(** The pattern [^(low|medium|high)$]. *)
Definition risk_tolerance_pattern (s : string) : bool :=
  String.eqb s "low" || String.eqb s "medium" || String.eqb s "high".

(** The pattern [^(hi|ta|te|bn|mr|gu|pa)$]. *)
Definition preferred_language_pattern (s : string) : bool :=
  existsb (String.eqb s) ["hi"; "ta"; "te"; "bn"; "mr"; "gu"; "pa"].

Definition CropInfo_ok (c : CropInfo) : bool := gt0 (area c).

Definition FarmDetails_ok (f : FarmDetails) : bool :=
  gt0 (total_land_area f) && forallb CropInfo_ok (crops f).

Definition Preferences_ok (p : Preferences) : bool :=
  risk_tolerance_pattern (risk_tolerance p)
  && preferred_language_pattern (preferred_language p).

(** Whether a request body passes the validation of [FarmerProfile]. *)
Definition FarmerProfile_ok (p : FarmerProfile) : bool :=
  phone_pattern (phone_number p)
  && FarmDetails_ok (farm_details p)
  && Preferences_ok (preferences p).

(** Building a constrained model inside a handler: [None] stands for
    the [ValidationError] it raises. *)
Definition CropInfo_new (ct : string) (a : float) : option CropInfo :=
  let c := {| crop_type := ct; area := a;
              planting_date := None; expected_harvest := None |} in
  if CropInfo_ok c then Some c else None.

Definition FarmDetails_new (t : float) (soil irrigation : string)
           (cs : list CropInfo) : option FarmDetails :=
  if gt0 t
  then Some {| total_land_area := t; soil_type := soil;
               irrigation_type := irrigation; crops := cs |}
  else None.

Definition Preferences_new (o : bool) (rt lang : string) : option Preferences :=
  let p := {| organic_farming := o; risk_tolerance := rt;
              preferred_language := lang |} in
  if Preferences_ok p then Some p else None.

(** ** POST /farmers *)

Definition crop_item (crop : CropInfo) : AttributeValue :=
  AV_M [ ("cropType", AV_S (crop_type crop));
         ("area", AV_N (float_str (area crop))) ].

(** The [location] map: the three names, then [latitude] and
    [longitude] when they are not [None]. *)
Definition location_item (l : Location) : Item :=
  [ ("state", AV_S (state l));
    ("district", AV_S (district l));
    ("village", AV_S (village l)) ]
  ++ match latitude l with
     | Some x => [ ("latitude", AV_N (float_str x)) ]
     | None => []
     end
  ++ match longitude l with
     | Some x => [ ("longitude", AV_N (float_str x)) ]
     | None => []
     end.

Definition profile_item (farmer_id : string) (current_time : datetime)
           (p : FarmerProfile) : Item :=
  [ ("farmerId", AV_S farmer_id);
    ("name", AV_S (name p));
    ("phoneNumber", AV_S (phone_number p));
    ("location", AV_M (location_item (location p)));
    ("farmDetails",
      AV_M [ ("totalLandArea", AV_N (float_str (total_land_area (farm_details p))));
             ("soilType", AV_S (soil_type (farm_details p)));
             ("irrigationType", AV_S (irrigation_type (farm_details p)));
             ("crops", AV_L (map crop_item (crops (farm_details p)))) ]);
    ("preferences",
      AV_M [ ("organicFarming", AV_BOOL (organic_farming (preferences p)));
             ("riskTolerance", AV_S (risk_tolerance (preferences p)));
             ("preferredLanguage", AV_S (preferred_language (preferences p))) ]);
    ("createdAt", AV_S (isoformat current_time));
    ("updatedAt", AV_S (isoformat current_time)) ].

(** The handler; [farmer_id] is the fresh [uuid4()] and [current_time]
    the clock reading it takes. *)
Definition create_farmer_profile (farmer_id : string) (current_time : datetime)
           (farmer_profile : FarmerProfile) (dynamodb : DynamoDB)
  : response FarmerProfileResponse * DynamoDB :=
  let item := profile_item farmer_id current_time farmer_profile in
  match put_item dynamodb item with
  | PutDone db' =>
      (Returned 201
         {| r_farmer_id := farmer_id;
            r_name := name farmer_profile;
            r_phone_number := phone_number farmer_profile;
            r_location := location farmer_profile;
            r_farm_details := farm_details farmer_profile;
            r_preferences := preferences farmer_profile;
            r_created_at := current_time;
            r_updated_at := current_time |}, db')
  | PutClientError code =>
      if String.eqb code "ConditionalCheckFailedException"
      then (HTTPException 409 "Farmer profile already exists", dynamodb)
      else (HTTPException 500 "Failed to create farmer profile", dynamodb)
  end.

(** The route: the body is validated first, and refused with 422. *)
Definition post_farmers (farmer_id : string) (current_time : datetime)
           (body : FarmerProfile) (dynamodb : DynamoDB)
  : response FarmerProfileResponse * DynamoDB :=
  if FarmerProfile_ok body
  then create_farmer_profile farmer_id current_time body dynamodb
  else (HTTPException 422 "Unprocessable Entity", dynamodb).

(** ** GET /farmers/{farmer_id} *)

(** [float(m[k]["N"]) if k in m else None]; the outer [None] stands for
    an exception. *)
Definition optional_float (m : Item) (k : string) : option (option float) :=
  if dict_has m k
  then n ← N_at m k; x ← float_parse n; Some (Some x)
  else Some None.

Definition parse_crop (crop : AttributeValue) : option CropInfo :=
  m ← get_M crop;
  ct ← S_at m "cropType";
  n ← N_at m "area";
  a ← float_parse n;
  CropInfo_new ct a.

(** The list comprehension over [crops]. *)
Fixpoint parse_crops (l : list AttributeValue) : option (list CropInfo) :=
  match l with
  | [] => Some []
  | crop :: rest =>
      c ← parse_crop crop;
      cs ← parse_crops rest;
      Some (c :: cs)
  end.

(** Reading the stored item back into the response model; [None]
    stands for an exception other than [ClientError]. *)
Definition parse_item (farmer_id : string) (item : Item) : option FarmerProfileResponse :=
  loc ← M_at item "location";
  st ← S_at loc "state";
  di ← S_at loc "district";
  vi ← S_at loc "village";
  lat ← optional_float loc "latitude";
  lon ← optional_float loc "longitude";
  let location := {| state := st; district := di; village := vi;
                     latitude := lat; longitude := lon |} in
  fd ← M_at item "farmDetails";
  l ← L_at fd "crops";
  cs ← parse_crops l;
  n ← N_at fd "totalLandArea";
  t ← float_parse n;
  soil ← S_at fd "soilType";
  irr ← S_at fd "irrigationType";
  farm_details ← FarmDetails_new t soil irr cs;
  pr ← M_at item "preferences";
  o ← BOOL_at pr "organicFarming";
  rt ← S_at pr "riskTolerance";
  lang ← S_at pr "preferredLanguage";
  preferences ← Preferences_new o rt lang;
  nm ← S_at item "name";
  ph ← S_at item "phoneNumber";
  created_s ← S_at item "createdAt";
  created ← fromisoformat created_s;
  updated_s ← S_at item "updatedAt";
  updated ← fromisoformat updated_s;
  Some {| r_farmer_id := farmer_id;
          r_name := nm;
          r_phone_number := ph;
          r_location := location;
          r_farm_details := farm_details;
          r_preferences := preferences;
          r_created_at := created;
          r_updated_at := updated |}.

(** The handler.  An exception that is not a [ClientError] reaches the
    application's global handler, which answers 500. *)
Definition get_farmer_profile (farmer_id : string) (dynamodb : DynamoDB)
  : response FarmerProfileResponse :=
  match get_item dynamodb farmer_id with
  | GetClientError _ => HTTPException 500 "Failed to retrieve farmer profile"
  | GetDone None => HTTPException 404 "Farmer profile not found"
  | GetDone (Some item) =>
      match parse_item farmer_id item with
      | Some r => Returned 200 r
      | None => HTTPException 500 "Internal server error"
      end
  end.

(** ** Vocabulary of the round-trip property *)

(** A crop as it comes back from the table: its two dates are not
    stored. *)
Definition without_dates (c : CropInfo) : CropInfo :=
  {| crop_type := crop_type c; area := area c;
     planting_date := None; expected_harvest := None |}.

(** What [GET] answers for a profile stored by [POST]. *)
Definition stored_view (farmer_id : string) (current_time : datetime)
           (p : FarmerProfile) : FarmerProfileResponse :=
  {| r_farmer_id := farmer_id;
     r_name := name p;
     r_phone_number := phone_number p;
     r_location := location p;
     r_farm_details :=
       {| total_land_area := total_land_area (farm_details p);
          soil_type := soil_type (farm_details p);
          irrigation_type := irrigation_type (farm_details p);
          crops := map without_dates (crops (farm_details p)) |};
     r_preferences := preferences p;
     r_created_at := current_time;
     r_updated_at := current_time |}.

(** [float(str(x))] gives [x] back. *)
Definition float_roundtrips (x : float) : Prop := float_parse (float_str x) = Some x.

Definition optional_roundtrips (x : option float) : Prop :=
  match x with Some x' => float_roundtrips x' | None => True end.

(** Every number of the body survives [str] then [float]. *)
Definition numbers_roundtrip (p : FarmerProfile) : Prop :=
  optional_roundtrips (latitude (location p))
  /\ optional_roundtrips (longitude (location p))
  /\ float_roundtrips (total_land_area (farm_details p))
  /\ Forall (fun c => float_roundtrips (area c)) (crops (farm_details p)).

(** The Indian mobile pattern [^\+91[6-9]\d{9}$] of [ContactInfo]. *)
Definition indian_mobile_pattern (s : string) : bool :=
  startswith s "+91" && validation.mobile10 (drop 3 s).

End Models.

End farmers_api.

(** Sample requests over the computing instances. *)
Module farmers_api_samples.
Import farmers_api ZInstances.

Definition empty_table : DynamoDB := {| table := ∅; available := true |}.

(** A body in the shape of the test fixtures, over the computing instances:
    numbers are whole, a date is a day number. *)
Definition sample_body (phone : string) (sown : option Z) : FarmerProfile :=
  {| name := "Ram Kumar";
     phone_number := phone;
     location := {| state := "Uttar Pradesh"; district := "Lucknow";
                    village := "Ramnagar";
                    latitude := Some 26; longitude := Some 80 |};
     farm_details :=
       {| total_land_area := 5; soil_type := "loamy"; irrigation_type := "tubewell";
          crops := [ {| crop_type := "wheat"; area := 3;
                        planting_date := sown; expected_harvest := None |};
                     {| crop_type := "gram"; area := 2;
                        planting_date := None; expected_harvest := None |} ] |};
     preferences := {| organic_farming := true; risk_tolerance := "medium";
                       preferred_language := "hi" |} |}.

Definition sample_time : datetime := 20240115.


(** A table of [n] profiles, under the ids [f-0], [f-1], ... *)
Definition table_of (n : nat) : DynamoDB :=
  {| table :=
       list_to_map
         (map (fun i : nat =>
                 let farmer_id := "f-" +++ Z_str (Z.of_nat i) in
                 (farmer_id,
                  profile_item farmer_id sample_time
                    (sample_body "+919876543210" None)))
            (seq 0 n));
     available := true |}.

End farmers_api_samples.

(* ===================================================================== *)
(** * core/security/encryption.py: the encryption service *)
(* ===================================================================== *)

Module security_encryption.
Import Py.

Definition bytes := list Byte.byte.

(** The [cryptography] library's Fernet: [nonce] is the clock reading and
    the random IV drawn by one [encrypt] call; [fernet_decrypt] answers
    [None] where the library raises [InvalidToken]. *)
Class Fernet := {
  fernet_key : Type;
  nonce : Type;
  fernet_encrypt : fernet_key -> nonce -> bytes -> bytes;
  fernet_decrypt : fernet_key -> bytes -> option bytes
}.

(** Authenticated encryption: a token opens under its own key and under no
    other. *)
Class FernetLaws `{Fernet} : Prop := {
  fernet_opens : forall k n m, fernet_decrypt k (fernet_encrypt k n m) = Some m;
  fernet_rejects : forall k k' n m, k <> k' -> fernet_decrypt k' (fernet_encrypt k n m) = None
}.

(** [str.encode()], [bytes.decode()] and the URL-safe base64 of the
    standard library; [None] stands for the exception of a failed decode. *)
Class PyCodec := {
  str_encode : string -> bytes;
  bytes_decode : bytes -> option string;
  urlsafe_b64encode : bytes -> bytes;
  urlsafe_b64decode : bytes -> option bytes
}.

Class PyCodecLaws `{PyCodec} : Prop := {
  decode_encode : forall s, bytes_decode (str_encode s) = Some s;
  b64decode_b64encode : forall b, urlsafe_b64decode (urlsafe_b64encode b) = Some b;
  b64_is_text : forall b, exists t,
      bytes_decode (urlsafe_b64encode b) = Some t /\ str_encode t = urlsafe_b64encode b
}.

(** The Python values handed to the service. *)
#[warnings="-register-all"]
Inductive pyvalue :=
| PNone
| PBool (b : bool)
| PInt (z : Z)
| PStr (s : string)
| PList (l : list pyvalue)
| PDict (d : list (string * pyvalue)).

(** [json.dumps(v, default=str)], [json.loads(s)] ([None] for
    [JSONDecodeError]) and [str(v)]. *)
Class PyJson := {
  json_dumps : pyvalue -> string;
  json_loads : string -> option pyvalue;
  py_str : pyvalue -> string
}.

(** What [encrypt] and [decrypt] produce: the value, or the
    [EncryptionError] they raise for any exception underneath. *)
Inductive outcome (A : Type) : Type :=
| Ok (a : A)
| EncryptionError.
Arguments Ok {A} a.
Arguments EncryptionError {A}.

Section Service.
Context `{Fernet} `{PyCodec} `{PyJson}.

(** An [EncryptionService]: the Fernet built from its key. *)
Record EncryptionService := { key : fernet_key }.

Definition encrypt (self : EncryptionService) (n : nonce) (data : pyvalue)
  : outcome string :=
  let data :=
    match data with
    | PDict _ => json_dumps data
    | PStr s => s
    | _ => py_str data
    end in
  let encrypted_data := fernet_encrypt (key self) n (str_encode data) in
  match bytes_decode (urlsafe_b64encode encrypted_data) with
  | Some text => Ok text
  | None => EncryptionError
  end.

Definition decrypt (self : EncryptionService) (encrypted_data : string)
  : outcome string :=
  match urlsafe_b64decode (str_encode encrypted_data) with
  | None => EncryptionError
  | Some encrypted_bytes =>
      match fernet_decrypt (key self) encrypted_bytes with
      | None => EncryptionError
      | Some decrypted_data =>
          match bytes_decode decrypted_data with
          | Some text => Ok text
          | None => EncryptionError
          end
      end
  end.

(** [encrypt_dict]: [entropy k] is the nonce drawn when the value under
    [k] is encrypted.  The first [EncryptionError] propagates. *)
Fixpoint encrypt_dict (self : EncryptionService) (entropy : string -> nonce)
         (data : list (string * pyvalue))
  : outcome (list (string * option string)) :=
  match data with
  | [] => Ok []
  | (k, value) :: rest =>
      let entry :=
        match value with
        | PNone => Ok None
        | _ => match encrypt self (entropy k) value with
               | Ok t => Ok (Some t)
               | EncryptionError => EncryptionError
               end
        end in
      match entry, encrypt_dict self entropy rest with
      | Ok e, Ok rest' => Ok ((k, e) :: rest')
      | _, _ => EncryptionError
      end
  end.

(** [decrypt_dict]: a value that fails to decrypt is kept as it is; a
    decrypted text that parses as JSON is replaced by the parsed value. *)
Definition decrypt_dict (self : EncryptionService)
           (encrypted_data : list (string * option string))
  : list (string * pyvalue) :=
  map (fun '(k, value) =>
         match value with
         | None => (k, PNone)
         | Some t =>
             match decrypt self t with
             | Ok decrypted_value =>
                 match json_loads decrypted_value with
                 | Some parsed => (k, parsed)
                 | None => (k, PStr decrypted_value)
                 end
             | EncryptionError => (k, PStr t)
             end
         end) encrypted_data.

(** The text that [encrypt] puts under the cipher. *)
Definition plaintext_of (data : pyvalue) : string :=
  match data with
  | PDict _ => json_dumps data
  | PStr s => s
  | _ => py_str data
  end.

(** The value a caller holds after [encrypt] then [decrypt]. *)
Definition encrypt_then_decrypt (enc dec : EncryptionService) (n : nonce)
           (data : pyvalue) : outcome pyvalue :=
  match encrypt enc n data with
  | Ok t => match decrypt dec t with
            | Ok s => Ok (PStr s)
            | EncryptionError => EncryptionError
            end
  | EncryptionError => EncryptionError
  end.

End Service.

(** Instances to compute with: a one-byte key that tags the token, bytes
    read as the characters of the same code, base64 left out, and a JSON
    printer and reader that cover what the examples use. *)
Module Model.

#[export] Instance tag_Fernet : Fernet := {|
  fernet_key := Byte.byte;
  nonce := unit;
  fernet_encrypt := fun k _ m => k :: m;
  fernet_decrypt := fun k t =>
    match t with
    | b :: m => if Byte.eqb b k then Some m else None
    | [] => None
    end
|}.

#[export] Instance latin1_PyCodec : PyCodec := {|
  str_encode := list_byte_of_string;
  bytes_decode := fun b => Some (string_of_list_byte b);
  urlsafe_b64encode := fun b => b;
  urlsafe_b64decode := fun b => Some b
|}.

(** [s] between double quotes. *)
Definition quoted (s : string) : string := String "034" (s +++ String "034" "").

Fixpoint dumps (v : pyvalue) : string :=
  match v with
  | PNone => "null"
  | PBool true => "true"
  | PBool false => "false"
  | PInt z => ZInstances.Z_str z
  | PStr s => quoted s
  | PList l =>
      "[" +++ (fix items (l : list pyvalue) : string :=
                 match l with
                 | [] => ""
                 | [x] => dumps x
                 | x :: r => dumps x +++ ", " +++ items r
                 end) l +++ "]"
  | PDict d =>
      "{" +++ (fix items (d : list (string * pyvalue)) : string :=
                 match d with
                 | [] => ""
                 | [(k, x)] => quoted k +++ ": " +++ dumps x
                 | (k, x) :: r => quoted k +++ ": " +++ dumps x +++ ", " +++ items r
                 end) d +++ "}"
  end.

Definition loads (s : string) : option pyvalue :=
  if String.eqb s "null" then Some PNone
  else if String.eqb s "true" then Some (PBool true)
  else if String.eqb s "false" then Some (PBool false)
  else match s with
       | String c _ =>
           if isdigit c || Ascii.eqb c "-"
           then option_map PInt (ZInstances.Z_parse s)
           else None
       | EmptyString => None
       end.

#[export] Instance small_PyJson : PyJson := {|
  json_dumps := dumps;
  json_loads := loads;
  py_str := fun v => match v with
                     | PBool true => "True"
                     | PBool false => "False"
                     | PNone => "None"
                     | PInt z => ZInstances.Z_str z
                     | PStr s => s
                     | _ => dumps v
                     end
|}.

Definition service_a : EncryptionService := {| key := Byte.x41 |}.
Definition service_b : EncryptionService := {| key := Byte.x42 |}.
Definition no_entropy : string -> nonce := fun _ => tt.

End Model.

End security_encryption.

(* ===================================================================== *)
(** * core/utils/validation.py: text sanitising *)
(* ===================================================================== *)

Module validation_others.
Import Py validation.

(** The class [[\x00-\x08\x0B\x0C\x0E-\x1F\x7F]]. *)
Definition is_control (c : ascii) : bool :=
  in_range "000" "008" c || Ascii.eqb c "011" || Ascii.eqb c "012"
  || in_range "014" "031" c || Ascii.eqb c "127".

(** The class [\s], which is also what [str.strip()] removes: the code
    points below 256 for which [str.isspace()] holds. *)
Definition isspace (c : ascii) : bool :=
  in_range "009" "013" c || in_range "028" "032" c
  || Ascii.eqb c "133" || Ascii.eqb c "160".

(** [re.sub(r'\s+', ' ', s)]: every maximal run of whitespace becomes one
    space; [in_run] tells whether the previous character was whitespace. *)
Fixpoint collapse_spaces (in_run : bool) (s : string) : string :=
  match s with
  | EmptyString => EmptyString
  | String c r =>
      if isspace c
      then if in_run then collapse_spaces true r
           else String " " (collapse_spaces true r)
      else String c (collapse_spaces false r)
  end.

(** [s.lstrip()], [s.rstrip()] and [s.strip()]. *)
Fixpoint lstrip (s : string) : string :=
  match s with
  | EmptyString => EmptyString
  | String c r => if isspace c then lstrip r else s
  end.

Fixpoint rstrip (s : string) : string :=
  match s with
  | EmptyString => EmptyString
  | String c r =>
      match rstrip r with
      | EmptyString => if isspace c then EmptyString else String c EmptyString
      | r' => String c r'
      end
  end.

Definition strip (s : string) : string := rstrip (lstrip s).

(** Truthiness of an [Optional[int]]: [None] and [0] are false. *)
Definition truthy_int (n : option Z) : bool :=
  match n with
  | Some m => negb (m =? 0)
  | None => false
  end.

Definition sanitize_text (text : string) (max_length : option Z) : string :=
  if negb (truthy text) then ""
  else
    let sanitized := re_sub_class is_control text in
    let sanitized := strip (collapse_spaces false sanitized) in
    match max_length with
    | Some m =>
        if truthy_int max_length && (len sanitized >? m)
        then strip (slice_to sanitized m)
        else sanitized
    | None => sanitized
    end.

(** ** Vocabulary *)

(** The digits of an input, in order. *)
Definition digits_only (s : string) : string :=
  re_sub_class (fun c => negb (isdigit c)) s.

(** [s'] is [s] with one character replaced by a different one. *)
Definition substituted (s s' : string) : Prop :=
  exists l1 a b l2,
    a <> b /\ chars s = l1 ++ a :: l2 /\ chars s' = l1 ++ b :: l2.

(** [s'] is [s] with two different neighbouring characters swapped. *)
Definition transposed (s s' : string) : Prop :=
  exists l1 a b l2,
    a <> b /\ chars s = l1 ++ a :: b :: l2 /\ chars s' = l1 ++ b :: a :: l2.

Definition in_digit_range (n : Z) : Prop := 0 <= n <= 9.

Definition digits10 : list Z := [0; 1; 2; 3; 4; 5; 6; 7; 8; 9].
Definition positions8 : list Z := [0; 1; 2; 3; 4; 5; 6; 7].

(** A character that sanitised text may hold: not a control character of
    the removed class, and no whitespace but the plain space. *)
Definition tidy_char (c : ascii) : bool :=
  negb (is_control c) && (negb (isspace c) || Ascii.eqb c " ").

(** No two spaces in a row, given whether the previous character was one. *)
Fixpoint single_spaced (after_space : bool) (s : string) : bool :=
  match s with
  | EmptyString => true
  | String c r =>
      if Ascii.eqb c " " then negb after_space && single_spaced true r
      else single_spaced false r
  end.

Fixpoint ends_with_space (s : string) : bool :=
  match s with
  | EmptyString => false
  | String c r =>
      match r with
      | EmptyString => Ascii.eqb c " "
      | String _ _ => ends_with_space r
      end
  end.

(** Sanitised text: tidy characters only, single spaces, and no space at
    either end. *)
Definition tidy (s : string) : bool :=
  forallb tidy_char (chars s) && single_spaced true s && negb (ends_with_space s).

End validation_others.

(* ===================================================================== *)
(** * core/utils/formatting.py: indexing a text *)
(* ===================================================================== *)

Module formatting_others.
Import Py.

(** [text[i]] for [0 <= i]; [None] stands for [IndexError]. *)
Fixpoint char_at (s : string) (i : nat) : option ascii :=
  match s, i with
  | EmptyString, _ => None
  | String c _, O => Some c
  | String _ r, S i' => char_at r i'
  end.

End formatting_others.

(* ===================================================================== *)
(** * core/security/encryption.py: the other maskers of DataMasking *)
(* ===================================================================== *)

Module masking_others.
Import Py masking.

(** [DataMasking.mask_email]: ["@" not in email] is [split_at email = None]. *)
Definition mask_email (email : string) : string :=
  if negb (truthy email) then "****@****.***"
  else match split_at email with
       | None => "****@****.***"
       | Some (local_, domain) => "****@" +++ domain
       end.

(** [DataMasking.mask_aadhaar]. *)
Definition mask_aadhaar (aadhaar : string) : string :=
  if negb (truthy aadhaar) || (len aadhaar <? 4) then "****"
  else "****-****-" +++ slice_from aadhaar (-4).

(** [DataMasking.mask_name]. *)
Definition mask_name (name : string) : string :=
  if negb (truthy name) then "****"
  else first_char name +++ replicate_char (Z.to_nat (len name - 1)) "*".

(** ** Vocabulary *)

(** [c not in s]. *)
Definition lacks (c : ascii) (s : string) : bool :=
  forallb (fun a => negb (Ascii.eqb a c)) (chars s).

(** Every character is a star. *)
Definition all_stars (s : string) : bool :=
  forallb (fun a => Ascii.eqb a "*") (chars s).

End masking_others.

(* ===================================================================== *)
(** * api/v1/farmers.py: listing *)
(* ===================================================================== *)

Module farmers_api_list.
Import Py farmers_api.

Inductive scan_result :=
| ScanDone (items : list Item)
| ScanClientError (code : string)
| ScanRaised.

(** [scan(TableName, Limit=limit)].  The client refuses a [Limit] below 1
    before any call, with an exception that is not a [ClientError]
    ([ScanRaised]); otherwise the table answers with at most [limit] of its
    items. *)
Definition scan (db : DynamoDB) (limit : Z) : scan_result :=
  if limit <? 1 then ScanRaised
  else if negb (available db) then ScanClientError "ServiceUnavailable"
  else ScanDone (firstn (Z.to_nat limit) (map snd (map_to_list (table db)))).

Section Models.
Context `{PyFloat} `{PyDatetime}.

(** One turn of the loop over the items: the profile of an item, its id
    read from [item["farmerId"]["S"]]; [None] stands for an exception. *)
Definition parse_listed_item (item : Item) : option FarmerProfileResponse :=
  farmer_id ← S_at item "farmerId";
  parse_item farmer_id item.

Fixpoint parse_listed_items (items : list Item) : option (list FarmerProfileResponse) :=
  match items with
  | [] => Some []
  | item :: rest =>
      p ← parse_listed_item item;
      ps ← parse_listed_items rest;
      Some (p :: ps)
  end.

(** The handler; [limit] is the query parameter. *)
Definition list_farmer_profiles (limit : Z) (dynamodb : DynamoDB)
  : response (list FarmerProfileResponse) :=
  match scan dynamodb (Z.min limit 100) with
  | ScanClientError _ => HTTPException 500 "Failed to retrieve farmer profiles"
  | ScanRaised => HTTPException 500 "Internal server error"
  | ScanDone items =>
      match parse_listed_items items with
      | Some profiles => Returned 200 profiles
      | None => HTTPException 500 "Internal server error"
      end
  end.

End Models.

(** The top-level attributes that reading an item back needs. *)
Definition required_attributes : list string :=
  [ "location"; "farmDetails"; "preferences"; "name"; "phoneNumber";
    "createdAt"; "updatedAt" ].

End farmers_api_list.

(* ===================================================================== *)
(** * core/utils/formatting.py: durations *)
(* ===================================================================== *)

Module formatting_duration.
Import Py.

(** [str(n)] of a Python [int], as an f-string prints it. *)
Definition str_int (n : Z) : string := ZInstances.Z_str n.

(** [format_duration]; [//] and [%] are floor division and its remainder. *)
Definition format_duration (seconds : Z) : string :=
  if seconds <? 60 then str_int seconds +++ "s"
  else if seconds <? 3600 then
    let minutes := seconds / 60 in
    let remaining_seconds := seconds mod 60 in
    if remaining_seconds =? 0 then str_int minutes +++ "m"
    else str_int minutes +++ "m " +++ str_int remaining_seconds +++ "s"
  else
    let hours := seconds / 3600 in
    let remaining_minutes := (seconds mod 3600) / 60 in
    if remaining_minutes =? 0 then str_int hours +++ "h"
    else str_int hours +++ "h " +++ str_int remaining_minutes +++ "m".

(** The characters a printed [int] is made of. *)
Definition numeric (c : ascii) : bool := isdigit c || Ascii.eqb c "-".

Fixpoint all_numeric (s : string) : bool :=
  match s with
  | EmptyString => true
  | String c r => numeric c && all_numeric r
  end.

(** The five spellings. *)
Inductive spelling (seconds : Z) : string -> Prop :=
| spell_s : seconds < 60 -> spelling seconds (str_int seconds +++ "s")
| spell_m : 60 <= seconds < 3600 -> seconds mod 60 = 0 ->
            spelling seconds (str_int (seconds / 60) +++ "m")
| spell_ms : 60 <= seconds < 3600 -> seconds mod 60 <> 0 ->
             spelling seconds (str_int (seconds / 60) +++ "m "
                               +++ str_int (seconds mod 60) +++ "s")
| spell_h : 3600 <= seconds -> (seconds mod 3600) / 60 = 0 ->
            spelling seconds (str_int (seconds / 3600) +++ "h")
| spell_hm : 3600 <= seconds -> (seconds mod 3600) / 60 <> 0 ->
             spelling seconds (str_int (seconds / 3600) +++ "h "
                               +++ str_int ((seconds mod 3600) / 60) +++ "m").

End formatting_duration.

(* ===================================================================== *)
(** * core/security/encryption.py: dictionaries and FieldEncryption *)
(* ===================================================================== *)

Module security_encryption_fields.
Import Py security_encryption.

(** A Python [dict] with string keys, in insertion order. *)
Definition pydict := list (string * pyvalue).

(** [d.get(k)], with [None] of Rocq for a key that is not in [d]. *)
Fixpoint pydict_get (d : pydict) (k : string) : option pyvalue :=
  match d with
  | [] => None
  | (k', v) :: r => if String.eqb k' k then Some v else pydict_get r k
  end.

(** [d[k] = v]: an entry that exists keeps its place, a new one goes last. *)
Fixpoint pydict_set (d : pydict) (k : string) (v : pyvalue) : pydict :=
  match d with
  | [] => [(k, v)]
  | (k', v') :: r =>
      if String.eqb k' k then (k', v) :: r else (k', v') :: pydict_set r k v
  end.

(** [v is None] and [bool(v)]. *)
Definition is_none (v : pyvalue) : bool :=
  match v with PNone => true | _ => false end.

Definition truthy_value (v : pyvalue) : bool :=
  match v with
  | PNone => false
  | PBool b => b
  | PInt z => negb (z =? 0)
  | PStr s => negb (String.eqb s "")
  | PList l => match l with [] => false | _ => true end
  | PDict d => match d with [] => false | _ => true end
  end.

(** A string, a number or a boolean: what has no [copy]. *)
Definition is_scalar (v : pyvalue) : bool :=
  match v with
  | PBool _ | PInt _ | PStr _ => true
  | _ => false
  end.

(** [field in l] for a list [l]: some element equals the string. *)
Definition list_has (l : list pyvalue) (field : string) : bool :=
  existsb (fun x => match x with PStr s => String.eqb s field | _ => false end) l.

(** What a method of [FieldEncryption] does: it returns, or one of three
    exceptions leaves it. *)
Inductive raising (A : Type) : Type :=
| Returns (a : A)
| RaisesEncryptionError
| RaisesAttributeError
| RaisesTypeError.
Arguments Returns {A} a.
Arguments RaisesEncryptionError {A}.
Arguments RaisesAttributeError {A}.
Arguments RaisesTypeError {A}.

(** [self.sensitive_fields.get(group, [])]. *)
Definition sensitive_fields (group : string) : list string :=
  if String.eqb group "farmer_profile" then
    ["name"; "father_name"; "aadhaar_number"; "pan_number";
     "phone_number"; "email"; "bank_account_details"]
  else if String.eqb group "location" then
    ["street"; "village"; "coordinates"]
  else if String.eqb group "contact_info" then
    ["primary_phone"; "secondary_phone"; "whatsapp_number"; "email"]
  else [].

Section Service.
Context `{Fernet} `{PyCodec} `{PyJson}.

(** The string one [encrypt] call yields. *)
Definition token (self : EncryptionService) (n : nonce) (data : pyvalue) : string :=
  match encrypt self n data with
  | Ok t => t
  | EncryptionError => ""
  end.

(** What [decrypt_dict] makes of a decrypted text. *)
Definition reread (text : string) : pyvalue :=
  match json_loads text with
  | Some parsed => parsed
  | None => PStr text
  end.

(** [decrypt] of any value: one that is not a [str] has no [encode], which
    [decrypt] turns into its error like every other exception. *)
Definition decrypt_value (self : EncryptionService) (v : pyvalue) : outcome string :=
  match v with
  | PStr t => decrypt self t
  | _ => EncryptionError
  end.

(** One round of the loop over the sensitive fields of a dict, in
    [encrypt_farmer_profile]; [n] is the nonce drawn if [encrypt] is
    called. *)
Definition encrypt_field (self : EncryptionService) (n : nonce) (d : pydict)
           (field : string) : raising pydict :=
  match pydict_get d field with
  | Some v =>
      if is_none v then Returns d
      else match encrypt self n v with
           | Ok t => Returns (pydict_set d field (PStr t))
           | EncryptionError => RaisesEncryptionError
           end
  | None => Returns d
  end.

Fixpoint encrypt_fields (self : EncryptionService) (entropy : string -> nonce)
         (d : pydict) (fields : list string) : raising pydict :=
  match fields with
  | [] => Returns d
  | field :: rest =>
      match encrypt_field self (entropy field) d field with
      | Returns d' => encrypt_fields self entropy d' rest
      | e => e
      end
  end.

(** The block for [location] and the one for [contact_info]: a truthy
    value is copied, which only a dict or a list allows; a list that holds
    a field name is then indexed by it. *)
Definition encrypt_group (self : EncryptionService) (entropy : string -> string -> nonce)
           (group : string) (data : pydict) : raising pydict :=
  match pydict_get data group with
  | Some c =>
      if truthy_value c then
        match c with
        | PDict inner =>
            match encrypt_fields self (entropy group) inner (sensitive_fields group) with
            | Returns inner' => Returns (pydict_set data group (PDict inner'))
            | e => e
            end
        | PList l =>
            if existsb (list_has l) (sensitive_fields group) then RaisesTypeError
            else Returns (pydict_set data group (PList l))
        | _ => RaisesAttributeError
        end
      else Returns data
  | None => Returns data
  end.

(** [FieldEncryption.encrypt_farmer_profile]; [entropy group field] is the
    nonce drawn for that field. *)
Definition encrypt_farmer_profile (self : EncryptionService)
           (entropy : string -> string -> nonce) (profile_data : pydict)
  : raising pydict :=
  match encrypt_fields self (entropy "farmer_profile") profile_data
          (sensitive_fields "farmer_profile") with
  | Returns encrypted_data =>
      match encrypt_group self entropy "location" encrypted_data with
      | Returns encrypted_data => encrypt_group self entropy "contact_info" encrypted_data
      | e => e
      end
  | e => e
  end.

(** One round of a loop of [decrypt_farmer_profile]: a field that does not
    decrypt is passed over. *)
Definition decrypt_field (self : EncryptionService) (d : pydict) (field : string)
  : pydict :=
  match pydict_get d field with
  | Some v =>
      if is_none v then d
      else match decrypt_value self v with
           | Ok s => pydict_set d field (PStr s)
           | EncryptionError => d
           end
  | None => d
  end.

Definition decrypt_fields (self : EncryptionService) (d : pydict)
           (fields : list string) : pydict :=
  fold_left (decrypt_field self) fields d.

Definition decrypt_group (self : EncryptionService) (group : string) (data : pydict)
  : raising pydict :=
  match pydict_get data group with
  | Some c =>
      if truthy_value c then
        match c with
        | PDict inner =>
            Returns (pydict_set data group
                       (PDict (decrypt_fields self inner (sensitive_fields group))))
        | PList l =>
            if existsb (list_has l) (sensitive_fields group) then RaisesTypeError
            else Returns (pydict_set data group (PList l))
        | _ => RaisesAttributeError
        end
      else Returns data
  | None => Returns data
  end.

(** [FieldEncryption.decrypt_farmer_profile]. *)
Definition decrypt_farmer_profile (self : EncryptionService) (encrypted_data : pydict)
  : raising pydict :=
  match decrypt_group self "location"
          (decrypt_fields self encrypted_data (sensitive_fields "farmer_profile")) with
  | Returns decrypted_data => decrypt_group self "contact_info" decrypted_data
  | e => e
  end.

(** Vocabulary of the statements. *)

(** The value found under a key after [encrypt_dict] and [decrypt_dict]. *)
Definition returned_value (value : pyvalue) : pyvalue :=
  if is_none value then PNone else reread (plaintext_of value).

(** A value as [encrypt] spells it, [None] apart. *)
Definition spelled (value : pyvalue) : pyvalue :=
  if is_none value then value else PStr (plaintext_of value).

(** What [encrypt_farmer_profile] puts in the place of a value, and what
    [decrypt_farmer_profile] does. *)
Definition encrypted (self : EncryptionService) (entropy : string -> string -> nonce)
           (group field : string) (v : pyvalue) : pyvalue :=
  if is_none v then v else PStr (token self (entropy group field) v).

Definition decrypted (self : EncryptionService) (group field : string) (v : pyvalue)
  : pyvalue :=
  if is_none v then v
  else match decrypt_value self v with
       | Ok s => PStr s
       | EncryptionError => v
       end.

(** [d] with [g field] applied to what it holds under [field], if
    anything. *)
Definition update (g : string -> pyvalue -> pyvalue) (d : pydict) (field : string)
  : pydict :=
  match pydict_get d field with
  | Some v => pydict_set d field (g field v)
  | None => d
  end.

(** [g] applied under the sensitive fields of a group that is a dict. *)
Definition on_group (g : string -> pyvalue -> pyvalue) (group : string) (c : pyvalue)
  : pyvalue :=
  match c with
  | PDict inner => PDict (fold_left (update g) (sensitive_fields group) inner)
  | _ => c
  end.

(** The keys of a profile that the two methods look at, and [g] applied
    under each: inside the two groups, and to the top-level fields. *)
Definition profile_keys : list string :=
  sensitive_fields "farmer_profile" ++ ["location"; "contact_info"].

Definition is_group (key : string) : bool :=
  String.eqb key "location" || String.eqb key "contact_info".

Definition on_profile (g : string -> string -> pyvalue -> pyvalue) (key : string)
           (v : pyvalue) : pyvalue :=
  if is_group key then on_group (g key) key v else g "farmer_profile" key v.

(** The profile with every sensitive field that is set spelled as text. *)
Definition as_text (profile_data : pydict) : pydict :=
  fold_left (update (on_profile (fun _ _ => spelled))) profile_keys profile_data.

(** Under each of [fields], [d] holds a string, [None], or nothing. *)
Definition text_or_none (v : pyvalue) : bool :=
  match v with
  | PStr _ | PNone => true
  | _ => false
  end.

Definition text_fields (fields : list string) (d : pydict) : bool :=
  forallb (fun field => match pydict_get d field with
                        | Some v => text_or_none v
                        | None => true
                        end) fields.

(** A group that is absent, falsy, or a dict. *)
Definition group_is_dict (group : string) (data : pydict) : bool :=
  match pydict_get data group with
  | Some c => if truthy_value c then match c with PDict _ => true | _ => false end
              else true
  | None => true
  end.

Definition text_group (group : string) (data : pydict) : bool :=
  match pydict_get data group with
  | Some (PDict inner) => text_fields (sensitive_fields group) inner
  | _ => true
  end.

End Service.

End security_encryption_fields.

(* ===================================================================== *)
(* ===================================================================== *)
(** * Part II: what the code satisfies *)
(* ===================================================================== *)
(* ===================================================================== *)


(* ===================================================================== *)
(** * Properties of the Python string primitives *)
(* ===================================================================== *)

Module Py_facts.
Import Py.

Lemma join_chars (s : string) : join (chars s) = s.
Proof. induction s as [|c r IH]; simpl; [reflexivity | now rewrite IH]. Qed.

Lemma length_chars (s : string) : length (chars s) = String.length s.
Proof. induction s as [|c r IH]; simpl; [reflexivity | now rewrite IH]. Qed.

Lemma chars_append (s t : string) : chars (concat s t) = chars s ++ chars t.
Proof. induction s as [|c r IH]; simpl; [reflexivity | now rewrite IH]. Qed.

Lemma length_append (s t : string) :
  String.length (concat s t) = (String.length s + String.length t)%nat.
Proof. induction s as [|c r IH]; simpl; [reflexivity | now rewrite IH]. Qed.

Lemma chars_inj (s t : string) : chars s = chars t -> s = t.
Proof. intros H. rewrite <- (join_chars s), <- (join_chars t). now rewrite H. Qed.

(** Every character, by cases on its eight bits. *)
Ltac by_ascii_cases c := destruct c as [[] [] [] [] [] [] [] []]; vm_compute; try reflexivity; try discriminate; auto.

Lemma mobile_first_is_digit (c : ascii) :
  in_range "6" "9" c = true -> isdigit c = true.
Proof. by_ascii_cases c. Qed.

Lemma digit_not_plus (c : ascii) : isdigit c = true -> Ascii.eqb c "+" = false.
Proof. by_ascii_cases c. Qed.

Lemma digit_not_newline (c : ascii) : isdigit c = true -> Ascii.eqb c "010" = false.
Proof. by_ascii_cases c. Qed.

Lemma plus_not_newline (c : ascii) : Ascii.eqb c "+" = true -> Ascii.eqb c "010" = false.
Proof. by_ascii_cases c. Qed.

Lemma mobile_first_not_zero (c : ascii) :
  in_range "6" "9" c = true -> Ascii.eqb c "0" = false.
Proof. by_ascii_cases c. Qed.

Lemma int_of_char_digit (c : ascii) :
  isdigit c = true -> exists d, int_of_char c = Some d /\ 0 <= d <= 9.
Proof.
  intros H. unfold int_of_char. rewrite H. eexists; split; [reflexivity|].
  revert H. destruct c as [[] [] [] [] [] [] [] []]; vm_compute; intros H;
    try discriminate H; split; discriminate.
Qed.

(** [re.sub] with a class: what survives is what the class does not match. *)
Lemma re_sub_class_kept (removed : ascii -> bool) (s : string) :
  forallb (fun c => negb (removed c)) (chars (re_sub_class removed s)) = true.
Proof.
  induction s as [|c r IH]; simpl; [reflexivity|].
  destruct (removed c) eqn:E; simpl; [exact IH | now rewrite E, IH].
Qed.

Lemma re_sub_class_fixed (removed : ascii -> bool) (s : string) :
  forallb (fun c => negb (removed c)) (chars s) = true ->
  re_sub_class removed s = s.
Proof.
  induction s as [|c r IH]; simpl; [reflexivity|].
  intros H. apply andb_true_iff in H as [Hc Hr].
  destruct (removed c); [discriminate Hc | now rewrite IH].
Qed.

Lemma startswith_append (p r : string) : startswith (concat p r) p = true.
Proof.
  induction p as [|c p IH]; simpl; [reflexivity|].
  now rewrite Ascii.eqb_refl, IH.
Qed.

Lemma startswith_split (s p : string) :
  startswith s p = true -> s = concat p (drop (String.length p) s).
Proof.
  revert s. induction p as [|b p IH]; intros s H; simpl in *; [reflexivity|].
  destruct s as [|a s]; [discriminate H|].
  apply andb_true_iff in H as [Hab Hs].
  apply Ascii.eqb_eq in Hab. subst b. f_equal. now apply IH.
Qed.

Lemma drop_append (p r : string) : drop (String.length p) (concat p r) = r.
Proof. induction p as [|c p IH]; simpl; [reflexivity | exact IH]. Qed.

Lemma forallb_pointwise {A} (f g : A -> bool) (l : list A) :
  (forall x, f x = g x) -> forallb f l = forallb g l.
Proof. intros E. induction l as [|x l IH]; simpl; [reflexivity | now rewrite E, IH]. Qed.

Lemma length_take (k : nat) (s : string) :
  String.length (take k s) = Nat.min k (String.length s).
Proof.
  revert s. induction k as [|k IH]; intros s; simpl; [reflexivity|].
  destruct s as [|c r]; simpl; [reflexivity | now rewrite IH].
Qed.

Lemma length_replicate_char (n : nat) (c : ascii) :
  String.length (replicate_char n c) = n.
Proof. induction n as [|n IH]; simpl; [reflexivity | now rewrite IH]. Qed.

End Py_facts.

(* ===================================================================== *)
(** * Unicode strings and the digits of the database *)
(* ===================================================================== *)

Module unicode_facts.
Import unicode.

Lemma table_isdecimal_ascii (c : Z) :
  0 <= c < 128 -> table_isdecimal c = (48 <=? c) && (c <=? 57).
Proof.
  intros Hc.
  assert (forallb (fun n => Bool.eqb (table_isdecimal (Z.of_nat n))
                              ((48 <=? Z.of_nat n) && (Z.of_nat n <=? 57)))
            (seq 0 128) = true) as Hall by (vm_compute; reflexivity).
  rewrite forallb_forall in Hall.
  specialize (Hall (Z.to_nat c)). rewrite Z2Nat.id in Hall by lia.
  apply Bool.eqb_prop, Hall, in_seq. lia.
Qed.

#[export] Instance unicode_14_laws : @UnicodeLaws unicode_14.
Proof. split. exact table_isdecimal_ascii. Qed.

(** Literals, spelled out as code points. *)
Ltac literals :=
  repeat match goal with
         | |- context [lit ?s] =>
             let v := eval vm_compute in (lit s) in change (lit s) with v
         | H : context [lit ?s] |- _ =>
             let v := eval vm_compute in (lit s) in change (lit s) with v in H
         end.

Lemma eqb_eq (s t : ustring) : eqb s t = true <-> s = t.
Proof.
  revert t. induction s as [|a s IH]; intros [|b t]; simpl; split;
    try discriminate; try reflexivity.
  - intros H. apply andb_true_iff in H as [Hab Hst].
    apply Z.eqb_eq in Hab. apply IH in Hst. now subst.
  - intros [= -> ->]. rewrite Z.eqb_refl. now apply IH.
Qed.

Lemma eqb_refl (s : ustring) : eqb s s = true.
Proof. now apply eqb_eq. Qed.

Lemma startswith_app (p r : ustring) : startswith (p ++ r) p = true.
Proof.
  induction p as [|c p IH]; simpl; [reflexivity|].
  now rewrite Z.eqb_refl, IH.
Qed.

Lemma startswith_skipn (s p : ustring) :
  startswith s p = true -> s = p ++ skipn (length p) s.
Proof.
  revert s. induction p as [|b p IH]; intros s Hs; simpl in *; [reflexivity|].
  destruct s as [|a s]; [discriminate Hs|].
  apply andb_true_iff in Hs as [Hab Hs].
  apply Z.eqb_eq in Hab. subst b. simpl. f_equal. now apply IH.
Qed.

Lemma filter_kept {A} (f : A -> bool) (l : list A) :
  forallb f (List.filter f l) = true.
Proof.
  induction l as [|x l IH]; simpl; [reflexivity|].
  destruct (f x) eqn:E; simpl; [now rewrite E, IH | exact IH].
Qed.

Lemma filter_fixed {A} (f : A -> bool) (l : list A) :
  forallb f l = true -> List.filter f l = l.
Proof.
  induction l as [|x l IH]; simpl; [reflexivity|].
  intros Hl. apply andb_true_iff in Hl as [Hx Hl]. now rewrite Hx, IH.
Qed.

Lemma forallb_skipn {A} (f : A -> bool) (k : nat) (l : list A) :
  forallb f l = true -> forallb f (skipn k l) = true.
Proof.
  revert l. induction k as [|k IH]; intros l Hl; [exact Hl|].
  destruct l as [|x l]; [reflexivity|].
  simpl in *. apply andb_true_iff in Hl as [_ Hl]. now apply IH.
Qed.

Lemma forallb_firstn {A} (f : A -> bool) (k : nat) (l : list A) :
  forallb f l = true -> forallb f (firstn k l) = true.
Proof.
  revert l. induction k as [|k IH]; intros l Hl; [reflexivity|].
  destruct l as [|x l]; [reflexivity|].
  simpl in *. apply andb_true_iff in Hl as [Hx Hl]. now rewrite Hx, IH.
Qed.

Lemma forallb_weaken {A} (f g : A -> bool) (l : list A) :
  (forall x, f x = true -> g x = true) ->
  forallb f l = true -> forallb g l = true.
Proof.
  intros Hfg. induction l as [|x l IH]; simpl; [reflexivity|].
  intros Hl. apply andb_true_iff in Hl as [Hx Hl]. now rewrite (Hfg x Hx), IH.
Qed.

End unicode_facts.

(* ===================================================================== *)
(** * core/utils/validation.py: phone numbers *)
(* ===================================================================== *)

Module validation_phone_facts.
Import unicode unicode_facts validation_phone.

Section Facts.
Context `{UnicodeData} `{!UnicodeLaws}.

Lemma isdecimal_plus : isdecimal 43 = false.
Proof. now rewrite isdecimal_ascii by lia. Qed.

Lemma isdecimal_newline : isdecimal 10 = false.
Proof. now rewrite isdecimal_ascii by lia. Qed.

Lemma isdecimal_zero : isdecimal 48 = true.
Proof. now rewrite isdecimal_ascii by lia. Qed.

Lemma ascii_digit_isdecimal (c : Z) : ascii_digit c = true -> isdecimal c = true.
Proof.
  unfold ascii_digit, in_range. intros Hc.
  apply andb_true_iff in Hc as [H1 H2]. apply Z.leb_le in H1, H2.
  rewrite isdecimal_ascii by lia.
  apply andb_true_iff. split; now apply Z.leb_le.
Qed.

Lemma isdecimal_ascii_digit (c : Z) :
  0 <= c < 128 -> isdecimal c = ascii_digit c.
Proof. intros Hc. now rewrite isdecimal_ascii. Qed.

Lemma mobile_first_is_decimal (c : Z) :
  in_range 54 57 c = true -> isdecimal c = true.
Proof.
  intros Hc. apply ascii_digit_isdecimal. unfold ascii_digit, in_range in *.
  apply andb_true_iff in Hc as [H1 H2]. apply Z.leb_le in H1, H2.
  apply andb_true_iff. split; apply Z.leb_le; lia.
Qed.

Lemma keep_not_newline (c : Z) : keep c = true -> (c =? 10) = false.
Proof.
  unfold keep. intros Hc. apply Z.eqb_neq. intros ->.
  rewrite isdecimal_newline in Hc. discriminate Hc.
Qed.

Lemma strip_formatting_kept (phone : ustring) :
  forallb keep (strip_formatting phone) = true.
Proof. apply filter_kept. Qed.

Lemma strip_formatting_fixed (s : ustring) :
  forallb keep s = true -> strip_formatting s = s.
Proof. apply filter_fixed. Qed.

Lemma decimals_kept (l : ustring) :
  forallb isdecimal l = true -> forallb keep l = true.
Proof.
  apply forallb_weaken. intros c Hc. unfold keep. now rewrite Hc.
Qed.

Lemma mobile10_kept (d : ustring) :
  mobile10 d = true -> forallb keep d = true.
Proof.
  destruct d as [|c r]; simpl; [discriminate|].
  intros Hd. apply andb_true_iff in Hd as [Hd Hr].
  apply andb_true_iff in Hd as [Hc _].
  unfold keep at 1. rewrite (mobile_first_is_decimal _ Hc). simpl.
  now apply decimals_kept.
Qed.

Lemma mobile10_len (d : ustring) : mobile10 d = true -> length d = 10%nat.
Proof.
  destruct d as [|c r]; simpl; [discriminate|].
  intros Hd. apply andb_true_iff in Hd as [Hd _].
  apply andb_true_iff in Hd as [_ Hr]. apply Nat.eqb_eq in Hr. now rewrite Hr.
Qed.

(** On kept characters the anchored pattern [^[6-9]\d{9}$] says exactly
    [mobile10]: the newline that [$] tolerates cannot occur. *)
Lemma at_dollar_kept (s : ustring) :
  forallb keep s = true ->
  at_dollar s = match s with [] => true | _ => false end.
Proof.
  destruct s as [|c [|c' r]]; simpl; try reflexivity.
  intros Hs. apply andb_true_iff in Hs as [Hc _]. now apply keep_not_newline.
Qed.

Lemma class_then_end (cls : Z -> bool) (n : nat) (s : ustring) :
  forallb keep s = true ->
  re_class_times cls n at_dollar s = (length s =? n)%nat && forallb cls s.
Proof.
  revert s. induction n as [|n IH]; intros s Hs; simpl.
  - rewrite (at_dollar_kept _ Hs). destruct s; reflexivity.
  - destruct s as [|c r]; simpl; [reflexivity|].
    simpl in Hs. apply andb_true_iff in Hs as [_ Hs]. rewrite (IH _ Hs).
    destruct (cls c); simpl; [reflexivity | now rewrite andb_false_r].
Qed.

Lemma re_match_mobile_kept (s : ustring) :
  forallb keep s = true -> re_match_mobile s = mobile10 s.
Proof.
  intros Hs. unfold re_match_mobile. destruct s as [|c r]; [reflexivity|].
  simpl in Hs. apply andb_true_iff in Hs as [_ Hs].
  change (in_range 54 57 c && re_class_times isdecimal 9 at_dollar r
          = mobile10 (c :: r)).
  rewrite (class_then_end isdecimal 9 r Hs). unfold mobile10.
  now rewrite andb_assoc.
Qed.

Lemma mobile10_inv (d : ustring) :
  mobile10 d = true ->
  exists c r, d = c :: r /\ in_range 54 57 c = true /\ length r = 9%nat.
Proof.
  destruct d as [|c r]; simpl; [discriminate|].
  intros Hd. apply andb_true_iff in Hd as [Hd _].
  apply andb_true_iff in Hd as [Hc Hr]. apply Nat.eqb_eq in Hr. now exists c, r.
Qed.

(** Each of the four shapes is routed to the branch that recovers [d]. *)
Lemma mobile_part_of_shapes (d s : ustring) :
  mobile10 d = true -> In s (shapes d) -> mobile_part_of s = Some d.
Proof.
  intros Hd Hin.
  destruct (mobile10_inv d Hd) as (c & r & -> & Hc & Hr).
  unfold in_range in Hc. apply andb_true_iff in Hc as [H1 H2].
  apply Z.leb_le in H1, H2.
  assert ((c =? 43) = false) as Hplus by (apply Z.eqb_neq; lia).
  assert ((c =? 48) = false) as Hzero by (apply Z.eqb_neq; lia).
  unfold shapes in Hin. literals. simpl in Hin.
  destruct Hin as [<- | [<- | [<- | [<- | []]]]]; unfold mobile_part_of, len;
    literals; cbn; rewrite ?Hplus, ?Hzero, ?Hr; cbn; rewrite ?andb_false_r; cbn;
    try reflexivity.
Qed.

(** Whatever branch fires, the cleaned string is a shape of its mobile
    part. *)
Lemma mobile_part_of_sound (s m : ustring) :
  mobile_part_of s = Some m -> In s (shapes m).
Proof.
  unfold mobile_part_of, shapes.
  destruct (startswith s (lit "+91")) eqn:E1.
  { intros [= <-]. right; left. symmetry. exact (startswith_skipn s _ E1). }
  destruct (startswith s (lit "91") && (len s =? 12)) eqn:E2.
  { apply andb_true_iff in E2 as [E2 _].
    intros [= <-]. right; right; left. symmetry. exact (startswith_skipn s _ E2). }
  destruct (startswith s (lit "0") && (len s =? 11)) eqn:E3.
  { apply andb_true_iff in E3 as [E3 _].
    intros [= <-]. right; right; right; left. symmetry.
    exact (startswith_skipn s _ E3). }
  destruct (len s =? 10); [intros [= <-]; now left | discriminate].
Qed.

Lemma kept_mobile_part (s m : ustring) :
  forallb keep s = true -> mobile_part_of s = Some m -> forallb keep m = true.
Proof.
  intros Hs. unfold mobile_part_of.
  repeat match goal with
         | |- context [if ?b then _ else _] => destruct b
         end; intros E; try discriminate E; injection E as <-;
    first [ exact Hs | now apply forallb_skipn ].
Qed.

Lemma shapes_nonempty (d : ustring) :
  mobile10 d = true -> ~ In [] (shapes d).
Proof.
  intros Hd. destruct (mobile10_inv d Hd) as (c & r & -> & _).
  unfold shapes. literals. simpl.
  intros [E | [E | [E | [E | []]]]]; discriminate E.
Qed.

(** The verdict of [validate_phone_number], in full. *)
Lemma validate_phone_number_verdict (phone cc : ustring) :
  (exists d, mobile10 d = true /\ In (strip_formatting phone) (shapes d) /\
             validate_phone_number phone cc = (true, Some (cc ++ d)))
  \/ (~ reducible phone /\ validate_phone_number phone cc = (false, None)).
Proof.
  unfold validate_phone_number.
  destruct phone as [|a phone'] eqn:Ephone.
  { right. split; [|reflexivity].
    intros (d & Hd & Hin). now apply (shapes_nonempty d Hd). }
  rewrite <- Ephone. replace (truthy phone) with true by now subst.
  cbn [negb].
  fold (strip_formatting phone).
  pose proof (strip_formatting_kept phone) as Hkept.
  destruct (mobile_part_of (strip_formatting phone)) as [m|] eqn:Em.
  - pose proof (kept_mobile_part _ _ Hkept Em) as Hm.
    rewrite (re_match_mobile_kept m Hm).
    destruct (mobile10 m) eqn:E10; cbn [negb].
    + left. exists m. repeat split; auto using mobile_part_of_sound.
    + right. split; [|reflexivity].
      intros (d & Hd & Hin).
      rewrite (mobile_part_of_shapes d _ Hd Hin) in Em.
      injection Em as <-. congruence.
  - right. split; [|reflexivity].
    intros (d & Hd & Hin).
    rewrite (mobile_part_of_shapes d _ Hd Hin) in Em. discriminate.
Qed.

Lemma shapes_kept (d s : ustring) :
  mobile10 d = true -> In s (shapes d) -> forallb keep s = true.
Proof.
  intros Hd Hin. pose proof (mobile10_kept d Hd) as Hk.
  assert (keep 43 = true) as K43 by (unfold keep; now rewrite orb_true_r).
  assert (forall c, ascii_digit c = true -> keep c = true) as Kd.
  { intros c Hc. unfold keep. now rewrite (ascii_digit_isdecimal c Hc). }
  unfold shapes in Hin. literals. simpl in Hin.
  destruct Hin as [<- | [<- | [<- | [<- | []]]]]; cbn;
    rewrite ?K43, ?(Kd 57 eq_refl), ?(Kd 49 eq_refl), ?(Kd 48 eq_refl); cbn;
    exact Hk.
Qed.

Lemma validate_shape (d s : ustring) :
  mobile10 d = true -> In s (shapes d) ->
  validate_phone_number s (lit "+91") = (true, Some (lit "+91" ++ d)).
Proof.
  intros Hd Hin.
  pose proof (shapes_kept d s Hd Hin) as Hs.
  destruct (validate_phone_number_verdict s (lit "+91"))
    as [(d' & Hd' & Hin' & Hv) | (Hnot & _)].
  - rewrite (strip_formatting_fixed s Hs) in Hin'.
    pose proof (mobile_part_of_shapes d s Hd Hin) as E1.
    pose proof (mobile_part_of_shapes d' s Hd' Hin') as E2.
    rewrite E1 in E2. injection E2 as <-. exact Hv.
  - exfalso. apply Hnot. exists d. split; [exact Hd|].
    now rewrite (strip_formatting_fixed s Hs).
Qed.


End Facts.



End validation_phone_facts.

(* ===================================================================== *)
(** * core/utils/validation.py: Aadhaar numbers *)
(* ===================================================================== *)

Module validation_aadhaar_facts.
Import Py Py_facts validation.

Ltac digit_cases d H :=
  assert (H : d = 0 \/ d = 1 \/ d = 2 \/ d = 3 \/ d = 4 \/
              d = 5 \/ d = 6 \/ d = 7 \/ d = 8 \/ d = 9) by lia;
  repeat (destruct H as [H | H]); subst d.

(** The permutation table has a row for every position and an entry in
    0..9 for every digit. *)
Lemma permutation_lookup (i d : Z) :
  0 <= i -> 0 <= d <= 9 ->
  exists prow, index permutation_table (i mod 8) = Some prow /\
               index prow d = Some (p_op i d) /\ 0 <= p_op i d <= 9.
Proof.
  intros Hi Hd. unfold p_op.
  pose proof (Z.mod_pos_bound i 8 eq_refl) as Hm.
  generalize dependent (i mod 8). intros m Hm.
  assert (Hc : m = 0 \/ m = 1 \/ m = 2 \/ m = 3 \/ m = 4 \/
               m = 5 \/ m = 6 \/ m = 7) by lia.
  repeat (destruct Hc as [Hc | Hc]); subst m; digit_cases d Hd';
    (eexists; split; [reflexivity | split; [reflexivity | vm_compute; split; discriminate]]).
Qed.

(** The multiplication table is closed on 0..9. *)
Lemma multiplication_lookup (c p : Z) :
  0 <= c <= 9 -> 0 <= p <= 9 ->
  exists mrow, index multiplication_table c = Some mrow /\
               index mrow p = Some (d_op c p) /\ 0 <= d_op c p <= 9.
Proof.
  intros Hc Hp. digit_cases c Hc'; digit_cases p Hp';
    (eexists; split; [reflexivity | split; [reflexivity | vm_compute; split; discriminate]]).
Qed.

Lemma digit_value_range (c : ascii) :
  isdigit c = true -> int_of_char c = Some (digit_value c) /\ 0 <= digit_value c <= 9.
Proof.
  intros H. destruct (int_of_char_digit c H) as (d & Hd & Hr).
  unfold int_of_char in *. rewrite H in *. injection Hd as <-. now split.
Qed.

(** One loop iteration never raises on a digit and computes [d(c, p(i, n))]. *)
Lemma checksum_step_digit (c i : Z) (digit : ascii) :
  0 <= c <= 9 -> 0 <= i -> isdigit digit = true ->
  checksum_step c i digit = Some (d_op c (p_op i (digit_value digit)))
  /\ 0 <= d_op c (p_op i (digit_value digit)) <= 9.
Proof.
  intros Hc Hi Hd. unfold checksum_step.
  destruct (digit_value_range digit Hd) as [-> Hv].
  destruct (permutation_lookup i _ Hi Hv) as (prow & -> & Hp & Hpr).
  destruct (multiplication_lookup c _ Hc Hpr) as (mrow & Hm & Hm' & Hmr).
  simpl. rewrite Hp. simpl. rewrite Hm. simpl. now rewrite Hm'.
Qed.

(** The loop over [enumerate(...)] is the walk. *)
Lemma checksum_loop_walk (l : list ascii) (k : nat) (c : Z) :
  0 <= c <= 9 -> forallb isdigit l = true ->
  checksum_loop c (combine (map Z.of_nat (seq k (length l))) l)
  = Some (verhoeff_walk (Z.of_nat k) c (map digit_value l)).
Proof.
  revert k c. induction l as [|x l IH]; intros k c Hc Hl; simpl; [reflexivity|].
  simpl in Hl. apply andb_true_iff in Hl as [Hx Hl].
  destruct (checksum_step_digit c (Z.of_nat k) x Hc (Nat2Z.is_nonneg k) Hx) as [-> Hr].
  simpl. rewrite (IH (S k) _ Hr Hl). now rewrite Nat2Z.inj_succ.
Qed.

Lemma forallb_rev {A} (f : A -> bool) (l : list A) :
  forallb f (rev l) = forallb f l.
Proof.
  induction l as [|x l IH]; simpl; [reflexivity|].
  rewrite forallb_app, IH. simpl. rewrite andb_true_r. apply andb_comm.
Qed.

Lemma verify_aadhaar_checksum_digits (s : string) :
  forallb isdigit (chars s) = true ->
  _verify_aadhaar_checksum s = Some (verhoeff_ok s).
Proof.
  intros H. unfold _verify_aadhaar_checksum, enumerate, verhoeff_ok.
  rewrite (checksum_loop_walk (rev (chars s)) 0 0); [| lia | now rewrite forallb_rev].
  simpl. now rewrite map_rev.
Qed.

Lemma chars_replicate_char (n : nat) (c : ascii) :
  chars (replicate_char n c) = replicate n c.
Proof. induction n as [|n IH]; simpl; [reflexivity | now rewrite IH]. Qed.

Lemma remove_dups_replicate (n : nat) (c : ascii) :
  remove_dups (replicate (S n) c) = [c].
Proof.
  induction n as [|n IH]; [reflexivity|].
  change (replicate (S (S n)) c) with (c :: replicate (S n) c).
  cbn [remove_dups]. rewrite IH.
  destruct (decide_rel elem_of c (replicate (S n) c)) as [_|Hn]; [reflexivity|].
  exfalso. apply Hn. left.
Qed.

(** [len(set(s)) == 1] says that [s] is one character repeated. *)
Lemma len_set_one (s : string) :
  s <> EmptyString -> (len_set s = 1 <-> single_repeated s).
Proof.
  intros Hne. unfold len_set, single_repeated. split.
  - intros H.
    destruct (remove_dups (chars s)) as [|c [|c' l]] eqn:E;
      [ discriminate H | | simpl length in H; lia ].
    exists c. apply chars_inj. rewrite chars_replicate_char, <- length_chars.
    symmetry. apply replicate_as_elem_of. split; [reflexivity|].
    intros y Hy. apply elem_of_remove_dups in Hy. rewrite E in Hy.
    now apply list_elem_of_singleton in Hy.
  - intros [c Hc].
    destruct s as [|a r]; [contradiction|].
    rewrite Hc, chars_replicate_char. simpl String.length.
    now rewrite remove_dups_replicate.
Qed.

Lemma twelve_digits_inv (s : string) :
  twelve_digits s = true ->
  len s = 12 /\ forallb isdigit (chars s) = true /\ s <> EmptyString.
Proof.
  unfold twelve_digits, len. intros H.
  apply andb_true_iff in H as [Hl Hd]. apply Nat.eqb_eq in Hl.
  rewrite Hl. repeat split; auto. intros ->. discriminate Hl.
Qed.

(** The verdict on any 12-digit string: no exception, and [True] exactly
    when the string is not one repeated digit and the walk ends in 0. *)
Lemma validate_aadhaar_number_verdict (s : string) :
  twelve_digits s = true ->
  exists b : bool,
    validate_aadhaar_number s = Some (b, if b then Some s else None)
    /\ (b = true <-> ~ single_repeated s /\ verhoeff_ok s = true).
Proof.
  intros H12. destruct (twelve_digits_inv s H12) as (Hlen & Hdig & Hne).
  unfold validate_aadhaar_number.
  replace (truthy s) with true by (destruct s; [contradiction | reflexivity]).
  cbn [negb].
  rewrite (re_sub_class_fixed (fun c => negb (isdigit c)) s)
    by (rewrite (forallb_pointwise _ isdigit); [exact Hdig | intros c; apply negb_involutive]).
  rewrite Hlen. cbn [Z.eqb Pos.eqb negb].
  pose proof (len_set_one s Hne) as Hset.
  destruct (len_set s =? 1) eqn:E1.
  - exists false. split; [reflexivity|].
    apply Z.eqb_eq in E1. split; [discriminate|].
    intros [Hn _]. exfalso. apply Hn. now apply Hset.
  - rewrite (verify_aadhaar_checksum_digits s Hdig). cbn.
    apply Z.eqb_neq in E1.
    destruct (verhoeff_ok s) eqn:Ev; cbn.
    + exists true. split; [reflexivity|]. split; [|reflexivity].
      intros _. split; [|reflexivity]. intros Hs. apply E1. now apply Hset.
    + exists false. split; [reflexivity|]. split; [discriminate|].
      intros [_ Hv]. discriminate Hv.
Qed.

Lemma repeated_digit_rejected (c : ascii) :
  isdigit c = true ->
  validate_aadhaar_number (replicate_char 12 c) = Some (false, None).
Proof.
  intros Hc.
  assert (twelve_digits (replicate_char 12 c) = true) as H12.
  { unfold twelve_digits. simpl. now rewrite Hc. }
  destruct (validate_aadhaar_number_verdict _ H12) as (b & Hv & Hb).
  destruct b; [|exact Hv].
  exfalso. destruct Hb as [Hb _]. destruct (Hb eq_refl) as [Hn _].
  apply Hn. exists c. reflexivity.
Qed.

(** C5, as the code has it.  A 12-digit string validates exactly when it is
    not one repeated digit and the Verhoeff walk over the multiplication
    and permutation tables (position mod 8, right to left) ends in 0; the
    call never raises on such a string.  [499118665930] validates, and
    every 12-digit string of one repeated digit is rejected. *)
Theorem aadhaar_validation :
  (forall s, twelve_digits s = true ->
     exists b : bool,
       validate_aadhaar_number s = Some (b, if b then Some s else None)
       /\ (b = true <-> ~ single_repeated s /\ verhoeff_ok s = true))
  /\ validate_aadhaar_number "499118665930" = Some (true, Some "499118665930")
  /\ (forall c, isdigit c = true ->
         validate_aadhaar_number (replicate_char 12 c) = Some (false, None)).
Proof.
  split; [exact validate_aadhaar_number_verdict|].
  split; [vm_compute; reflexivity | exact repeated_digit_rejected].
Qed.

Lemma aadhaar_validation_witness :
  (exists b : bool,
     validate_aadhaar_number "499118665246"
     = Some (b, if b then Some "499118665246" else None)
     /\ (b = true <-> ~ single_repeated "499118665246"
                      /\ verhoeff_ok "499118665246" = true))
  /\ validate_aadhaar_number "111111111111" = Some (false, None).
Proof.
  destruct aadhaar_validation as (Hiff & _ & Hrep).
  split.
  - apply (Hiff "499118665246"). vm_compute. reflexivity.
  - apply (Hrep "1"%char). vm_compute. reflexivity.
Defined.

(** The spec's sample number does not pass the table walk: it ends in 2. *)
Lemma aadhaar_sample_rejected :
  validate_aadhaar_number "499118665932" = Some (false, None)
  /\ verhoeff_walk 0 0 (rev (map digit_value (chars "499118665932"))) = 2.
Proof. split; vm_compute; reflexivity. Qed.

End validation_aadhaar_facts.

(* ===================================================================== *)
(** * core/utils/formatting.py: truncation *)
(* ===================================================================== *)

Module formatting_facts.
Import Py Py_facts formatting.

Lemma len_concat (s t : string) : len (s +++ t) = len s + len t.
Proof. unfold len. rewrite length_append. lia. Qed.

Lemma len_nonneg (s : string) : 0 <= len s.
Proof. unfold len. lia. Qed.

Lemma len_slice_to (s : string) (k : Z) :
  0 <= k -> len (slice_to s k) = Z.min k (len s).
Proof.
  intros Hk. unfold slice_to.
  destruct (k <? 0) eqn:E; [apply Z.ltb_lt in E; lia|].
  unfold len. rewrite length_take. lia.
Qed.

(** The scan answers [last], or an index inside the scanned text. *)
Lemma rfind_scan_bound (c : ascii) (s : string) (i last : Z) :
  rfind_scan c s i last = last \/ i <= rfind_scan c s i last < i + len s.
Proof.
  revert i last. induction s as [|a r IH]; intros i last; simpl; [now left|].
  unfold len. simpl String.length. rewrite Nat2Z.inj_succ.
  destruct (Ascii.eqb a c).
  - right. destruct (IH (i + 1) i) as [-> | H]; unfold len in *; lia.
  - destruct (IH (i + 1) last) as [-> | H]; [now left | right; unfold len in *; lia].
Qed.

Lemma rfind_bound (text : string) (c : ascii) (end_ : Z) :
  0 <= end_ -> -1 <= rfind text c end_ < end_.
Proof.
  intros H. unfold rfind.
  destruct (rfind_scan_bound c (slice_to text end_) 0 (-1)) as [-> | Hb]; [lia|].
  rewrite (len_slice_to text end_ H) in Hb. lia.
Qed.

(** C10. For every text, suffix and non-negative [max_length]:
    [truncate_text] returns the text unchanged when it is at most
    [max_length] long, and otherwise a string at most [max_length] long. *)
Theorem truncate_text_bound (text suffix : string) (max_length : Z) :
  0 <= max_length ->
  (len text <= max_length -> truncate_text text max_length suffix = text)
  /\ (max_length < len text -> len (truncate_text text max_length suffix) <= max_length).
Proof.
  intros Hmax. unfold truncate_text. split.
  - intros Hle. apply Z.leb_le in Hle. rewrite Hle. now rewrite orb_true_r.
  - intros Hlt.
    assert (truthy text = true) as ->.
    { destruct text; [unfold len in Hlt; simpl in Hlt; lia | reflexivity]. }
    assert ((len text <=? max_length) = false) as -> by (apply Z.leb_gt; lia).
    cbn [negb orb].
    pose proof (len_nonneg suffix) as Hs.
    destruct (max_length >? len suffix) eqn:Egt.
    + apply Z.gtb_lt in Egt.
      pose proof (rfind_bound text " " (max_length - len suffix) ltac:(lia)) as Hr.
      destruct (rfind text " " (max_length - len suffix) >? max_length / 2) eqn:Esp.
      * apply Z.gtb_lt in Esp.
        pose proof (Z.div_pos max_length 2 Hmax eq_refl) as Hhalf.
        rewrite len_concat, len_slice_to by lia. lia.
      * rewrite len_concat, len_slice_to by lia. lia.
    + rewrite len_slice_to by lia. lia.
Qed.

Lemma truncate_text_bound_witness :
  truncate_text "short" 10 "..." = "short"
  /\ len (truncate_text "the quick brown fox jumps" 12 "...") <= 12.
Proof.
  split.
  - apply (truncate_text_bound "short" "..." 10); [lia | vm_compute; discriminate].
  - apply (truncate_text_bound "the quick brown fox jumps" "..." 12);
      [lia | vm_compute; reflexivity].
Defined.

End formatting_facts.

(* ===================================================================== *)
(** * api/v1/whatsapp.py: webhook verification *)
(* ===================================================================== *)

Module whatsapp_facts.
Import fastapi unicode unicode_facts whatsapp.


(** ** Rendering *)









(** C9. While the verify token is unset (the default), every
    verification request is answered 403, whatever mode, token and
    challenge it carries. *)
Theorem verify_webhook_unconfigured (settings : Settings)
        (hub_mode hub_challenge hub_verify_token : ustring) :
  whatsapp_verify_token settings = None ->
  verify_webhook settings hub_mode hub_challenge hub_verify_token
  = HTTPException 403 "Invalid verification token".
Proof.
  intros Hcfg. unfold verify_webhook. rewrite Hcfg. simpl.
  now rewrite andb_false_r.
Qed.

Lemma verify_webhook_unconfigured_witness :
  verify_webhook default_settings (lit "subscribe") (lit "1158201444") []
  = HTTPException 403 "Invalid verification token".
Proof.
  apply (verify_webhook_unconfigured default_settings (lit "subscribe")
           (lit "1158201444") []).
  reflexivity.
Defined.

End whatsapp_facts.

(* ===================================================================== *)
(** * Masking of phone numbers *)
(* ===================================================================== *)

Module masking_facts.
Import Py Py_facts masking.

Lemma take_drop (k : nat) (s : string) : take k s +++ drop k s = s.
Proof.
  revert s. induction k as [|k IH]; intros s; simpl; [reflexivity|].
  destruct s as [|c r]; simpl; [reflexivity | now rewrite IH].
Qed.

Lemma length_drop (k : nat) (s : string) :
  String.length (drop k s) = (String.length s - k)%nat.
Proof.
  revert s. induction k as [|k IH]; intros s; simpl; [lia|].
  destruct s as [|c r]; simpl; [reflexivity | apply IH].
Qed.

Lemma digits_of_concat (s t : string) :
  digits_of (s +++ t) = digits_of s ++ digits_of t.
Proof. unfold digits_of. now rewrite chars_append, List.filter_app. Qed.

Lemma length_digits_of (s : string) : (length (digits_of s) <= String.length s)%nat.
Proof.
  unfold digits_of. rewrite <- length_chars.
  induction (chars s) as [|c l IH]; simpl; [lia|].
  destruct (isdigit c); simpl; lia.
Qed.

(** The digits of a tail of [s] are a tail of the digits of [s]. *)
Lemma digits_of_drop (k : nat) (s : string) :
  digits_of (drop k s) `suffix_of` digits_of s.
Proof.
  exists (digits_of (take k s)).
  now rewrite <- digits_of_concat, take_drop.
Qed.

Lemma mask_phone_number_shows_only_last4 (phone : string) :
  shows_only_last4 (mask_phone_number phone) phone.
Proof.
  unfold mask_phone_number, shows_only_last4.
  destruct (negb (truthy phone) || (len phone <? 4)) eqn:E.
  - split; [exists (digits_of phone); now rewrite app_nil_r | simpl; lia].
  - apply orb_false_iff in E as [_ E]. apply Z.ltb_ge in E.
    unfold slice_from. cbn [Z.ltb Z.compare].
    rewrite digits_of_concat. cbn [digits_of chars List.filter isdigit app].
    change (List.filter isdigit (chars "****")) with (@nil ascii). cbn [app].
    split; [apply digits_of_drop|].
    etransitivity; [apply length_digits_of|].
    rewrite length_drop. unfold len in *. lia.
Qed.

(** What the generic masker does with a phone number: it keeps the text
    up to the last four characters and replaces those four by stars. *)
Lemma mask_sensitive_data_phone (data : string) :
  10 <= len data ->
  exists head tail,
    data = head +++ tail /\ String.length tail = 4%nat
    /\ mask_sensitive_data data "phone" = head +++ "****".
Proof.
  intros H. unfold mask_sensitive_data.
  assert (truthy data = true) as ->.
  { destruct data; [unfold len in H; simpl in H; lia | reflexivity]. }
  cbn [negb String.eqb Ascii.eqb Bool.eqb andb].
  assert ((len data >=? 10) = true) as -> by (apply Z.geb_le; lia).
  unfold slice_to. cbn [Z.ltb Z.compare].
  exists (take (Z.to_nat (len data + -4)) data), (drop (Z.to_nat (len data + -4)) data).
  split; [now rewrite take_drop|]. split; [|reflexivity].
  rewrite length_drop. unfold len in *. lia.
Qed.

(** C7, at the failing input.  On the number [+919876543210] the
    masker of [DataMasking] shows the last four digits only, as the claim
    has it, while [mask_sensitive_data] with type [phone] stars those four
    out and leaves the eight digits before them in clear. *)
Theorem mask_sensitive_data_phone_leaks :
  mask_phone_number "+919876543210" = "****3210"
  /\ shows_only_last4 (mask_phone_number "+919876543210") "+919876543210"
  /\ mask_sensitive_data "+919876543210" "phone" = "+91987654****"
  /\ ~ shows_only_last4 (mask_sensitive_data "+919876543210" "phone")
        "+919876543210".
Proof.
  split; [vm_compute; reflexivity|].
  split; [apply mask_phone_number_shows_only_last4|].
  split; [vm_compute; reflexivity|].
  intros [_ Hlen]. vm_compute in Hlen. lia.
Qed.

End masking_facts.


(* ===================================================================== *)
(** * core/models/farmer.py and models/farmer.py: crop areas *)
(* ===================================================================== *)

Module core_models_farmer_facts.
Import Py core_models_farmer.

#[export] Instance Z_PyFloatOrder : @PyFloatOrder ZInstances.Z_PyFloat.
Proof.
  split; simpl.
  - intros x. rewrite Z.gtb_ltb. apply Z.ltb_irrefl.
  - intros x y Hxy. rewrite Z.gtb_ltb in *. apply Z.ltb_lt in Hxy.
    apply Z.ltb_ge. lia.
Qed.

Section Facts.
Context `{PyFloat} `{!PyFloatOrder}.






End Facts.

Import ZInstances.



End core_models_farmer_facts.


(* ===================================================================== *)
(** * api/v1/farmers.py: create, then get *)
(* ===================================================================== *)

Module farmers_api_facts.
Import Py farmers_api.

Section Facts.
Context `{PyFloat} `{PyDatetime}.

(** The stored crops read back as the submitted crops without their dates. *)
Lemma parse_crops_crop_items (cs : list CropInfo) :
  forallb CropInfo_ok cs = true ->
  Forall (fun c => float_roundtrips (area c)) cs ->
  parse_crops (map crop_item cs) = Some (map without_dates cs).
Proof.
  induction cs as [|c cs IH]; intros Hok Hrt; [reflexivity|].
  simpl in Hok. apply andb_true_iff in Hok as [Hc Hcs].
  inversion Hrt as [|? ? Hc' Hcs']; subst.
  cbn [map parse_crops]. rewrite (IH Hcs Hcs').
  unfold parse_crop, crop_item. cbn. unfold float_roundtrips in Hc'. rewrite Hc'. cbn.
  unfold CropInfo_new. unfold CropInfo_ok in *. cbn. rewrite Hc. reflexivity.
Qed.

(** The stored location reads back as submitted. *)
Lemma parse_location_item (l : Location) :
  optional_roundtrips (latitude l) -> optional_roundtrips (longitude l) ->
  S_at (location_item l) "state" = Some (state l)
  /\ S_at (location_item l) "district" = Some (district l)
  /\ S_at (location_item l) "village" = Some (village l)
  /\ optional_float (location_item l) "latitude" = Some (latitude l)
  /\ optional_float (location_item l) "longitude" = Some (longitude l).
Proof.
  destruct l as [st di vi [lat|] [lon|]]; unfold location_item, optional_float;
    cbn; unfold float_roundtrips; intros Hlat Hlon;
    rewrite ?Hlat, ?Hlon; repeat split; reflexivity.
Qed.

Lemma parse_item_profile_item (farmer_id : string) (current_time : datetime)
      (p : FarmerProfile) :
  FarmerProfile_ok p = true ->
  numbers_roundtrip p ->
  fromisoformat (isoformat current_time) = Some current_time ->
  parse_item farmer_id (profile_item farmer_id current_time p)
  = Some (stored_view farmer_id current_time p).
Proof.
  intros Hok (Hlat & Hlon & Htot & Hcrops) Hnow.
  unfold FarmerProfile_ok in Hok.
  apply andb_true_iff in Hok as [Hok Hpref]. apply andb_true_iff in Hok as [_ Hfarm].
  unfold FarmDetails_ok in Hfarm. apply andb_true_iff in Hfarm as [Htotal Hcs].
  destruct (parse_location_item (location p) Hlat Hlon) as (E1 & E2 & E3 & E4 & E5).
  unfold parse_item, profile_item.
  change (M_at _ "location") with (Some (location_item (location p))).
  cbn [mbind option_bind]. rewrite E1, E2, E3, E4, E5. cbn [mbind option_bind].
  cbn [M_at S_at N_at L_at BOOL_at dict_get String.eqb Ascii.eqb Bool.eqb
       mbind option_bind get_M get_S get_N get_L get_BOOL].
  rewrite (parse_crops_crop_items _ Hcs Hcrops). cbn [mbind option_bind].
  unfold float_roundtrips in Htot. rewrite Htot. cbn [mbind option_bind].
  unfold FarmDetails_new. rewrite Htotal. cbn [mbind option_bind].
  unfold Preferences_new.
  destruct (preferences p) as [o rt lang] eqn:Epref. cbn.
  cbn in Hpref. rewrite Hpref. cbn [mbind option_bind].
  rewrite Hnow. cbn [mbind option_bind].
  unfold stored_view. rewrite Epref.
  destruct (location p); reflexivity.
Qed.

(** C1, as the code has it.  For every body that passes validation, with
    the table reachable and the generated id not yet in it, [POST] answers
    201 with that id; a [GET] of the id against the resulting table answers
    200 with the submitted name, phone, location (coordinates included),
    preferences, land area, soil and irrigation types, and the crops with
    their types and areas but without their two dates, which are not
    stored; [created_at] equals [updated_at].  The numbers of the body and
    the clock reading are taken to survive printing and parsing. *)
Theorem create_then_get (farmer_id : string) (current_time : datetime)
        (body : FarmerProfile) (db : DynamoDB) :
  FarmerProfile_ok body = true ->
  available db = true ->
  table db !! farmer_id = None ->
  numbers_roundtrip body ->
  fromisoformat (isoformat current_time) = Some current_time ->
  exists created db' got,
    post_farmers farmer_id current_time body db = (Returned 201 created, db')
    /\ r_farmer_id created = farmer_id
    /\ get_farmer_profile farmer_id db' = Returned 200 got
    /\ r_farmer_id got = farmer_id
    /\ r_name got = name body
    /\ r_phone_number got = phone_number body
    /\ r_location got = location body
    /\ r_preferences got = preferences body
    /\ total_land_area (r_farm_details got) = total_land_area (farm_details body)
    /\ soil_type (r_farm_details got) = soil_type (farm_details body)
    /\ irrigation_type (r_farm_details got) = irrigation_type (farm_details body)
    /\ crops (r_farm_details got) = map without_dates (crops (farm_details body))
    /\ r_created_at got = r_updated_at got.
Proof.
  intros Hok Havail Hfresh Hnum Hnow.
  unfold post_farmers, create_farmer_profile, put_item.
  rewrite Hok, Havail. cbn [negb].
  change (S_at (profile_item farmer_id current_time body) "farmerId")
    with (Some farmer_id).
  cbv beta iota. rewrite Hfresh.
  do 3 eexists. split; [reflexivity|]. split; [reflexivity|].
  unfold get_farmer_profile, get_item. cbn [available table negb].
  rewrite lookup_insert_eq.
  rewrite (parse_item_profile_item farmer_id current_time body Hok Hnum Hnow).
  repeat (split; [reflexivity|]). reflexivity.
Qed.

End Facts.

Import ZInstances farmers_api_samples.

Lemma create_then_get_witness :
  exists created db' got,
    post_farmers "f-1" sample_time (sample_body "+919876543210" None) empty_table
    = (Returned 201 created, db')
    /\ r_farmer_id created = "f-1"
    /\ get_farmer_profile "f-1" db' = Returned 200 got
    /\ r_farmer_id got = "f-1"
    /\ r_name got = "Ram Kumar"
    /\ r_phone_number got = "+919876543210"
    /\ r_location got = location (sample_body "+919876543210" None)
    /\ r_preferences got = preferences (sample_body "+919876543210" None)
    /\ total_land_area (r_farm_details got) = 5
    /\ soil_type (r_farm_details got) = "loamy"
    /\ irrigation_type (r_farm_details got) = "tubewell"
    /\ crops (r_farm_details got)
       = map without_dates (crops (farm_details (sample_body "+919876543210" None)))
    /\ r_created_at got = r_updated_at got.
Proof.
  apply (create_then_get "f-1" sample_time (sample_body "+919876543210" None) empty_table).
  - vm_compute. reflexivity.
  - reflexivity.
  - reflexivity.
  - repeat split; try (vm_compute; reflexivity).
    repeat constructor; vm_compute; reflexivity.
  - vm_compute. reflexivity.
Defined.

(** A submitted planting date does not come back: the crop read from the
    table differs from the crop that was posted. *)
Lemma crop_dates_not_returned :
  exists created db' got,
    post_farmers "f-1" sample_time (sample_body "+919876543210" (Some 20231115)) empty_table
    = (Returned 201 created, db')
    /\ get_farmer_profile "f-1" db' = Returned 200 got
    /\ r_farm_details got
       <> farm_details (sample_body "+919876543210" (Some 20231115)).
Proof.
  do 3 eexists. split; [reflexivity|]. split.
  - unfold get_farmer_profile, get_item. cbn [available table negb].
    rewrite lookup_insert_eq. vm_compute. reflexivity.
  - vm_compute. discriminate.
Qed.

(** Every number of the Indian mobile pattern passes the pattern of the
    create route: the route's pattern is the looser of the two. *)
Lemma indian_numbers_pass_create_pattern (s : string) :
  indian_mobile_pattern s = true -> phone_pattern s = true.
Proof.
  unfold indian_mobile_pattern. intros Hs.
  apply andb_true_iff in Hs as [Hpre Hmob].
  rewrite (Py_facts.startswith_split s "+91" Hpre).
  change (String.length "+91") with 3%nat.
  destruct (drop 3 s) as [|c r]; [discriminate Hmob|].
  cbn [validation.mobile10] in Hmob.
  apply andb_true_iff in Hmob as [Hmob Hdig]. apply andb_true_iff in Hmob as [Hc Hlen].
  apply Nat.eqb_eq in Hlen.
  unfold phone_pattern, len. cbn -[isdigit Z.leb Z.of_nat].
  rewrite (Py_facts.mobile_first_is_digit c Hc), Hdig, Hlen. reflexivity.
Qed.

(** C2, at the failing input.  A number that is not an Indian mobile number
    passes the validation of the create route, and the profile is created
    with 201. *)
Lemma create_accepts_non_indian_phone :
  phone_pattern "+14155552671" = true
  /\ indian_mobile_pattern "+14155552671" = false
  /\ exists created db',
       post_farmers "f-1" sample_time (sample_body "+14155552671" None) empty_table
       = (Returned 201 created, db')
       /\ r_phone_number created = "+14155552671".
Proof.
  split; [vm_compute; reflexivity|]. split; [vm_compute; reflexivity|].
  do 2 eexists. split; reflexivity.
Qed.

End farmers_api_facts.



(* ===================================================================== *)
(** * core/security/encryption.py: encrypt, then decrypt *)
(* ===================================================================== *)

Module security_encryption_facts.
Import Py security_encryption.

Section Facts.
Context `{Fernet} `{!FernetLaws} `{PyCodec} `{!PyCodecLaws} `{PyJson}.

(** Whatever text goes in comes out, under the same key. *)
Lemma decrypt_encrypt_text (self : EncryptionService) (n : nonce) (text : string) :
  exists t,
    bytes_decode (urlsafe_b64encode (fernet_encrypt (key self) n (str_encode text))) = Some t
    /\ decrypt self t = Ok text.
Proof.
  destruct (b64_is_text (fernet_encrypt (key self) n (str_encode text))) as (t & Ht & Hb).
  exists t. split; [exact Ht|].
  unfold decrypt. rewrite Hb, b64decode_b64encode, fernet_opens, decode_encode.
  reflexivity.
Qed.

(** Under another key the token does not open. *)
Lemma decrypt_other_key (self other : EncryptionService) (n : nonce) (text : string) :
  key self <> key other ->
  exists t,
    bytes_decode (urlsafe_b64encode (fernet_encrypt (key self) n (str_encode text))) = Some t
    /\ decrypt other t = EncryptionError.
Proof.
  intros Hk.
  destruct (b64_is_text (fernet_encrypt (key self) n (str_encode text))) as (t & Ht & Hb).
  exists t. split; [exact Ht|].
  unfold decrypt. rewrite Hb, b64decode_b64encode, (fernet_rejects _ _ _ _ Hk).
  reflexivity.
Qed.

Lemma encrypt_then_decrypt_same (self : EncryptionService) (n : nonce) (data : pyvalue) :
  encrypt_then_decrypt self self n data = Ok (PStr (plaintext_of data)).
Proof.
  destruct (decrypt_encrypt_text self n (plaintext_of data)) as (t & Ht & Hd).
  unfold encrypt_then_decrypt, encrypt. fold (plaintext_of data).
  now rewrite Ht, Hd.
Qed.

Lemma encrypt_then_decrypt_other (self other : EncryptionService) (n : nonce)
      (data : pyvalue) :
  key self <> key other ->
  encrypt_then_decrypt self other n data = EncryptionError.
Proof.
  intros Hk.
  destruct (decrypt_other_key self other n (plaintext_of data) Hk) as (t & Ht & Hd).
  unfold encrypt_then_decrypt, encrypt. fold (plaintext_of data).
  now rewrite Ht, Hd.
Qed.

Lemma decrypt_dict_keeps_foreign (self other : EncryptionService) (n : nonce)
      (k : string) (data : pyvalue) (t : string) :
  key self <> key other ->
  encrypt self n data = Ok t ->
  decrypt_dict other [(k, Some t)] = [(k, PStr t)].
Proof.
  intros Hk He.
  destruct (decrypt_other_key self other n (plaintext_of data) Hk) as (t' & Ht & Hd).
  unfold encrypt in He. fold (plaintext_of data) in He. rewrite Ht in He.
  injection He as <-. unfold decrypt_dict. cbn [map]. now rewrite Hd.
Qed.

(** C8, as the code has it.  With the same key, [encrypt] then [decrypt]
    gives every string back, and gives for a mapping the JSON text it was
    serialised to, a string and not the mapping.  With a service built from
    a different key, [decrypt] raises the encryption error, while
    [decrypt_dict] keeps the value it could not decrypt.  Fernet and the
    codecs are taken by their contracts. *)
Theorem encryption_roundtrip (self other : EncryptionService) (n : nonce) :
  (forall s, encrypt_then_decrypt self self n (PStr s) = Ok (PStr s))
  /\ (forall d, encrypt_then_decrypt self self n (PDict d)
               = Ok (PStr (json_dumps (PDict d))))
  /\ (key self <> key other ->
      (forall data, encrypt_then_decrypt self other n data = EncryptionError)
      /\ (forall k data t, encrypt self n data = Ok t ->
                           decrypt_dict other [(k, Some t)] = [(k, PStr t)])).
Proof.
  split; [intros s; apply encrypt_then_decrypt_same|].
  split; [intros d; apply encrypt_then_decrypt_same|].
  intros Hk. split.
  - intros data. now apply encrypt_then_decrypt_other.
  - intros k data t. now apply decrypt_dict_keeps_foreign.
Qed.

End Facts.

Import Model.

#[export] Instance tag_FernetLaws : @FernetLaws tag_Fernet.
Proof.
  split; simpl.
  - intros k n m. now rewrite (@Byte.byte_dec_lb k k eq_refl).
  - intros k k' n m Hk. destruct (Byte.eqb k k') eqn:E; [|reflexivity].
    exfalso. apply Hk. exact (@Byte.byte_dec_bl k k' E).
Qed.

#[export] Instance latin1_PyCodecLaws : @PyCodecLaws latin1_PyCodec.
Proof.
  split; simpl.
  - intros s. now rewrite string_of_list_byte_of_string.
  - reflexivity.
  - intros b. eexists. split; [reflexivity|].
    apply list_byte_of_string_of_list_byte.
Qed.

Lemma encryption_roundtrip_witness :
  encrypt_then_decrypt service_a service_a tt (PStr "+919876543210")
  = Ok (PStr "+919876543210")
  /\ encrypt_then_decrypt service_a service_a tt (PDict [("pincode", PInt 226001)])
     = Ok (PStr (json_dumps (PDict [("pincode", PInt 226001)])))
  /\ encrypt_then_decrypt service_a service_b tt (PStr "+919876543210")
     = EncryptionError.
Proof.
  destruct (encryption_roundtrip service_a service_b tt) as (Hstr & Hmap & Hother).
  split; [apply Hstr|]. split; [apply Hmap|].
  apply Hother. vm_compute. discriminate.
Defined.

(** A mapping does not come back as a mapping, a wrong key does not make
    [decrypt_dict] fail, and a string of digits comes back from
    [encrypt_dict] and [decrypt_dict] as a number. *)
Lemma encryption_roundtrip_fails :
  (exists text,
     encrypt_then_decrypt service_a service_a tt (PDict [("pincode", PInt 226001)])
     = Ok (PStr text)
     /\ PStr text <> PDict [("pincode", PInt 226001)])
  /\ (exists enc token,
        encrypt_dict service_a no_entropy [("phone", PStr "+919876543210")] = Ok enc
        /\ enc = [("phone", Some token)]
        /\ decrypt_dict service_b enc = [("phone", PStr token)]
        /\ token <> "+919876543210")
  /\ (exists enc,
        encrypt_dict service_a no_entropy [("pincode", PStr "226001")] = Ok enc
        /\ decrypt_dict service_a enc = [("pincode", PInt 226001)]).
Proof.
  split; [|split].
  - eexists. split; [vm_compute; reflexivity | discriminate].
  - do 2 eexists. split; [vm_compute; reflexivity|].
    split; [reflexivity|]. split; [vm_compute; reflexivity | discriminate].
  - eexists. split; vm_compute; reflexivity.
Qed.

End security_encryption_facts.


(* ===================================================================== *)
(** * core/utils/validation.py: re-validation and PIN codes *)
(* ===================================================================== *)

Module validation_others_facts.
Import unicode unicode_facts validation_phone validation_phone_facts.

Section Facts.
Context `{UnicodeData} `{!UnicodeLaws}.

(** ** Phone numbers: an accepted value validates to itself *)

(** X1. Whatever [validate_phone_number] accepts, its normalised output is
    accepted again and normalises to itself. *)
Theorem validate_phone_number_idempotent (phone normalized : ustring) :
  validate_phone_number phone (lit "+91") = (true, Some normalized) ->
  validate_phone_number normalized (lit "+91") = (true, Some normalized).
Proof.
  intros Hv.
  destruct (validate_phone_number_verdict phone (lit "+91"))
    as [(d & Hd & _ & Hv') | (_ & Hv')]; rewrite Hv' in Hv; [|discriminate Hv].
  injection Hv as <-.
  apply (validate_shape d); [exact Hd | simpl; auto].
Qed.

(** ** PIN codes *)

Lemma decimals_decimal (s : ustring) : forallb isdecimal (decimals s) = true.
Proof. apply filter_kept. Qed.

Lemma decimals_twice (s : ustring) : decimals (decimals s) = decimals s.
Proof. apply filter_fixed, decimals_decimal. Qed.

Lemma ascii_digits_decimal (s : ustring) :
  forallb ascii_digit s = true -> forallb isdecimal s = true.
Proof. apply forallb_weaken, ascii_digit_isdecimal. Qed.

Lemma re_match_pincode_decimals (s : ustring) :
  forallb isdecimal s = true -> re_match_pincode s = pincode6 s.
Proof.
  intros Hs. unfold re_match_pincode. destruct s as [|c r]; [reflexivity|].
  simpl in Hs. apply andb_true_iff in Hs as [_ Hs].
  change (in_range 49 57 c && re_class_times (in_range 48 57) 5 at_dollar r
          = pincode6 (c :: r)).
  rewrite (class_then_end (in_range 48 57) 5 r (decimals_kept _ Hs)).
  unfold pincode6. now rewrite andb_assoc.
Qed.

Lemma pincode6_ascii (c : ustring) :
  pincode6 c = true -> forallb ascii_digit c = true.
Proof.
  destruct c as [|a r]; simpl; [discriminate|].
  intros Hc. apply andb_true_iff in Hc as [Hc Hr].
  apply andb_true_iff in Hc as [Ha _]. rewrite Hr, andb_true_r.
  unfold ascii_digit, in_range in *. apply andb_true_iff in Ha as [H1 H2].
  apply Z.leb_le in H1, H2. apply andb_true_iff. split; apply Z.leb_le; lia.
Qed.

Lemma validate_pincode_verdict (pincode : ustring) :
  validate_pincode pincode
  = if pincode6 (decimals pincode) then (true, Some (decimals pincode))
    else (false, None).
Proof.
  unfold validate_pincode. destruct pincode as [|a r] eqn:E; [reflexivity|].
  rewrite <- E. replace (truthy pincode) with true by now subst.
  cbn [negb]. fold (decimals pincode).
  rewrite (re_match_pincode_decimals _ (decimals_decimal pincode)).
  now destruct (pincode6 (decimals pincode)).
Qed.

(** X2. [validate_pincode] looks only at the characters of its input
    that [\d] matches, the decimal digits of any script: it accepts
    exactly when these are six of the digits [0] to [9], the first not
    [0], and returns them; an accepted value validates to itself.  An
    input that holds a decimal digit of another script is refused. *)
Theorem validate_pincode_spec (pincode : ustring) :
  (pincode6 (decimals pincode) = true ->
     validate_pincode pincode = (true, Some (decimals pincode))
     /\ validate_pincode (decimals pincode) = (true, Some (decimals pincode)))
  /\ (pincode6 (decimals pincode) = false ->
      validate_pincode pincode = (false, None))
  /\ (forall c, In c pincode -> isdecimal c = true -> ascii_digit c = false ->
                validate_pincode pincode = (false, None)).
Proof.
  split; [|split].
  - intros Hp. split; [now rewrite validate_pincode_verdict, Hp|].
    rewrite validate_pincode_verdict, decimals_twice. now rewrite Hp.
  - intros Hp. now rewrite validate_pincode_verdict, Hp.
  - intros c Hin Hdec Hascii. rewrite validate_pincode_verdict.
    destruct (pincode6 (decimals pincode)) eqn:Hp; [|reflexivity].
    apply pincode6_ascii in Hp. rewrite forallb_forall in Hp.
    rewrite (Hp c) in Hascii; [discriminate Hascii|].
    apply filter_In. now split.
Qed.

End Facts.

Lemma validate_phone_number_idempotent_witness :
  validate_phone_number (lit "+919876543210") (lit "+91")
  = (true, Some (lit "+919876543210")).
Proof.
  apply (validate_phone_number_idempotent (H := unicode_14)
           (lit "098765-43210") (lit "+919876543210")).
  vm_compute. reflexivity.
Defined.

Lemma validate_pincode_spec_witness :
  (validate_pincode (lit "226 001") = (true, Some (lit "226001"))
   /\ validate_pincode (lit "226001") = (true, Some (lit "226001")))
  /\ validate_pincode (lit "026001") = (false, None)
  /\ validate_pincode (lit "226001" ++ [2407]) = (false, None).
Proof.
  split; [|split].
  - apply (proj1 (validate_pincode_spec (H := unicode_14) (lit "226 001"))).
    vm_compute. reflexivity.
  - apply (proj1 (proj2 (validate_pincode_spec (H := unicode_14) (lit "026001")))).
    vm_compute. reflexivity.
  - apply (proj2 (proj2 (validate_pincode_spec (H := unicode_14)
                           (lit "226001" ++ [2407]))) 2407);
      [vm_compute; tauto | reflexivity | reflexivity].
Defined.

End validation_others_facts.


(* ===================================================================== *)
(** * core/utils/formatting.py: phone numbers *)
(* ===================================================================== *)

Module formatting_phone_facts.
Import unicode unicode_facts validation_phone validation_phone_facts formatting_phone.

Section Facts.
Context `{UnicodeData} `{!UnicodeLaws}.

Lemma validate_reducible (d s : ustring) :
  mobile10 d = true -> In (strip_formatting s) (shapes d) ->
  validate_phone_number s (lit "+91") = (true, Some (lit "+91" ++ d)).
Proof.
  intros Hd Hin.
  destruct (validate_phone_number_verdict s (lit "+91"))
    as [(d' & Hd' & Hin' & Hv) | (Hnot & _)].
  - pose proof (mobile_part_of_shapes d _ Hd Hin) as E1.
    pose proof (mobile_part_of_shapes d' _ Hd' Hin') as E2.
    rewrite E1 in E2. injection E2 as <-. exact Hv.
  - exfalso. apply Hnot. now exists d.
Qed.

(** Each of the four shapes yields the ten digits as [number]. *)
Lemma country_code_and_number_shapes (d s : ustring) :
  mobile10 d = true -> In s (shapes d) ->
  country_code_and_number s = (lit "+91", d).
Proof.
  intros Hd Hin.
  destruct (mobile10_inv d Hd) as (c & r & -> & Hc & Hr).
  unfold in_range in Hc. apply andb_true_iff in Hc as [H1 H2].
  apply Z.leb_le in H1, H2.
  assert ((c =? 43) = false) as Hplus by (apply Z.eqb_neq; lia).
  unfold shapes in Hin. literals. simpl in Hin.
  destruct Hin as [<- | [<- | [<- | [<- | []]]]];
    unfold country_code_and_number, slice_from, len; literals; cbn;
    rewrite ?Hplus, ?Hr; cbn; rewrite ?andb_false_r; cbn; try reflexivity.
Qed.

Lemma strip_formatting_app (s t : ustring) :
  strip_formatting (s ++ t) = strip_formatting s ++ strip_formatting t.
Proof. apply List.filter_app. Qed.

Lemma strip_formatting_ascii (s t : ustring) :
  forallb (fun c => (0 <=? c) && (c <? 128)) s = true ->
  List.filter (fun c => ascii_digit c || (c =? 43)) s = t ->
  strip_formatting s = t.
Proof.
  intros Hs <-. unfold strip_formatting.
  induction s as [|c s IH]; [reflexivity|].
  simpl in Hs. apply andb_true_iff in Hs as [Hc Hs].
  apply andb_true_iff in Hc as [H1 H2]. apply Z.leb_le in H1. apply Z.ltb_lt in H2.
  simpl. unfold keep at 1. rewrite (isdecimal_ascii_digit c) by lia.
  now rewrite (IH Hs).
Qed.

(** X9. Formatting a number that [validate_phone_number] accepts, in any of
    the format types, gives text that validates to the same normalised
    number. *)
Theorem format_phone_number_validates (phone format_type normalized : ustring) :
  validate_phone_number phone (lit "+91") = (true, Some normalized) ->
  validate_phone_number (format_phone_number phone format_type) (lit "+91")
  = (true, Some normalized).
Proof.
  intros Hv.
  destruct (validate_phone_number_verdict phone (lit "+91"))
    as [(d & Hd & Hin & Hv') | (_ & Hv')]; rewrite Hv' in Hv; [|discriminate Hv].
  injection Hv as <-.
  unfold format_phone_number. fold (strip_formatting phone).
  rewrite (country_code_and_number_shapes d _ Hd Hin).
  unfold len at 1. rewrite (mobile10_len d Hd). change (Z.of_nat 10 =? 10) with true. cbv iota.
  pose proof (mobile10_kept d Hd) as Hk.
  pose proof (strip_formatting_ascii (lit "+91") (lit "+91") eq_refl eq_refl) as S91.
  pose proof (strip_formatting_ascii (lit " ") [] eq_refl eq_refl) as Ssp.
  pose proof (strip_formatting_ascii (lit "0") (lit "0") eq_refl eq_refl) as S0.
  apply (validate_reducible d); [exact Hd|].
  destruct (eqb format_type (lit "display"));
    [|destruct (eqb format_type (lit "international"));
      [|destruct (eqb format_type (lit "national"))]].
  - rewrite !strip_formatting_app, S91, Ssp. unfold slice_to, slice_from.
    cbn [Z.ltb Z.compare].
    rewrite (strip_formatting_fixed (firstn (Z.to_nat 5) d))
      by now apply forallb_firstn.
    rewrite (strip_formatting_fixed (skipn (Z.to_nat 5) d))
      by now apply forallb_skipn.
    cbn [app]. rewrite firstn_skipn. simpl. auto.
  - rewrite !strip_formatting_app, S91, Ssp, (strip_formatting_fixed d Hk).
    simpl. auto.
  - rewrite strip_formatting_app, S0, (strip_formatting_fixed d Hk). simpl. auto.
  - rewrite strip_formatting_app, S91, (strip_formatting_fixed d Hk). simpl. auto.
Qed.

End Facts.

Lemma format_phone_number_validates_witness :
  validate_phone_number (format_phone_number (lit "09876543210") (lit "display"))
    (lit "+91")
  = (true, Some (lit "+919876543210")).
Proof.
  apply (format_phone_number_validates (H := unicode_14)
           (lit "09876543210") (lit "display") (lit "+919876543210")).
  vm_compute. reflexivity.
Defined.

End formatting_phone_facts.


(* ===================================================================== *)
(** * core/utils/validation.py: what the Aadhaar check detects *)
(* ===================================================================== *)

Module validation_verhoeff_facts.
Import Py Py_facts validation validation_aadhaar_facts validation_others.

Lemma digits_only_digits (s : string) :
  forallb isdigit (chars (digits_only s)) = true.
Proof.
  unfold digits_only.
  rewrite (forallb_pointwise isdigit (fun c => negb (negb (isdigit c)))).
  - apply (re_sub_class_kept (fun c => negb (isdigit c))).
  - intros c. now rewrite negb_involutive.
Qed.

Lemma digits_only_fixed (s : string) :
  forallb isdigit (chars s) = true -> digits_only s = s.
Proof.
  intros H. apply re_sub_class_fixed.
  rewrite (forallb_pointwise _ isdigit); [exact H|].
  intros c. apply negb_involutive.
Qed.

Lemma in_digits10 (z : Z) : 0 <= z <= 9 -> In z digits10.
Proof. intros H. unfold digits10. simpl. lia. Qed.

Lemma in_positions8 (z : Z) : 0 <= z <= 7 -> In z positions8.
Proof. intros H. unfold positions8. simpl. lia. Qed.

(** Each row and each column of the multiplication table holds every value
    once, and so does each row of the permutation table. *)
Lemma d_op_row_injective (c a b : Z) :
  0 <= c <= 9 -> 0 <= a <= 9 -> 0 <= b <= 9 -> d_op c a = d_op c b -> a = b.
Proof.
  intros Hc Ha Hb E.
  assert (forallb (fun c => forallb (fun a => forallb (fun b =>
            implb (d_op c a =? d_op c b) (a =? b)) digits10) digits10) digits10 = true)
    as H by (vm_compute; reflexivity).
  rewrite forallb_forall in H. specialize (H c (in_digits10 c Hc)).
  rewrite forallb_forall in H. specialize (H a (in_digits10 a Ha)).
  rewrite forallb_forall in H. specialize (H b (in_digits10 b Hb)).
  apply Z.eqb_eq in E. rewrite E in H. now apply Z.eqb_eq.
Qed.

Lemma d_op_column_injective (x c c' : Z) :
  0 <= x <= 9 -> 0 <= c <= 9 -> 0 <= c' <= 9 -> d_op c x = d_op c' x -> c = c'.
Proof.
  intros Hx Hc Hc' E.
  assert (forallb (fun x => forallb (fun a => forallb (fun b =>
            implb (d_op a x =? d_op b x) (a =? b)) digits10) digits10) digits10 = true)
    as H by (vm_compute; reflexivity).
  rewrite forallb_forall in H. specialize (H x (in_digits10 x Hx)).
  rewrite forallb_forall in H. specialize (H c (in_digits10 c Hc)).
  rewrite forallb_forall in H. specialize (H c' (in_digits10 c' Hc')).
  apply Z.eqb_eq in E. rewrite E in H. now apply Z.eqb_eq.
Qed.

Lemma p_op_mod (pos n : Z) : p_op pos n = p_op (pos mod 8) n.
Proof. unfold p_op. now rewrite Z.mod_mod. Qed.

Lemma p_op_succ_mod (pos n : Z) : p_op (pos + 1) n = p_op (pos mod 8 + 1) n.
Proof. unfold p_op. now rewrite Z.add_mod_idemp_l. Qed.

Lemma p_op_injective (pos a b : Z) :
  0 <= a <= 9 -> 0 <= b <= 9 -> p_op pos a = p_op pos b -> a = b.
Proof.
  intros Ha Hb E. rewrite (p_op_mod pos a), (p_op_mod pos b) in E.
  pose proof (Z.mod_pos_bound pos 8 eq_refl) as Hm.
  assert (forallb (fun m => forallb (fun a => forallb (fun b =>
            implb (p_op m a =? p_op m b) (a =? b)) digits10) digits10) positions8 = true)
    as H by (vm_compute; reflexivity).
  rewrite forallb_forall in H. specialize (H (pos mod 8) (in_positions8 (pos mod 8) ltac:(lia))).
  rewrite forallb_forall in H. specialize (H a (in_digits10 a Ha)).
  rewrite forallb_forall in H. specialize (H b (in_digits10 b Hb)).
  apply Z.eqb_eq in E. rewrite E in H. now apply Z.eqb_eq.
Qed.

(** Two different digits in neighbouring positions never give the same
    running value in either order. *)
Lemma transposition_step (pos c a b : Z) :
  0 <= c <= 9 -> 0 <= a <= 9 -> 0 <= b <= 9 ->
  d_op (d_op c (p_op pos b)) (p_op (pos + 1) a)
  = d_op (d_op c (p_op pos a)) (p_op (pos + 1) b) ->
  a = b.
Proof.
  intros Hc Ha Hb E.
  rewrite (p_op_mod pos a), (p_op_mod pos b),
          (p_op_succ_mod pos a), (p_op_succ_mod pos b) in E.
  pose proof (Z.mod_pos_bound pos 8 eq_refl) as Hm.
  assert (forallb (fun m => forallb (fun c => forallb (fun a => forallb (fun b =>
            implb (d_op (d_op c (p_op m b)) (p_op (m + 1) a)
                   =? d_op (d_op c (p_op m a)) (p_op (m + 1) b)) (a =? b))
            digits10) digits10) digits10) positions8 = true)
    as H by (vm_compute; reflexivity).
  rewrite forallb_forall in H. specialize (H (pos mod 8) (in_positions8 (pos mod 8) ltac:(lia))).
  rewrite forallb_forall in H. specialize (H c (in_digits10 c Hc)).
  rewrite forallb_forall in H. specialize (H a (in_digits10 a Ha)).
  rewrite forallb_forall in H. specialize (H b (in_digits10 b Hb)).
  apply Z.eqb_eq in E. rewrite E in H. now apply Z.eqb_eq.
Qed.

Lemma p_op_range (pos n : Z) : 0 <= pos -> 0 <= n <= 9 -> 0 <= p_op pos n <= 9.
Proof.
  intros Hp Hn. destruct (permutation_lookup pos n Hp Hn) as (_ & _ & _ & H). exact H.
Qed.

Lemma d_op_range (c p : Z) : 0 <= c <= 9 -> 0 <= p <= 9 -> 0 <= d_op c p <= 9.
Proof.
  intros Hc Hp. destruct (multiplication_lookup c p Hc Hp) as (_ & _ & _ & H). exact H.
Qed.

Lemma verhoeff_walk_app (pos c : Z) (xs ys : list Z) :
  verhoeff_walk pos c (xs ++ ys)
  = verhoeff_walk (pos + Z.of_nat (length xs)) (verhoeff_walk pos c xs) ys.
Proof.
  revert pos c. induction xs as [|x xs IH]; intros pos c.
  - simpl. now rewrite Z.add_0_r.
  - cbn [app verhoeff_walk length]. rewrite IH. f_equal. lia.
Qed.

Lemma verhoeff_walk_range (pos c : Z) (l : list Z) :
  0 <= pos -> 0 <= c <= 9 -> Forall in_digit_range l ->
  0 <= verhoeff_walk pos c l <= 9.
Proof.
  revert pos c. induction l as [|x l IH]; intros pos c Hp Hc Hl; [exact Hc|].
  inversion Hl as [|? ? Hx Hl']; subst. cbn [verhoeff_walk].
  apply IH; [lia | | exact Hl'].
  apply d_op_range; [exact Hc | now apply p_op_range].
Qed.

(** Two walks over the same digits that start apart stay apart. *)
Lemma verhoeff_walk_separates (pos c c' : Z) (l : list Z) :
  0 <= pos -> 0 <= c <= 9 -> 0 <= c' <= 9 -> Forall in_digit_range l ->
  verhoeff_walk pos c l = verhoeff_walk pos c' l -> c = c'.
Proof.
  revert pos c c'. induction l as [|x l IH]; intros pos c c' Hp Hc Hc' Hl E; [exact E|].
  inversion Hl as [|? ? Hx Hl']; subst. cbn [verhoeff_walk] in E.
  pose proof (p_op_range pos x Hp Hx) as Hpx.
  apply IH in E; [| lia | now apply d_op_range | now apply d_op_range | exact Hl'].
  now apply (d_op_column_injective (p_op pos x)).
Qed.

Lemma digit_value_injective (a b : ascii) : digit_value a = digit_value b -> a = b.
Proof.
  unfold digit_value, code. intros E.
  assert (nat_of_ascii a = nat_of_ascii b) as E' by lia.
  rewrite <- (ascii_nat_embedding a), <- (ascii_nat_embedding b). now rewrite E'.
Qed.

Lemma digit_values_range (l : list ascii) :
  forallb isdigit l = true -> Forall in_digit_range (rev (map digit_value l)).
Proof.
  intros H. apply Forall_rev.
  induction l as [|c l IH]; cbn [map]; [constructor|].
  simpl in H. apply andb_true_iff in H as [Hc Hl].
  constructor; [exact (proj2 (digit_value_range c Hc)) | exact (IH Hl)].
Qed.

Lemma twelve_digits_chars (s : string) :
  twelve_digits s = true -> forallb isdigit (chars s) = true.
Proof. intros H. apply twelve_digits_inv in H. tauto. Qed.

(** A single wrong digit changes the outcome of the walk. *)
Lemma substitution_changes_walk (s s' : string) :
  twelve_digits s = true -> twelve_digits s' = true -> substituted s s' ->
  verhoeff_ok s = true -> verhoeff_ok s' = false.
Proof.
  intros Hs Hs' (l1 & a & b & l2 & Hab & E & E') Hok.
  apply twelve_digits_chars in Hs, Hs'. rewrite E in Hs. rewrite E' in Hs'.
  unfold verhoeff_ok in *. rewrite E in Hok. rewrite E'.
  apply Z.eqb_eq in Hok. apply Z.eqb_neq. intros Hok'. apply Hab.
  rewrite map_app, rev_app_distr in Hok, Hok'. cbn [map rev] in Hok, Hok'.
  rewrite <- !app_assoc in Hok, Hok'. cbn [app] in Hok, Hok'.
  rewrite verhoeff_walk_app in Hok, Hok'. cbn [verhoeff_walk] in Hok, Hok'.
  rewrite forallb_app in Hs, Hs'. cbn [forallb] in Hs, Hs'.
  apply andb_true_iff in Hs as [H1 Ha]. apply andb_true_iff in Ha as [Ha H2].
  apply andb_true_iff in Hs' as [_ Hb]. apply andb_true_iff in Hb as [Hb _].
  pose proof (digit_values_range l2 H2) as R2.
  pose proof (digit_values_range l1 H1) as R1.
  pose proof (proj2 (digit_value_range a Ha)) as Ra.
  pose proof (proj2 (digit_value_range b Hb)) as Rb.
  set (pos := 0 + Z.of_nat (length (rev (map digit_value l2)))) in *.
  assert (0 <= pos) as Hpos by (unfold pos; lia).
  pose proof (verhoeff_walk_range 0 0 _ ltac:(lia) ltac:(lia) R2) as Rc.
  set (c := verhoeff_walk 0 0 (rev (map digit_value l2))) in *.
  rewrite <- Hok' in Hok.
  apply verhoeff_walk_separates in Hok;
    [| lia | apply d_op_range; [exact Rc | now apply p_op_range]
     | apply d_op_range; [exact Rc | now apply p_op_range] | exact R1].
  apply d_op_row_injective in Hok;
    [| exact Rc | now apply p_op_range | now apply p_op_range].
  apply p_op_injective in Hok; [| exact Ra | exact Rb].
  now apply digit_value_injective.
Qed.

(** Swapping two different neighbouring digits changes the outcome of the
    walk. *)
Lemma transposition_changes_walk (s s' : string) :
  twelve_digits s = true -> twelve_digits s' = true -> transposed s s' ->
  verhoeff_ok s = true -> verhoeff_ok s' = false.
Proof.
  intros Hs Hs' (l1 & a & b & l2 & Hab & E & E') Hok.
  apply twelve_digits_chars in Hs, Hs'. rewrite E in Hs. rewrite E' in Hs'.
  unfold verhoeff_ok in *. rewrite E in Hok. rewrite E'.
  apply Z.eqb_eq in Hok. apply Z.eqb_neq. intros Hok'. apply Hab.
  rewrite map_app, rev_app_distr in Hok, Hok'. cbn [map rev] in Hok, Hok'.
  rewrite <- !app_assoc in Hok, Hok'. cbn [app] in Hok, Hok'.
  rewrite verhoeff_walk_app in Hok, Hok'. cbn [verhoeff_walk] in Hok, Hok'.
  rewrite forallb_app in Hs. cbn [forallb] in Hs.
  apply andb_true_iff in Hs as [H1 Ha]. apply andb_true_iff in Ha as [Ha Hb].
  apply andb_true_iff in Hb as [Hb H2].
  pose proof (digit_values_range l2 H2) as R2.
  pose proof (digit_values_range l1 H1) as R1.
  pose proof (proj2 (digit_value_range a Ha)) as Ra.
  pose proof (proj2 (digit_value_range b Hb)) as Rb.
  set (pos := 0 + Z.of_nat (length (rev (map digit_value l2)))) in *.
  assert (0 <= pos) as Hpos by (unfold pos; lia).
  pose proof (verhoeff_walk_range 0 0 _ ltac:(lia) ltac:(lia) R2) as Rc.
  set (c := verhoeff_walk 0 0 (rev (map digit_value l2))) in *.
  rewrite <- Hok' in Hok.
  apply verhoeff_walk_separates in Hok; [| lia | | | exact R1].
  - apply (transposition_step pos c) in Hok; [| exact Rc | exact Ra | exact Rb].
    now apply digit_value_injective.
  - apply d_op_range; [|apply p_op_range; [lia | exact Ra]].
    apply d_op_range; [exact Rc | now apply p_op_range].
  - apply d_op_range; [|apply p_op_range; [lia | exact Rb]].
    apply d_op_range; [exact Rc | now apply p_op_range].
Qed.

Lemma rejected_when_walk_fails (s : string) :
  twelve_digits s = true -> verhoeff_ok s = false ->
  validate_aadhaar_number s = Some (false, None).
Proof.
  intros Hs Hv.
  destruct (validate_aadhaar_number_verdict s Hs) as (b & Hr & Hb).
  destruct b; [|exact Hr].
  destruct (proj1 Hb eq_refl) as [_ Hok]. congruence.
Qed.

Lemma accepted_walk_succeeds (s : string) (r : option string) :
  twelve_digits s = true -> validate_aadhaar_number s = Some (true, r) ->
  verhoeff_ok s = true.
Proof.
  intros Hs Hv.
  destruct (validate_aadhaar_number_verdict s Hs) as (b & Hr & Hb).
  rewrite Hr in Hv. injection Hv as -> _. exact (proj2 (proj1 Hb eq_refl)).
Qed.

(** X3. Replacing any one digit of an accepted 12-digit Aadhaar number by
    a different digit gives a number that is rejected. *)
Theorem aadhaar_detects_wrong_digit (s s' : string) (r : option string) :
  twelve_digits s = true -> twelve_digits s' = true -> substituted s s' ->
  validate_aadhaar_number s = Some (true, r) ->
  validate_aadhaar_number s' = Some (false, None).
Proof.
  intros Hs Hs' Hsub Hv. apply (rejected_when_walk_fails s' Hs').
  apply (substitution_changes_walk s s' Hs Hs' Hsub).
  exact (accepted_walk_succeeds s r Hs Hv).
Qed.

Lemma aadhaar_detects_wrong_digit_witness :
  validate_aadhaar_number "499118665240" = Some (false, None).
Proof.
  apply (aadhaar_detects_wrong_digit "499118665246" "499118665240" (Some "499118665246"));
    try (vm_compute; reflexivity).
  exists (chars "49911866524"), "6"%char, "0"%char, [].
  split; [discriminate | split; reflexivity].
Defined.

(** X4. Swapping two different neighbouring digits of an accepted 12-digit
    Aadhaar number gives a number that is rejected. *)
Theorem aadhaar_detects_swapped_digits (s s' : string) (r : option string) :
  twelve_digits s = true -> twelve_digits s' = true -> transposed s s' ->
  validate_aadhaar_number s = Some (true, r) ->
  validate_aadhaar_number s' = Some (false, None).
Proof.
  intros Hs Hs' Hsub Hv. apply (rejected_when_walk_fails s' Hs').
  apply (transposition_changes_walk s s' Hs Hs' Hsub).
  exact (accepted_walk_succeeds s r Hs Hv).
Qed.

Lemma aadhaar_detects_swapped_digits_witness :
  validate_aadhaar_number "499118665264" = Some (false, None).
Proof.
  apply (aadhaar_detects_swapped_digits "499118665246" "499118665264" (Some "499118665246"));
    try (vm_compute; reflexivity).
  exists (chars "4991186652"), "4"%char, "6"%char, [].
  split; [discriminate | split; reflexivity].
Defined.

(** The verdict for any input goes through its digits alone. *)
Lemma validate_aadhaar_number_through_digits (s : string) :
  s <> EmptyString ->
  validate_aadhaar_number s
  = if negb (len (digits_only s) =? 12) then Some (false, None)
    else if len_set (digits_only s) =? 1 then Some (false, None)
    else if verhoeff_ok (digits_only s) then Some (true, Some (digits_only s))
    else Some (false, None).
Proof.
  intros Hne. unfold validate_aadhaar_number.
  replace (truthy s) with true by (destruct s; [contradiction | reflexivity]).
  cbn [negb]. fold (digits_only s).
  destruct (negb (len (digits_only s) =? 12)); [reflexivity|].
  destruct (len_set (digits_only s) =? 1); [reflexivity|].
  rewrite (verify_aadhaar_checksum_digits _ (digits_only_digits s)). cbn.
  now destruct (verhoeff_ok (digits_only s)).
Qed.

(** X5. [validate_aadhaar_number] never raises.  What it accepts it
    returns as the twelve digits of the input, and that value validates to
    itself. *)
Theorem validate_aadhaar_number_total (s : string) :
  exists b : bool,
    validate_aadhaar_number s = Some (b, if b then Some (digits_only s) else None)
    /\ (b = true ->
        twelve_digits (digits_only s) = true
        /\ validate_aadhaar_number (digits_only s)
           = Some (true, Some (digits_only s))).
Proof.
  destruct s as [|a r] eqn:Es.
  { exists false. split; [reflexivity | discriminate]. }
  rewrite <- Es. assert (s <> EmptyString) as Hne by (subst; discriminate).
  rewrite (validate_aadhaar_number_through_digits s Hne).
  destruct (negb (len (digits_only s) =? 12)) eqn:E12;
    [exists false; split; [reflexivity | discriminate]|].
  destruct (len_set (digits_only s) =? 1) eqn:E1;
    [exists false; split; [reflexivity | discriminate]|].
  destruct (verhoeff_ok (digits_only s)) eqn:Ev;
    [|exists false; split; [reflexivity | discriminate]].
  exists true. split; [reflexivity|]. intros _.
  apply negb_false_iff, Z.eqb_eq in E12.
  assert (twelve_digits (digits_only s) = true) as H12.
  { unfold twelve_digits. rewrite digits_only_digits, andb_true_r.
    apply Nat.eqb_eq. unfold len in E12. lia. }
  split; [exact H12|].
  assert (digits_only s <> EmptyString) as Hne'.
  { intros E. rewrite E in E12. discriminate E12. }
  rewrite (validate_aadhaar_number_through_digits _ Hne').
  rewrite (digits_only_fixed _ (digits_only_digits s)).
  rewrite E12, E1, Ev. reflexivity.
Qed.

Lemma validate_aadhaar_number_total_witness :
  validate_aadhaar_number "4991 1866 5246" = Some (true, Some "499118665246")
  /\ validate_aadhaar_number "499118665246" = Some (true, Some "499118665246").
Proof.
  destruct (validate_aadhaar_number_total "4991 1866 5246") as (b & Hv & Hb).
  assert (b = true) as ->.
  { destruct b; [reflexivity|]. vm_compute in Hv. discriminate Hv. }
  split; [exact Hv | exact (proj2 (Hb eq_refl))].
Defined.

End validation_verhoeff_facts.


(* ===================================================================== *)
(** * core/utils/validation.py: sanitize_text *)
(* ===================================================================== *)

Module sanitize_text_facts.
Import Py Py_facts validation_others formatting_facts.

Lemma space_isspace (c : ascii) : Ascii.eqb c " " = true -> isspace c = true.
Proof. by_ascii_cases c. Qed.

Lemma space_tidy : tidy_char " " = true.
Proof. reflexivity. Qed.

Lemma tidy_space (c : ascii) :
  tidy_char c = true -> isspace c = true -> Ascii.eqb c " " = true.
Proof.
  unfold tidy_char. intros H Hs. apply andb_true_iff in H as [_ H].
  rewrite Hs in H. exact H.
Qed.

Lemma not_space_not_blank (c : ascii) : isspace c = false -> Ascii.eqb c " " = false.
Proof.
  intros H. destruct (Ascii.eqb c " ") eqn:E; [|reflexivity].
  apply space_isspace in E. congruence.
Qed.

(** ** Lengths *)

Lemma length_lstrip (s : string) : (String.length (lstrip s) <= String.length s)%nat.
Proof.
  induction s as [|c r IH]; simpl; [lia|].
  destruct (isspace c); simpl; lia.
Qed.

Lemma length_rstrip (s : string) : (String.length (rstrip s) <= String.length s)%nat.
Proof.
  induction s as [|c r IH]; simpl; [lia|].
  destruct (rstrip r) as [|c' r']; [destruct (isspace c)|]; simpl in *; lia.
Qed.

Lemma len_strip (s : string) : len (strip s) <= len s.
Proof.
  unfold strip, len.
  pose proof (length_rstrip (lstrip s)). pose proof (length_lstrip s). lia.
Qed.

(** X6. With a limit of at least 1 the sanitised text is never longer than
    the limit; a limit of 0 is treated like no limit at all. *)
Theorem sanitize_text_bound (text : string) (m : Z) :
  (1 <= m -> len (sanitize_text text (Some m)) <= m)
  /\ sanitize_text text (Some 0) = sanitize_text text None.
Proof.
  split.
  - intros Hm. unfold sanitize_text.
    destruct (negb (truthy text)); [unfold len; simpl; lia|].
    assert (truthy_int (Some m) = true) as ->.
    { unfold truthy_int. apply negb_true_iff, Z.eqb_neq. lia. }
    cbn [andb].
    destruct (len (strip (collapse_spaces false (re_sub_class is_control text))) >? m) eqn:E.
    + etransitivity; [apply len_strip|]. rewrite len_slice_to by lia. lia.
    + rewrite Z.gtb_ltb in E. apply Z.ltb_ge in E. exact E.
  - unfold sanitize_text. destruct (negb (truthy text)); reflexivity.
Qed.

Lemma sanitize_text_bound_witness :
  len (sanitize_text "  paddy   field  near   the canal " (Some 12)) <= 12.
Proof.
  apply (proj1 (sanitize_text_bound "  paddy   field  near   the canal " 12)). lia.
Defined.

(** ** The shape of the output *)

Lemma collapse_spaces_tidy (b : bool) (s : string) :
  forallb (fun c => negb (is_control c)) (chars s) = true ->
  forallb tidy_char (chars (collapse_spaces b s)) = true
  /\ single_spaced b (collapse_spaces b s) = true.
Proof.
  revert b. induction s as [|c r IH]; intros b H; [now split|].
  simpl in H. apply andb_true_iff in H as [Hc Hr]. cbn [collapse_spaces].
  destruct (isspace c) eqn:Es.
  - destruct (IH true Hr) as [IH1 IH2]. destruct b; [now split|].
    cbn [chars forallb single_spaced]. rewrite space_tidy, IH1.
    change (Ascii.eqb " " " ") with true. cbn. now rewrite IH2.
  - destruct (IH false Hr) as [IH1 IH2].
    cbn [chars forallb single_spaced]. rewrite IH1, (not_space_not_blank c Es), IH2.
    unfold tidy_char. now rewrite Hc, Es.
Qed.

Lemma lstrip_tidy (b : bool) (s : string) :
  forallb tidy_char (chars s) = true -> single_spaced b s = true ->
  forallb tidy_char (chars (lstrip s)) = true
  /\ single_spaced true (lstrip s) = true.
Proof.
  revert b. induction s as [|c r IH]; intros b H Hs; [now split|].
  cbn [lstrip]. cbn [chars forallb] in H. apply andb_true_iff in H as [Hc Hr].
  cbn [single_spaced] in Hs.
  destruct (isspace c) eqn:Es.
  - rewrite (tidy_space c Hc Es) in Hs. apply andb_true_iff in Hs as [_ Hs].
    exact (IH true Hr Hs).
  - rewrite (not_space_not_blank c Es) in Hs.
    cbn [chars forallb single_spaced]. rewrite Hc, Hr, (not_space_not_blank c Es).
    now split.
Qed.

Lemma tidy_cons (c : ascii) (r : string) :
  forallb tidy_char (chars (String c r))
  = tidy_char c && forallb tidy_char (chars r).
Proof. reflexivity. Qed.

Lemma single_spaced_cons (b : bool) (c : ascii) (r : string) :
  single_spaced b (String c r)
  = if Ascii.eqb c " " then negb b && single_spaced true r
    else single_spaced false r.
Proof. reflexivity. Qed.

Lemma ends_with_space_cons (c c' : ascii) (r : string) :
  ends_with_space (String c (String c' r)) = ends_with_space (String c' r).
Proof. reflexivity. Qed.

Lemma rstrip_tidy (b : bool) (s : string) :
  forallb tidy_char (chars s) = true -> single_spaced b s = true ->
  forallb tidy_char (chars (rstrip s)) = true
  /\ single_spaced b (rstrip s) = true
  /\ ends_with_space (rstrip s) = false.
Proof.
  revert b. induction s as [|c r IH]; intros b H Hs; [now repeat split|].
  rewrite tidy_cons in H. apply andb_true_iff in H as [Hc Hr].
  rewrite single_spaced_cons in Hs. cbn [rstrip].
  destruct (Ascii.eqb c " ") eqn:Eb.
  - apply andb_true_iff in Hs as [Hb Hs].
    destruct (IH true Hr Hs) as (I1 & I2 & I3).
    destruct (rstrip r) as [|c' r'].
    + rewrite (space_isspace c Eb). now repeat split.
    + rewrite tidy_cons, single_spaced_cons, ends_with_space_cons.
      rewrite Hc, Eb, Hb, I1, I2, I3. now repeat split.
  - destruct (IH false Hr Hs) as (I1 & I2 & I3).
    destruct (rstrip r) as [|c' r'].
    + destruct (isspace c); [now repeat split|].
      rewrite tidy_cons, single_spaced_cons. cbn [ends_with_space].
      rewrite Hc, Eb. now repeat split.
    + rewrite tidy_cons, single_spaced_cons, ends_with_space_cons.
      rewrite Hc, Eb, I1, I2, I3. now repeat split.
Qed.

Lemma take_tidy (b : bool) (k : nat) (s : string) :
  forallb tidy_char (chars s) = true -> single_spaced b s = true ->
  forallb tidy_char (chars (take k s)) = true
  /\ single_spaced b (take k s) = true.
Proof.
  revert b s. induction k as [|k IH]; intros b s H Hs; [now split|].
  destruct s as [|c r]; [now split|].
  cbn [chars forallb] in H. apply andb_true_iff in H as [Hc Hr].
  cbn [single_spaced] in Hs. cbn [take chars forallb single_spaced]. rewrite Hc.
  destruct (Ascii.eqb c " ").
  - apply andb_true_iff in Hs as [Hb Hs]. destruct (IH true r Hr Hs) as [I1 I2].
    now rewrite I1, Hb, I2.
  - destruct (IH false r Hr Hs) as [I1 I2]. now rewrite I1, I2.
Qed.

Lemma strip_tidy (b : bool) (s : string) :
  forallb tidy_char (chars s) = true -> single_spaced b s = true ->
  tidy (strip s) = true.
Proof.
  intros H Hs. destruct (lstrip_tidy b s H Hs) as [L1 L2].
  destruct (rstrip_tidy true (lstrip s) L1 L2) as (R1 & R2 & R3).
  unfold tidy, strip. now rewrite R1, R2, R3.
Qed.

Lemma tidy_inv (s : string) :
  tidy s = true ->
  forallb tidy_char (chars s) = true /\ single_spaced true s = true
  /\ ends_with_space s = false.
Proof.
  unfold tidy. intros H. apply andb_true_iff in H as [H H3].
  apply andb_true_iff in H as [H1 H2]. apply negb_true_iff in H3. now repeat split.
Qed.

Lemma slice_to_tidy (b : bool) (s : string) (m : Z) :
  forallb tidy_char (chars s) = true -> single_spaced b s = true ->
  forallb tidy_char (chars (slice_to s m)) = true
  /\ single_spaced b (slice_to s m) = true.
Proof.
  intros H Hs. unfold slice_to. destruct (m <? 0); now apply take_tidy.
Qed.

Lemma sanitize_text_is_tidy (text : string) (max_length : option Z) :
  tidy (sanitize_text text max_length) = true.
Proof.
  unfold sanitize_text. destruct (negb (truthy text)); [reflexivity|].
  pose proof (re_sub_class_kept is_control text) as Hk.
  destruct (collapse_spaces_tidy false _ Hk) as [C1 C2].
  pose proof (strip_tidy false _ C1 C2) as Ht.
  destruct max_length as [m|]; [|exact Ht].
  destruct (truthy_int (Some m) && _); [|exact Ht].
  destruct (tidy_inv _ Ht) as (T1 & T2 & _).
  destruct (slice_to_tidy true _ m T1 T2) as [S1 S2].
  exact (strip_tidy true _ S1 S2).
Qed.

(** ** Sanitising tidy text *)

Lemma single_spaced_weaken (s : string) :
  single_spaced true s = true -> single_spaced false s = true.
Proof.
  destruct s as [|c r]; [reflexivity|]. cbn [single_spaced].
  destruct (Ascii.eqb c " "); [discriminate | auto].
Qed.

Lemma collapse_spaces_fixed (b : bool) (s : string) :
  forallb tidy_char (chars s) = true -> single_spaced b s = true ->
  collapse_spaces b s = s.
Proof.
  revert b. induction s as [|c r IH]; intros b H Hs; [reflexivity|].
  cbn [chars forallb] in H. apply andb_true_iff in H as [Hc Hr].
  cbn [single_spaced] in Hs. cbn [collapse_spaces].
  destruct (isspace c) eqn:Es.
  - pose proof (tidy_space c Hc Es) as Eb. rewrite Eb in Hs.
    apply andb_true_iff in Hs as [Hb Hs]. apply negb_true_iff in Hb. subst b.
    apply Ascii.eqb_eq in Eb. subst c. now rewrite (IH true Hr Hs).
  - rewrite (not_space_not_blank c Es) in Hs. now rewrite (IH false Hr Hs).
Qed.

Lemma lstrip_fixed (s : string) :
  forallb tidy_char (chars s) = true -> single_spaced true s = true -> lstrip s = s.
Proof.
  destruct s as [|c r]; [reflexivity|]. intros H Hs.
  cbn [chars forallb] in H. apply andb_true_iff in H as [Hc _].
  cbn [single_spaced] in Hs. cbn [lstrip].
  destruct (isspace c) eqn:Es; [|reflexivity].
  rewrite (tidy_space c Hc Es) in Hs. discriminate Hs.
Qed.

Lemma rstrip_fixed (s : string) :
  forallb tidy_char (chars s) = true -> ends_with_space s = false -> rstrip s = s.
Proof.
  induction s as [|c r IH]; [reflexivity|]. intros H He.
  cbn [chars forallb] in H. apply andb_true_iff in H as [Hc Hr].
  cbn [rstrip]. destruct r as [|c' r'].
  - cbn [rstrip]. cbn [ends_with_space] in He.
    destruct (isspace c) eqn:Es; [|reflexivity].
    rewrite (tidy_space c Hc Es) in He. discriminate He.
  - cbn [ends_with_space] in He. now rewrite (IH Hr He).
Qed.

Lemma control_free (s : string) :
  forallb tidy_char (chars s) = true -> re_sub_class is_control s = s.
Proof.
  intros H. apply re_sub_class_fixed.
  induction (chars s) as [|c l IH]; [reflexivity|].
  cbn [forallb] in *. apply andb_true_iff in H as [Hc Hl].
  unfold tidy_char in Hc. apply andb_true_iff in Hc as [Hc _].
  now rewrite Hc, IH.
Qed.

Lemma sanitize_text_fixed (s : string) :
  tidy s = true -> sanitize_text s None = s.
Proof.
  intros H. destruct (tidy_inv s H) as (T1 & T2 & T3).
  unfold sanitize_text. destruct s as [|c r] eqn:E; [reflexivity|].
  rewrite <- E in *. replace (truthy s) with true by now subst.
  cbn [negb]. rewrite (control_free s T1).
  rewrite (collapse_spaces_fixed false s T1 (single_spaced_weaken s T2)).
  unfold strip. rewrite (lstrip_fixed s T1 T2). exact (rstrip_fixed s T1 T3).
Qed.

(** X7. Whatever the input and the limit, the sanitised text holds none of
    the removed control characters and no whitespace other than the space
    character, never two spaces in a row, and no space at either end. *)
Theorem sanitize_text_tidy (text : string) (max_length : option Z) :
  let out := sanitize_text text max_length in
  forallb (fun c => negb (is_control c)) (chars out) = true
  /\ forallb (fun c => negb (isspace c) || Ascii.eqb c " ") (chars out) = true
  /\ single_spaced true out = true
  /\ ends_with_space out = false.
Proof.
  intros out.
  destruct (tidy_inv out (sanitize_text_is_tidy text max_length)) as (T1 & T2 & T3).
  rewrite forallb_forall in T1.
  repeat split; try assumption; apply forallb_forall; intros c Hc;
    specialize (T1 c Hc); unfold tidy_char in T1;
    apply andb_true_iff in T1; tauto.
Qed.

Lemma sanitize_text_fits (text : string) (m : Z) :
  1 <= m -> len (sanitize_text text (Some m)) <= m.
Proof.
  intros Hm. unfold sanitize_text.
  destruct (negb (truthy text)); [unfold len; simpl; lia|].
  assert (truthy_int (Some m) = true) as ->.
  { unfold truthy_int. apply negb_true_iff, Z.eqb_neq. lia. }
  cbn [andb].
  destruct (len (strip (collapse_spaces false (re_sub_class is_control text))) >? m) eqn:E.
  - etransitivity; [apply len_strip|]. rewrite len_slice_to by lia. lia.
  - rewrite Z.gtb_ltb in E. apply Z.ltb_ge in E. exact E.
Qed.

(** A limit that is 0, or that the unlimited result fits, changes
    nothing. *)
Lemma sanitize_text_no_cut (text : string) (k : Z) :
  k = 0 \/ len (sanitize_text text None) <= k ->
  sanitize_text text (Some k) = sanitize_text text None.
Proof.
  unfold sanitize_text. destruct (negb (truthy text)); [reflexivity|].
  intros [-> | Hk]; [reflexivity|].
  assert ((len (strip (collapse_spaces false (re_sub_class is_control text))) >? k)
          = false) as ->.
  { rewrite Z.gtb_ltb. now apply Z.ltb_ge. }
  now rewrite andb_false_r.
Qed.

(** X8. Sanitising again text that [sanitize_text] returned changes
    nothing when the second call has no limit, a limit of 0, or a limit
    that the text fits; so it changes nothing under the same limit, if
    that limit is not negative. *)
Theorem sanitize_text_idempotent (text : string) (first second : option Z) :
  let out := sanitize_text text first in
  (match second with
   | None => True
   | Some k => k = 0 \/ len out <= k
   end -> sanitize_text out second = out)
  /\ (match first with
      | None => True
      | Some m => 0 <= m
      end -> sanitize_text out first = out).
Proof.
  intros out.
  pose proof (sanitize_text_fixed out (sanitize_text_is_tidy text first)) as Hfix.
  assert (match second with
          | None => True
          | Some k => k = 0 \/ len out <= k
          end -> sanitize_text out second = out) as Hsecond.
  { destruct second as [k|]; [|intros _; exact Hfix].
    intros Hk. rewrite sanitize_text_no_cut; [exact Hfix|].
    now rewrite Hfix. }
  split; [exact Hsecond|].
  clear Hsecond. destruct first as [m|]; [|intros _; exact Hfix].
  intros Hm. rewrite sanitize_text_no_cut; [exact Hfix|]. rewrite Hfix.
  destruct (Z.eq_dec m 0) as [-> | Hne]; [now left|].
  right. apply sanitize_text_fits. lia.
Qed.

Lemma sanitize_text_idempotent_witness :
  sanitize_text (sanitize_text "  paddy   field  near   the canal " (Some 12))
    (Some 12)
  = sanitize_text "  paddy   field  near   the canal " (Some 12).
Proof.
  apply (proj2 (sanitize_text_idempotent "  paddy   field  near   the canal "
                  (Some 12) None)).
  lia.
Defined.

End sanitize_text_facts.


(* ===================================================================== *)
(** * core/utils/formatting.py: the shape of a cut *)
(* ===================================================================== *)

Module formatting_others_facts.
Import Py Py_facts formatting formatting_facts formatting_others masking_facts.

(** ** Where [truncate_text] cuts *)

Lemma char_at_take (s : string) (k i : nat) :
  (i < k)%nat -> char_at (take k s) i = char_at s i.
Proof.
  revert k i. induction s as [|c r IH]; intros k i H.
  - destruct k; reflexivity.
  - destruct k as [|k]; [lia|]. destruct i as [|i]; [reflexivity|].
    simpl. apply IH. lia.
Qed.

(** The scan answers [last], or an index at which the character stands. *)
Lemma rfind_scan_hit (c : ascii) (s : string) (i last : Z) :
  rfind_scan c s i last = last
  \/ (i <= rfind_scan c s i last
      /\ char_at s (Z.to_nat (rfind_scan c s i last - i)) = Some c).
Proof.
  revert i last. induction s as [|a r IH]; intros i last; simpl; [now left|].
  destruct (Ascii.eqb a c) eqn:E.
  - right. destruct (IH (i + 1) i) as [-> | [Hle Hat]].
    + split; [lia|]. rewrite Z.sub_diag. simpl. apply Ascii.eqb_eq in E. now subst.
    + split; [lia|].
      replace (Z.to_nat (rfind_scan c r (i + 1) i - i))
        with (S (Z.to_nat (rfind_scan c r (i + 1) i - (i + 1)))) by lia.
      exact Hat.
  - destruct (IH (i + 1) last) as [-> | [Hle Hat]]; [now left|].
    right. split; [lia|].
    replace (Z.to_nat (rfind_scan c r (i + 1) last - i))
      with (S (Z.to_nat (rfind_scan c r (i + 1) last - (i + 1)))) by lia.
    exact Hat.
Qed.

Lemma rfind_hit (text : string) (c : ascii) (end_ : Z) :
  0 <= end_ -> 0 <= rfind text c end_ ->
  char_at text (Z.to_nat (rfind text c end_)) = Some c.
Proof.
  intros He Hr. pose proof (rfind_bound text c end_ He) as Hb. unfold rfind in *.
  destruct (rfind_scan_hit c (slice_to text end_) 0 (-1)) as [E | [_ Hat]]; [lia|].
  rewrite Z.sub_0_r in Hat. unfold slice_to in *.
  destruct (end_ <? 0) eqn:E; [apply Z.ltb_lt in E; lia|].
  rewrite char_at_take in Hat by lia. exact Hat.
Qed.

(** X10. When [truncate_text] cuts a text and the limit exceeds the length
    of the suffix, the result is the first [k] characters of the text
    followed by the suffix, where [k] is either the limit minus the suffix
    length, or an earlier position past the middle of the limit at which
    the text has a space.  When the limit does not exceed the suffix
    length, the result is the first [max_length] characters and no suffix. *)
Theorem truncate_text_cut (text suffix : string) (max_length : Z) :
  0 <= max_length -> max_length < len text ->
  (len suffix < max_length ->
     exists k,
       truncate_text text max_length suffix = slice_to text k +++ suffix
       /\ (k = max_length - len suffix
           \/ (max_length / 2 < k < max_length - len suffix
               /\ char_at text (Z.to_nat k) = Some " "%char)))
  /\ (max_length <= len suffix ->
      truncate_text text max_length suffix = slice_to text max_length).
Proof.
  intros Hmax Hlt. unfold truncate_text.
  assert (truthy text = true) as ->.
  { destruct text; [unfold len in Hlt; simpl in Hlt; lia | reflexivity]. }
  assert ((len text <=? max_length) = false) as -> by (apply Z.leb_gt; lia).
  cbn [negb orb]. split.
  - intros Hs. assert ((max_length >? len suffix) = true) as ->
      by (rewrite Z.gtb_ltb; apply Z.ltb_lt; lia).
    pose proof (len_nonneg suffix) as Hsn.
    pose proof (rfind_bound text " " (max_length - len suffix) ltac:(lia)) as Hr.
    destruct (rfind text " " (max_length - len suffix) >? max_length / 2) eqn:Esp.
    + rewrite Z.gtb_ltb in Esp. apply Z.ltb_lt in Esp.
      pose proof (Z.div_pos max_length 2 Hmax eq_refl) as Hhalf.
      eexists. split; [reflexivity|]. right. split; [lia|].
      apply rfind_hit; lia.
    + eexists. split; [reflexivity|]. now left.
  - intros Hs. assert ((max_length >? len suffix) = false) as ->
      by (rewrite Z.gtb_ltb; apply Z.ltb_ge; lia).
    reflexivity.
Qed.

Lemma truncate_text_cut_witness :
  exists k,
    truncate_text "the quick brown fox jumps" 16 "..." = slice_to "the quick brown fox jumps" k +++ "..."
    /\ (k = 16 - len "..."
        \/ (16 / 2 < k < 16 - len "..."
            /\ char_at "the quick brown fox jumps" (Z.to_nat k) = Some " "%char)).
Proof.
  apply (proj1 (truncate_text_cut "the quick brown fox jumps" "..." 16
                  ltac:(lia) ltac:(vm_compute; reflexivity))).
  vm_compute. reflexivity.
Defined.

End formatting_others_facts.


(* ===================================================================== *)
(** * Masking of Aadhaar numbers, e-mail addresses, names and accounts *)
(* ===================================================================== *)

Module masking_others_facts.
Import Py Py_facts masking masking_facts masking_others formatting_facts.

Lemma shows_nothing (out data : string) :
  digits_of out = [] -> shows_only_last4 out data.
Proof.
  intros E. unfold shows_only_last4. rewrite E. split; [|simpl; lia].
  exists (digits_of data). now rewrite app_nil_r.
Qed.

Lemma shows_tail (prefix data : string) :
  digits_of prefix = [] -> 4 <= len data ->
  shows_only_last4 (prefix +++ slice_from data (-4)) data.
Proof.
  intros E H. unfold shows_only_last4, slice_from. cbn [Z.ltb Z.compare].
  rewrite digits_of_concat, E. cbn [app].
  split; [apply digits_of_drop|].
  etransitivity; [apply length_digits_of|].
  rewrite length_drop. unfold len in *. lia.
Qed.

(** X11. Both Aadhaar maskers show no digit of the number beyond its last
    four. *)
Theorem aadhaar_masking (aadhaar : string) :
  shows_only_last4 (mask_aadhaar aadhaar) aadhaar
  /\ shows_only_last4 (mask_sensitive_data aadhaar "aadhaar") aadhaar.
Proof.
  split.
  - unfold mask_aadhaar.
    destruct (negb (truthy aadhaar) || (len aadhaar <? 4)) eqn:E;
      [now apply shows_nothing|].
    apply orb_false_iff in E as [_ E]. apply Z.ltb_ge in E.
    now apply shows_tail.
  - unfold mask_sensitive_data.
    destruct (negb (truthy aadhaar)); [now apply shows_nothing|].
    cbn [String.eqb Ascii.eqb Bool.eqb andb].
    destruct (len aadhaar >=? 12) eqn:E; [|now apply shows_nothing].
    rewrite Z.geb_leb in E. apply Z.leb_le in E.
    apply shows_tail; [reflexivity | lia].
Qed.

(** ** E-mail addresses *)

Lemma split_at_join (local_ domain : string) :
  lacks "@" local_ = true ->
  split_at (local_ +++ "@" +++ domain) = Some (local_, domain).
Proof.
  unfold lacks. change ("@" +++ domain) with (String "@" domain).
  induction local_ as [|c r IH]; intros H; [reflexivity|].
  cbn [chars forallb] in H. apply andb_true_iff in H as [Hc Hr].
  apply negb_true_iff in Hc. cbn [concat split_at]. now rewrite Hc, (IH Hr).
Qed.

Lemma split_at_inv (s local_ domain : string) :
  split_at s = Some (local_, domain) ->
  s = local_ +++ "@" +++ domain /\ lacks "@" local_ = true.
Proof.
  revert local_. induction s as [|c r IH]; intros local_ H; [discriminate H|].
  cbn [split_at] in H. destruct (Ascii.eqb c "@") eqn:E.
  - injection H as <- <-. apply Ascii.eqb_eq in E. subst c. now split.
  - destruct (split_at r) as [[l d]|]; [|discriminate H].
    injection H as <- <-. destruct (IH l eq_refl) as [-> Hl]. split; [reflexivity|].
    unfold lacks in *. cbn [chars forallb]. now rewrite E, Hl.
Qed.

(** X12. [mask_email] splits at the first [@] and shows the domain only:
    the masked address is [****@] followed by the domain, whatever the
    local part. *)
Theorem mask_email_hides_local (local_ domain : string) :
  lacks "@" local_ = true ->
  mask_email (local_ +++ "@" +++ domain) = "****@" +++ domain.
Proof.
  intros H. unfold mask_email.
  replace (truthy (local_ +++ "@" +++ domain)) with true by now destruct local_.
  cbn [negb]. now rewrite (split_at_join local_ domain H).
Qed.

Lemma mask_email_hides_local_witness :
  mask_email "ram.kumar@example.com" = "****@example.com".
Proof.
  apply (mask_email_hides_local "ram.kumar" "example.com"). reflexivity.
Defined.

(** ** Lengths *)

Lemma len_replicate_char (n : Z) (c : ascii) :
  0 <= n -> len (replicate_char (Z.to_nat n) c) = n.
Proof. intros H. unfold len. rewrite length_replicate_char. lia. Qed.

Lemma len_first_char (s : string) : 1 <= len s -> len (first_char s) = 1.
Proof.
  intros H. unfold first_char, len in *. rewrite length_take. lia.
Qed.

Lemma len_slice_from_neg (s : string) (k : Z) :
  k < 0 -> - k <= len s -> len (slice_from s k) = - k.
Proof.
  intros Hk H. unfold slice_from.
  assert ((k <? 0) = true) as -> by (apply Z.ltb_lt; lia).
  unfold len in *. rewrite length_drop. lia.
Qed.

Lemma len_truthy (s : string) : 1 <= len s -> truthy s = true.
Proof. destruct s; [unfold len; simpl; lia | reflexivity]. Qed.

Lemma all_stars_replicate (n : nat) : all_stars (replicate_char n "*") = true.
Proof. induction n as [|n IH]; [reflexivity | exact IH]. Qed.

(** X13. The maskers that star characters out keep the length of what
    they mask: [mask_name] on any name, and [mask_sensitive_data] on an
    account number of four characters or more and on general data.
    [mask_name] shows the first character only. *)
Theorem masking_keeps_length (data : string) :
  1 <= len data ->
  (len (mask_name data) = len data /\ all_stars (drop 1 (mask_name data)) = true)
  /\ (4 <= len data -> len (mask_sensitive_data data "account") = len data)
  /\ len (mask_sensitive_data data "general") = len data.
Proof.
  intros H. pose proof (len_truthy data H) as Ht. split; [|split].
  - unfold mask_name. rewrite Ht. cbn [negb]. split.
    + rewrite len_concat, (len_first_char data H), len_replicate_char by lia. lia.
    + destruct data as [|c r]; [discriminate Ht|].
      cbn [first_char take concat drop]. apply all_stars_replicate.
  - intros H4. unfold mask_sensitive_data. rewrite Ht.
    cbn [negb String.eqb Ascii.eqb Bool.eqb andb].
    assert ((len data >=? 4) = true) as -> by (rewrite Z.geb_leb; apply Z.leb_le; lia).
    rewrite len_concat, len_replicate_char by lia.
    rewrite (len_slice_from_neg data (-4)) by lia. lia.
  - unfold mask_sensitive_data. rewrite Ht.
    cbn [negb String.eqb Ascii.eqb Bool.eqb andb].
    destruct (len data <=? 2) eqn:E2.
    + apply len_replicate_char. lia.
    + apply Z.leb_gt in E2.
      assert (len (first_char data
                   +++ replicate_char (Z.to_nat (len data - 2)) "*"
                   +++ last_char data) = len data) as Hlen.
      { rewrite !len_concat, (len_first_char data H), len_replicate_char by lia.
        unfold last_char. rewrite (len_slice_from_neg data (-1)) by lia. lia. }
      destruct (len data <=? 4); exact Hlen.
Qed.

Lemma masking_keeps_length_witness :
  (len (mask_name "Ram Kumar") = len "Ram Kumar"
   /\ all_stars (drop 1 (mask_name "Ram Kumar")) = true)
  /\ (4 <= len "Ram Kumar" -> len (mask_sensitive_data "Ram Kumar" "account") = len "Ram Kumar")
  /\ len (mask_sensitive_data "Ram Kumar" "general") = len "Ram Kumar".
Proof.
  apply (masking_keeps_length "Ram Kumar"). vm_compute. discriminate.
Defined.

End masking_others_facts.


(* ===================================================================== *)
(** * api/v1/farmers.py: conflicts, misses, listing and what POST leaves alone *)
(* ===================================================================== *)

Module farmers_api_others_facts.
Import Py farmers_api farmers_api_list farmers_api_facts.

Section Facts.
Context `{PyFloat} `{PyDatetime}.

Lemma farmer_id_of_profile_item (farmer_id : string) (current_time : datetime)
      (p : FarmerProfile) :
  S_at (profile_item farmer_id current_time p) "farmerId" = Some farmer_id.
Proof. reflexivity. Qed.

(** X14. Creating under an id that the table already holds answers 409 and
    leaves the table as it was: the profile stored there is not
    overwritten. *)
Theorem create_conflict (farmer_id : string) (current_time : datetime)
        (body : FarmerProfile) (db : DynamoDB) (existing : Item) :
  FarmerProfile_ok body = true ->
  available db = true ->
  table db !! farmer_id = Some existing ->
  post_farmers farmer_id current_time body db
  = (HTTPException 409 "Farmer profile already exists", db).
Proof.
  intros Hok Havail Hex.
  unfold post_farmers, create_farmer_profile, put_item.
  rewrite Hok, Havail, farmer_id_of_profile_item. cbn [negb].
  now rewrite Hex.
Qed.

(** X15. Whatever [POST] answers, it leaves every other entry of the table
    as it was, never replaces an entry that exists, and a [GET] of any
    other id answers as before. *)
Theorem post_leaves_others (farmer_id : string) (current_time : datetime)
        (body : FarmerProfile) (db : DynamoDB) :
  let db' := snd (post_farmers farmer_id current_time body db) in
  available db' = available db
  /\ (forall k, k <> farmer_id -> table db' !! k = table db !! k)
  /\ (forall item, table db !! farmer_id = Some item ->
                   table db' !! farmer_id = Some item)
  /\ (forall k, k <> farmer_id ->
                get_farmer_profile k db' = get_farmer_profile k db).
Proof.
  cbv zeta.
  assert (snd (post_farmers farmer_id current_time body db) = db
          \/ (table db !! farmer_id = None
              /\ snd (post_farmers farmer_id current_time body db)
                 = {| table := <[farmer_id := profile_item farmer_id current_time body]>
                                 (table db);
                      available := available db |})) as [-> | [Hnone ->]].
  { unfold post_farmers, create_farmer_profile, put_item.
    destruct (FarmerProfile_ok body); [|now left].
    destruct (negb (available db)); [now left|].
    rewrite farmer_id_of_profile_item.
    destruct (table db !! farmer_id) eqn:E; [now left | right; now split]. }
  - repeat split; auto.
  - cbn [table available]. split; [reflexivity|]. split; [|split].
    + intros k Hk. now apply lookup_insert_ne.
    + intros item Hitem. congruence.
    + intros k Hk. unfold get_farmer_profile, get_item. cbn [table available].
      now rewrite lookup_insert_ne.
Qed.

(** X16. With the table reachable, a [GET] of an id that is not in it
    answers 404; with the table unreachable, [GET] answers 500 and [POST]
    of a valid body answers 500 and writes nothing. *)
Theorem missing_and_unreachable (farmer_id : string) (current_time : datetime)
        (body : FarmerProfile) (db : DynamoDB) :
  (available db = true -> table db !! farmer_id = None ->
     get_farmer_profile farmer_id db = HTTPException 404 "Farmer profile not found")
  /\ (available db = false ->
      get_farmer_profile farmer_id db
      = HTTPException 500 "Failed to retrieve farmer profile"
      /\ (FarmerProfile_ok body = true ->
          post_farmers farmer_id current_time body db
          = (HTTPException 500 "Failed to create farmer profile", db))).
Proof.
  split.
  - intros Ha Hn. unfold get_farmer_profile, get_item. now rewrite Ha, Hn.
  - intros Ha. split.
    + unfold get_farmer_profile, get_item. now rewrite Ha.
    + intros Hok. unfold post_farmers, create_farmer_profile, put_item.
      now rewrite Hok, Ha.
Qed.

(** ** Listing *)

Lemma length_parse_listed_items (items : list Item) (ps : list FarmerProfileResponse) :
  parse_listed_items items = Some ps -> length ps = length items.
Proof.
  revert ps. induction items as [|item rest IH]; intros ps Hp.
  - injection Hp as <-. reflexivity.
  - cbn [parse_listed_items] in Hp.
    destruct (parse_listed_item item) as [p|]; [|discriminate Hp].
    cbn in Hp. destruct (parse_listed_items rest) as [ps'|]; [|discriminate Hp].
    cbn in Hp. injection Hp as <-. cbn [length]. now rewrite (IH ps' eq_refl).
Qed.

(** X17. The handler asks the table for [min(limit, 100)] items, so every
    [limit] of 100 or more is answered as 100 is.  A listing that answers
    200 has one profile for each item the scan returned, and the scan, as
    [Limit] has it, returned at most [min(limit, 100)] items, however many
    the table holds.  A [limit] below 1 answers 500. *)
Theorem list_cap (limit : Z) (db : DynamoDB) :
  (100 <= limit -> list_farmer_profiles limit db = list_farmer_profiles 100 db)
  /\ (forall profiles,
        list_farmer_profiles limit db = Returned 200 profiles ->
        exists items,
          scan db (Z.min limit 100) = ScanDone items
          /\ length profiles = length items
          /\ Z.of_nat (length items) <= Z.min limit 100
          /\ (length items <= size (table db))%nat)
  /\ (limit < 1 ->
      list_farmer_profiles limit db = HTTPException 500 "Internal server error").
Proof.
  split; [|split].
  - intros Hl. unfold list_farmer_profiles. now rewrite Z.min_r, Z.min_r by lia.
  - intros profiles Hl. unfold list_farmer_profiles in Hl.
    destruct (scan db (Z.min limit 100)) as [items| |] eqn:Es; try discriminate Hl.
    destruct (parse_listed_items items) as [ps|] eqn:Ep; [|discriminate Hl].
    injection Hl as <-. exists items. split; [reflexivity|].
    split; [now apply length_parse_listed_items|].
    unfold scan in Es.
    destruct (Z.min limit 100 <? 1) eqn:E1; [discriminate Es|].
    apply Z.ltb_ge in E1.
    destruct (negb (available db)); [discriminate Es|].
    injection Es as <-.
    rewrite length_take, length_map, length_map_to_list. lia.
  - intros Hlt. unfold list_farmer_profiles, scan.
    assert ((Z.min limit 100 <? 1) = true) as -> by (apply Z.ltb_lt; lia).
    reflexivity.
Qed.

(** X18. After a valid profile is created in an empty table, a listing
    with a [limit] of at least 1 answers 200 with exactly that profile, as
    [GET] would show it. *)
Theorem create_then_list (farmer_id : string) (current_time : datetime)
        (body : FarmerProfile) (limit : Z) :
  FarmerProfile_ok body = true ->
  numbers_roundtrip body ->
  fromisoformat (isoformat current_time) = Some current_time ->
  1 <= limit ->
  list_farmer_profiles limit
    (snd (post_farmers farmer_id current_time body
            {| table := ∅; available := true |}))
  = Returned 200 [stored_view farmer_id current_time body].
Proof.
  intros Hok Hnum Hnow Hlimit.
  unfold post_farmers, create_farmer_profile, put_item.
  rewrite Hok, farmer_id_of_profile_item. cbn [negb available table snd].
  rewrite lookup_empty. cbn [snd].
  unfold list_farmer_profiles, scan. cbn [available table negb].
  assert ((Z.min limit 100 <? 1) = false) as -> by (apply Z.ltb_ge; lia).
  rewrite insert_empty, map_to_list_singleton. cbn [map snd].
  replace (Z.to_nat (Z.min limit 100)) with (S (Z.to_nat (Z.min limit 100 - 1))) by lia.
  cbn [firstn]. rewrite firstn_nil.
  cbn [parse_listed_items]. unfold parse_listed_item.
  rewrite farmer_id_of_profile_item. cbn [mbind option_bind].
  now rewrite (parse_item_profile_item farmer_id current_time body Hok Hnum Hnow).
Qed.

Lemma at_has (item : Item) (k : string) :
  (exists s, S_at item k = Some s) \/ (exists m, M_at item k = Some m) ->
  dict_has item k = true.
Proof.
  unfold S_at, M_at, dict_has.
  destruct (dict_get item k); [reflexivity|].
  intros [[s Hs] | [m Hm]]; discriminate.
Qed.

(** X19. [GET] answers 200 only for an id whose stored item has every one
    of the attributes [location], [farmDetails], [preferences], [name],
    [phoneNumber], [createdAt] and [updatedAt]; an item that lacks one
    makes it answer 500. *)
Theorem get_needs_attributes (farmer_id : string) (db : DynamoDB) :
  (forall r, get_farmer_profile farmer_id db = Returned 200 r ->
     exists item, table db !! farmer_id = Some item
                  /\ forallb (dict_has item) required_attributes = true)
  /\ (forall item, available db = true -> table db !! farmer_id = Some item ->
        forallb (dict_has item) required_attributes = false ->
        get_farmer_profile farmer_id db = HTTPException 500 "Internal server error").
Proof.
  assert (forall item r, parse_item farmer_id item = Some r ->
            forallb (dict_has item) required_attributes = true) as Hparse.
  { intros item r Hp. unfold parse_item in Hp.
    repeat match type of Hp with
           | (mbind _ ?e) = Some _ =>
               let E := fresh "E" in
               destruct e eqn:E; [cbn [mbind option_bind] in Hp | discriminate Hp]
           end.
    cbn [required_attributes forallb].
    repeat (rewrite at_has by eauto). reflexivity. }
  split.
  - intros r Hg. unfold get_farmer_profile, get_item in Hg.
    destruct (negb (available db)); [discriminate Hg|].
    destruct (table db !! farmer_id) as [item|] eqn:Et; [|discriminate Hg].
    destruct (parse_item farmer_id item) as [r'|] eqn:Ep; [|discriminate Hg].
    exists item. split; [reflexivity | exact (Hparse item r' Ep)].
  - intros item Ha Ht Hmiss. unfold get_farmer_profile, get_item.
    rewrite Ha, Ht. cbn [negb].
    destruct (parse_item farmer_id item) as [r|] eqn:Ep; [|reflexivity].
    rewrite (Hparse item r Ep) in Hmiss. discriminate Hmiss.
Qed.

End Facts.

Import ZInstances farmers_api_samples.

Lemma post_leaves_others_witness :
  get_farmer_profile "f-2"
    (snd (post_farmers "f-1" sample_time (sample_body "+919876543210" None)
            empty_table))
  = get_farmer_profile "f-2" empty_table.
Proof.
  pose proof (post_leaves_others "f-1" sample_time
                (sample_body "+919876543210" None) empty_table) as Hpost.
  cbv zeta in Hpost. destruct Hpost as (_ & _ & _ & Hget).
  apply Hget. discriminate.
Defined.

Lemma list_cap_witness :
  size (table (table_of 3)) = 3%nat
  /\ list_farmer_profiles 1000 (table_of 3) = list_farmer_profiles 100 (table_of 3)
  /\ (exists profiles,
        list_farmer_profiles 2 (table_of 3) = Returned 200 profiles
        /\ length profiles = 2%nat)
  /\ list_farmer_profiles 0 (table_of 3)
     = HTTPException 500 "Internal server error".
Proof.
  split; [vm_compute; reflexivity|].
  split.
  { apply (proj1 (list_cap (H := Z_PyFloat) (H0 := Z_PyDatetime) 1000 (table_of 3))).
    lia. }
  split.
  - assert (exists profiles,
              list_farmer_profiles 2 (table_of 3) = Returned 200 profiles)
      as [profiles El] by (vm_compute; eexists; reflexivity).
    exists profiles. split; [exact El|].
    destruct (proj1 (proj2 (list_cap (H := Z_PyFloat) (H0 := Z_PyDatetime)
                              2 (table_of 3))) profiles El)
      as (items & Hs & Hlen & Hcap & _).
    assert (length items = 2%nat) as Hitems.
    { revert Hs. vm_compute. now intros [= <-]. }
    now rewrite Hlen.
  - apply (proj2 (proj2 (list_cap (H := Z_PyFloat) (H0 := Z_PyDatetime)
                           0 (table_of 3)))).
    lia.
Defined.

Lemma create_conflict_witness :
  let db := snd (post_farmers "f-1" sample_time (sample_body "+919876543210" None)
                   empty_table) in
  post_farmers "f-1" sample_time (sample_body "+919812345678" None) db
  = (HTTPException 409 "Farmer profile already exists", db).
Proof.
  intros db.
  apply (create_conflict "f-1" sample_time (sample_body "+919812345678" None) db
           (profile_item "f-1" sample_time (sample_body "+919876543210" None))).
  - vm_compute. reflexivity.
  - reflexivity.
  - apply lookup_insert_eq.
Defined.

Lemma missing_and_unreachable_witness :
  get_farmer_profile "f-2" empty_table = HTTPException 404 "Farmer profile not found"
  /\ get_farmer_profile "f-2" {| table := ∅; available := false |}
     = HTTPException 500 "Failed to retrieve farmer profile".
Proof.
  split.
  - apply (proj1 (missing_and_unreachable "f-2" sample_time
                    (sample_body "+919876543210" None) empty_table));
      reflexivity.
  - apply (proj2 (missing_and_unreachable "f-2" sample_time
                    (sample_body "+919876543210" None)
                    {| table := ∅; available := false |})).
    reflexivity.
Defined.

Lemma get_needs_attributes_witness :
  let partial : Item := [ ("farmerId", AV_S "f-3"); ("name", AV_S "Ram Kumar");
                          ("phoneNumber", AV_S "+919876543210") ] in
  get_farmer_profile "f-3" {| table := {[ "f-3" := partial ]}; available := true |}
  = HTTPException 500 "Internal server error".
Proof.
  intros partial.
  apply (proj2 (get_needs_attributes "f-3"
                  {| table := {[ "f-3" := partial ]}; available := true |}) partial).
  - reflexivity.
  - apply lookup_singleton_eq.
  - reflexivity.
Defined.

Lemma create_then_list_witness :
  list_farmer_profiles 10
    (snd (post_farmers "f-1" sample_time (sample_body "+919876543210" None)
            {| table := ∅; available := true |}))
  = Returned 200 [stored_view "f-1" sample_time (sample_body "+919876543210" None)].
Proof.
  apply (create_then_list "f-1" sample_time (sample_body "+919876543210" None) 10).
  - vm_compute. reflexivity.
  - repeat split; try (vm_compute; reflexivity).
    repeat constructor; vm_compute; reflexivity.
  - vm_compute. reflexivity.
  - lia.
Defined.

End farmers_api_others_facts.


(* ===================================================================== *)
(** * core/utils/formatting.py: what a printed duration keeps *)
(* ===================================================================== *)

Module formatting_duration_facts.
Import Py formatting_duration.

Lemma str_int_inj (a b : Z) : str_int a = str_int b -> a = b.
Proof.
  assert (forall z, DecimalString.NilZero.int_of_string (str_int z)
                    = Some (Z.to_int z)) as Hback.
  { intros z. unfold str_int, ZInstances.Z_str.
    apply DecimalString.NilZero.isi.
    - intros E. pose proof (f_equal Z.of_int E) as E0.
      rewrite DecimalZ.of_to in E0. subst z. discriminate E.
    - intros E. pose proof (f_equal Z.of_int E) as E0.
      rewrite DecimalZ.of_to in E0. subst z. discriminate E. }
  intros E. pose proof (Hback a) as Ha. rewrite E, Hback in Ha.
  injection Ha as Ha. apply (f_equal Z.of_int) in Ha.
  now rewrite !DecimalZ.of_to in Ha.
Qed.

Lemma all_numeric_uint (d : Decimal.uint) :
  all_numeric (DecimalString.NilEmpty.string_of_uint d) = true.
Proof. induction d; cbn; auto. Qed.

Lemma all_numeric_str_int (z : Z) : all_numeric (str_int z) = true.
Proof.
  unfold str_int, ZInstances.Z_str, DecimalString.NilZero.string_of_int,
    DecimalString.NilZero.string_of_uint.
  destruct (Z.to_int z) as [d|d]; destruct d; cbn; try reflexivity;
    apply all_numeric_uint.
Qed.

(** Two printed numbers followed by something that is not part of a number
    are equal only if the numbers and what follows are. *)
Lemma number_then_rest (x y : string) (c c' : ascii) (r r' : string) :
  all_numeric x = true -> all_numeric y = true ->
  numeric c = false -> numeric c' = false ->
  x +++ String c r = y +++ String c' r' ->
  x = y /\ c = c' /\ r = r'.
Proof.
  revert y. induction x as [|a x IH]; intros [|b y] Hx Hy Hc Hc' E; cbn in *.
  - now injection E as -> ->.
  - injection E as -> _. apply andb_prop in Hy as [Hb _]. congruence.
  - injection E as -> _. apply andb_prop in Hx as [Ha _]. congruence.
  - injection E as -> E. apply andb_prop in Hx as [_ Hx].
    apply andb_prop in Hy as [_ Hy].
    destruct (IH y Hx Hy Hc Hc' E) as (-> & -> & ->). auto.
Qed.

Lemma format_duration_spelling (seconds : Z) :
  spelling seconds (format_duration seconds).
Proof.
  unfold format_duration.
  destruct (Z.ltb_spec seconds 60); [now constructor|].
  destruct (Z.ltb_spec seconds 3600).
  - destruct (Z.eqb_spec (seconds mod 60) 0); constructor; lia.
  - destruct (Z.eqb_spec ((seconds mod 3600) / 60) 0); constructor; lia.
Qed.

Ltac split_number E :=
  apply number_then_rest in E;
  [ destruct E as (? & ? & ?)
  | apply all_numeric_str_int | apply all_numeric_str_int
  | reflexivity | reflexivity ].

(** X21. [format_duration] prints a duration below one hour without loss:
    two such durations are printed alike only if they are equal.  From one
    hour on it keeps the whole minutes and drops the seconds: two
    durations are printed alike exactly when they agree up to the
    minute. *)
Theorem format_duration_keeps (a b : Z) :
  (a < 3600 -> format_duration a = format_duration b -> a = b)
  /\ (3600 <= a -> 3600 <= b ->
      (format_duration a = format_duration b <-> a / 60 = b / 60)).
Proof.
  assert (format_duration a = format_duration b ->
          (a < 3600 -> a = b) /\ (3600 <= a -> 3600 <= b /\ a / 60 = b / 60))
    as Hkeep.
  { intros E.
    pose proof (format_duration_spelling a) as Ha.
    pose proof (format_duration_spelling b) as Hb.
    rewrite <- E in Hb.
    destruct Ha as [Ha|Ha Ha'|Ha Ha'|Ha Ha'|Ha Ha'];
      inversion Hb as [Hb' E'|Hb' Hb'' E'|Hb' Hb'' E'|Hb' Hb'' E'|Hb' Hb'' E'];
      symmetry in E'; split_number E'; try discriminate;
      repeat match goal with
             | H : str_int _ = str_int _ |- _ => apply str_int_inj in H
             | H : String _ _ = String _ _ |- _ => injection H as H
             | H : _ +++ String _ _ = _ +++ String _ _ |- _ => split_number H
             end;
      try discriminate; split; intros; try split; try lia.
    all: pose proof (Z.div_mod a 60 ltac:(lia));
      pose proof (Z.div_mod b 60 ltac:(lia));
      pose proof (Z.mod_pos_bound a 60 ltac:(lia));
      pose proof (Z.mod_pos_bound b 60 ltac:(lia)); try lia.
    all: Z.to_euclidean_division_equations; lia. }
  split.
  - intros Ha E. now apply Hkeep.
  - intros Ha Hb. split; [intros E; now apply Hkeep|].
    intros E. unfold format_duration.
    destruct (Z.ltb_spec a 60); [lia|]. destruct (Z.ltb_spec b 60); [lia|].
    destruct (Z.ltb_spec a 3600); [lia|]. destruct (Z.ltb_spec b 3600); [lia|].
    assert (a / 3600 = b / 3600) as ->.
    { Z.to_euclidean_division_equations. lia. }
    assert (a mod 3600 / 60 = b mod 3600 / 60) as ->; [|reflexivity].
    Z.to_euclidean_division_equations. lia.
Qed.

Lemma format_duration_keeps_witness :
  (format_duration 125 = format_duration 125 -> 125 = 125)
  /\ (format_duration 3725 = format_duration 3750 <-> 3725 / 60 = 3750 / 60).
Proof.
  split.
  - apply (proj1 (format_duration_keeps 125 125)). lia.
  - apply (proj2 (format_duration_keeps 3725 3750)); lia.
Defined.

End formatting_duration_facts.


(* ===================================================================== *)
(** * core/security/encryption.py: dictionaries and profiles, there and back *)
(* ===================================================================== *)

Module security_encryption_fields_facts.
Import Py security_encryption security_encryption_fields.

Lemma pydict_set_same (d : pydict) (k : string) (v : pyvalue) :
  pydict_get d k = Some v -> pydict_set d k v = d.
Proof.
  induction d as [|[k' v'] d IH]; cbn; [discriminate|].
  destruct (String.eqb k' k) eqn:E.
  - now intros [= ->].
  - intros Hg. now rewrite IH.
Qed.

Lemma pydict_get_set_eq (d : pydict) (k : string) (v : pyvalue) :
  pydict_get (pydict_set d k v) k = Some v.
Proof.
  induction d as [|[k' v'] d IH]; cbn.
  - now rewrite String.eqb_refl.
  - destruct (String.eqb k' k) eqn:E; cbn; now rewrite E.
Qed.

Lemma pydict_get_set_ne (d : pydict) (k k' : string) (v : pyvalue) :
  k <> k' -> pydict_get (pydict_set d k v) k' = pydict_get d k'.
Proof.
  intros Hne. induction d as [|[k0 v0] d IH]; cbn.
  - destruct (String.eqb_spec k k'); congruence.
  - destruct (String.eqb_spec k0 k) as [->|Hk]; cbn.
    + destruct (String.eqb_spec k k'); congruence.
    + now rewrite IH.
Qed.

Lemma pydict_set_set (d : pydict) (k : string) (v w : pyvalue) :
  pydict_set (pydict_set d k v) k w = pydict_set d k w.
Proof.
  induction d as [|[k' v'] d IH]; cbn.
  - now rewrite String.eqb_refl.
  - destruct (String.eqb k' k) eqn:E; cbn; rewrite E; [reflexivity|].
    now rewrite IH.
Qed.

Lemma pydict_set_comm (d : pydict) (k k' : string) (v w : pyvalue) :
  k <> k' -> pydict_get d k <> None -> pydict_get d k' <> None ->
  pydict_set (pydict_set d k v) k' w = pydict_set (pydict_set d k' w) k v.
Proof.
  intros Hne. induction d as [|[k0 v0] d IH]; cbn; [congruence|].
  destruct (String.eqb_spec k0 k) as [Hk|Hk];
    destruct (String.eqb_spec k0 k') as [Hk'|Hk']; cbn.
  - congruence.
  - intros _ _. subst k0. destruct (String.eqb_spec k k'); [congruence|].
    now rewrite String.eqb_refl.
  - intros _ _. subst k0. destruct (String.eqb_spec k' k); [congruence|].
    now rewrite String.eqb_refl.
  - intros Hg Hg'. destruct (String.eqb_spec k0 k); [congruence|].
    destruct (String.eqb_spec k0 k'); [congruence|].
    now rewrite IH.
Qed.

Lemma pydict_set_keys (d : pydict) (k : string) (v w : pyvalue) :
  pydict_get d k = Some v -> map fst (pydict_set d k w) = map fst d.
Proof.
  induction d as [|[k' v'] d IH]; cbn; [discriminate|].
  destruct (String.eqb k' k) eqn:E; cbn; [reflexivity|].
  intros Hg. now rewrite IH.
Qed.

(** ** [update] *)

Lemma update_at (g g' : string -> pyvalue -> pyvalue) (d : pydict) (f : string) :
  (forall v, pydict_get d f = Some v -> g f v = g' f v) ->
  update g d f = update g' d f.
Proof.
  intros Hg. unfold update. destruct (pydict_get d f) as [v|]; [|reflexivity].
  now rewrite (Hg v).
Qed.

Lemma update_fixed (g : string -> pyvalue -> pyvalue) (d : pydict) (f : string) :
  (forall v, pydict_get d f = Some v -> g f v = v) -> update g d f = d.
Proof.
  intros Hg. unfold update. destruct (pydict_get d f) as [v|] eqn:E; [|reflexivity].
  rewrite (Hg v eq_refl). now apply pydict_set_same.
Qed.

Lemma get_update_ne (g : string -> pyvalue -> pyvalue) (d : pydict) (f k : string) :
  f <> k -> pydict_get (update g d f) k = pydict_get d k.
Proof.
  intros Hne. unfold update. destruct (pydict_get d f); [|reflexivity].
  now apply pydict_get_set_ne.
Qed.

Lemma get_update_eq (g : string -> pyvalue -> pyvalue) (d : pydict) (f : string) :
  pydict_get (update g d f) f = option_map (g f) (pydict_get d f).
Proof.
  unfold update. destruct (pydict_get d f) as [v|] eqn:E; cbn; [|exact E].
  apply pydict_get_set_eq.
Qed.

Lemma update_keys (g : string -> pyvalue -> pyvalue) (d : pydict) (f : string) :
  map fst (update g d f) = map fst d.
Proof.
  unfold update. destruct (pydict_get d f) as [v|] eqn:E; [|reflexivity].
  now apply (pydict_set_keys d f v).
Qed.

Lemma update_comm (g g' : string -> pyvalue -> pyvalue) (d : pydict) (f f' : string) :
  f <> f' -> update g (update g' d f') f = update g' (update g d f) f'.
Proof.
  intros Hne. unfold update at 1 3.
  rewrite !get_update_ne by congruence.
  unfold update.
  destruct (pydict_get d f) as [v|] eqn:E, (pydict_get d f') as [v'|] eqn:E';
    try reflexivity.
  apply pydict_set_comm; congruence.
Qed.

Lemma update_update (g1 g2 : string -> pyvalue -> pyvalue) (d : pydict) (f : string) :
  update g2 (update g1 d f) f = update (fun k v => g2 k (g1 k v)) d f.
Proof.
  unfold update at 1. rewrite get_update_eq. unfold update.
  destruct (pydict_get d f) as [v|]; cbn; [|reflexivity].
  apply pydict_set_set.
Qed.

Lemma fold_update_comm (g g' : string -> pyvalue -> pyvalue) (fs : list string)
      (d : pydict) (f : string) :
  ~ In f fs ->
  update g (fold_left (update g') fs d) f = fold_left (update g') fs (update g d f).
Proof.
  revert d. induction fs as [|a fs IH]; intros d Hin; cbn; [reflexivity|].
  rewrite IH by (intros Hf; apply Hin; now right).
  rewrite update_comm; [reflexivity|].
  intros ->. apply Hin. now left.
Qed.

Lemma fold_update_compose (g1 g2 : string -> pyvalue -> pyvalue) (fs : list string)
      (d : pydict) :
  List.NoDup fs ->
  fold_left (update g2) fs (fold_left (update g1) fs d)
  = fold_left (update (fun k v => g2 k (g1 k v))) fs d.
Proof.
  intros Hnd. revert d. induction Hnd as [|a fs Ha Hnd IH]; intros d; cbn;
    [reflexivity|].
  rewrite (fold_update_comm g2 g1 fs _ a Ha), IH, update_update.
  reflexivity.
Qed.

Lemma fold_update_ext (g g' : string -> pyvalue -> pyvalue) (fs : list string)
      (d : pydict) :
  (forall f v, In f fs -> g f v = g' f v) ->
  fold_left (update g) fs d = fold_left (update g') fs d.
Proof.
  revert d. induction fs as [|a fs IH]; intros d Hg; cbn; [reflexivity|].
  rewrite (update_at g g' d a) by (intros v _; apply Hg; now left).
  apply IH. intros f v Hf. apply Hg. now right.
Qed.

Lemma fold_update_keys (g : string -> pyvalue -> pyvalue) (fs : list string)
      (d : pydict) :
  map fst (fold_left (update g) fs d) = map fst d.
Proof.
  revert d. induction fs as [|a fs IH]; intros d; cbn; [reflexivity|].
  now rewrite IH, update_keys.
Qed.

Lemma get_fold_update_ne (g : string -> pyvalue -> pyvalue) (fs : list string)
      (d : pydict) (k : string) :
  ~ In k fs -> pydict_get (fold_left (update g) fs d) k = pydict_get d k.
Proof.
  revert d. induction fs as [|a fs IH]; intros d Hin; cbn; [reflexivity|].
  rewrite IH by (intros Hf; apply Hin; now right).
  apply get_update_ne. intros ->. apply Hin. now left.
Qed.

Lemma fold_update_fixed (g : string -> pyvalue -> pyvalue) (fs : list string)
      (d : pydict) :
  (forall f v, In f fs -> pydict_get d f = Some v -> g f v = v) ->
  fold_left (update g) fs d = d.
Proof.
  induction fs as [|a fs IH]; intros Hg; cbn; [reflexivity|].
  rewrite update_fixed by (intros v; apply Hg; now left).
  apply IH. intros f v Hf. apply Hg. now right.
Qed.

Lemma NoDup_sensitive_fields (group : string) : List.NoDup (sensitive_fields group).
Proof.
  unfold sensitive_fields.
  repeat match goal with
         | |- context [if ?b then _ else _] => destruct b
         end;
    repeat (constructor; [cbn; intuition discriminate|]); constructor.
Qed.

Lemma NoDup_profile_keys : List.NoDup profile_keys.
Proof.
  repeat (constructor; [cbn; intuition discriminate|]); constructor.
Qed.

Section Facts.
Context `{Fernet} `{!FernetLaws} `{PyCodec} `{!PyCodecLaws} `{PyJson}.

(** ** The cipher, by its contract *)

Lemma encrypt_token (self : EncryptionService) (n : nonce) (data : pyvalue) :
  encrypt self n data = Ok (token self n data).
Proof.
  unfold token, encrypt.
  destruct (b64_is_text (fernet_encrypt (key self) n
                           (str_encode (plaintext_of data)))) as (t & Ht & _).
  fold (plaintext_of data). now rewrite Ht.
Qed.

Lemma decrypt_token (self : EncryptionService) (n : nonce) (data : pyvalue) :
  decrypt self (token self n data) = Ok (plaintext_of data).
Proof.
  destruct (security_encryption_facts.decrypt_encrypt_text self n (plaintext_of data))
    as (t & Ht & Hd).
  unfold token, encrypt. fold (plaintext_of data). now rewrite Ht.
Qed.

Lemma decrypt_token_other (self other : EncryptionService) (n : nonce)
      (data : pyvalue) :
  key self <> key other ->
  decrypt other (token self n data) = EncryptionError.
Proof.
  intros Hk.
  destruct (security_encryption_facts.decrypt_other_key self other n
              (plaintext_of data) Hk) as (t & Ht & Hd).
  unfold token, encrypt. fold (plaintext_of data). now rewrite Ht.
Qed.

(** ** [encrypt_dict] and [decrypt_dict] *)

Lemma encrypt_dict_tokens (self : EncryptionService) (entropy : string -> nonce)
      (data : pydict) :
  encrypt_dict self entropy data
  = Ok (map (fun kv => (fst kv, if is_none (snd kv) then None
                                else Some (token self (entropy (fst kv)) (snd kv))))
          data).
Proof.
  induction data as [|[k v] data IH]; [reflexivity|].
  cbn [encrypt_dict map fst snd]. rewrite IH.
  destruct v; cbn [is_none]; try reflexivity; now rewrite encrypt_token.
Qed.

(** X20. [encrypt_dict] keeps the keys and [None] values and never fails;
    [decrypt_dict] under the same key then gives, for each other value,
    the text it was encrypted as, read as JSON where it parses and kept as
    a string where it does not.  Under another key [decrypt_dict] does not
    fail either: it hands back the tokens. *)
Theorem encrypt_dict_then_decrypt_dict (self other : EncryptionService)
        (entropy : string -> nonce) (data : pydict) :
  exists enc,
    encrypt_dict self entropy data = Ok enc
    /\ map fst enc = map fst data
    /\ decrypt_dict self enc = map (fun kv => (fst kv, returned_value (snd kv))) data
    /\ (key self <> key other ->
        decrypt_dict other enc
        = map (fun ke => (fst ke, match snd ke with
                                  | Some t => PStr t
                                  | None => PNone
                                  end)) enc).
Proof.
  eexists. split; [apply encrypt_dict_tokens|]. split; [|split].
  - rewrite map_map. reflexivity.
  - unfold decrypt_dict. rewrite map_map. apply map_ext. intros [k v]. cbn [fst snd].
    unfold returned_value. destruct (is_none v); [reflexivity|].
    rewrite decrypt_token. unfold reread.
    now destruct (json_loads (plaintext_of v)).
  - intros Hk. unfold decrypt_dict. rewrite !map_map. apply map_ext.
    intros [k v]. cbn [fst snd]. destruct (is_none v); [reflexivity|].
    now rewrite (decrypt_token_other self other _ _ Hk).
Qed.


(** ** The loops of [FieldEncryption] as updates *)

Lemma encrypt_field_update (self : EncryptionService)
      (entropy : string -> string -> nonce) (group : string) (d : pydict)
      (f : string) :
  encrypt_field self (entropy group f) d f
  = Returns (update (encrypted self entropy group) d f).
Proof.
  unfold encrypt_field, update, encrypted.
  destruct (pydict_get d f) as [v|] eqn:E; [|reflexivity].
  destruct (is_none v); [now rewrite (pydict_set_same d f v E)|].
  now rewrite encrypt_token.
Qed.

Lemma encrypt_fields_update (self : EncryptionService)
      (entropy : string -> string -> nonce) (group : string) (fs : list string)
      (d : pydict) :
  encrypt_fields self (entropy group) d fs
  = Returns (fold_left (update (encrypted self entropy group)) fs d).
Proof.
  revert d. induction fs as [|f fs IH]; intros d; cbn [encrypt_fields fold_left];
    [reflexivity|].
  rewrite encrypt_field_update. apply IH.
Qed.

Lemma decrypt_field_update (self : EncryptionService) (group : string) (d : pydict)
      (f : string) :
  decrypt_field self d f = update (decrypted self group) d f.
Proof.
  unfold decrypt_field, update, decrypted.
  destruct (pydict_get d f) as [v|] eqn:E; [|reflexivity].
  destruct (is_none v); [now rewrite (pydict_set_same d f v E)|].
  destruct (decrypt_value self v); [reflexivity|].
  now rewrite (pydict_set_same d f v E).
Qed.

Lemma decrypt_fields_update (self : EncryptionService) (group : string)
      (fs : list string) (d : pydict) :
  decrypt_fields self d fs = fold_left (update (decrypted self group)) fs d.
Proof.
  unfold decrypt_fields. revert d.
  induction fs as [|f fs IH]; intros d; cbn [fold_left]; [reflexivity|].
  rewrite (decrypt_field_update self group). apply IH.
Qed.

Lemma fold_update_nil (g : string -> pyvalue -> pyvalue) (fs : list string) :
  fold_left (update g) fs [] = [].
Proof. induction fs as [|f fs IH]; [reflexivity | exact IH]. Qed.

Lemma truthy_on_group (g : string -> pyvalue -> pyvalue) (group : string)
      (c : pyvalue) :
  truthy_value (on_group g group c) = truthy_value c.
Proof.
  destruct c as [| | | | |inner]; try reflexivity. cbn [on_group truthy_value].
  pose proof (fold_update_keys g (sensitive_fields group) inner) as Hk.
  destruct inner as [|x inner]; [now rewrite fold_update_nil|].
  now destruct (fold_left (update g) (sensitive_fields group) (x :: inner)).
Qed.

Lemma encrypt_group_update (self : EncryptionService)
      (entropy : string -> string -> nonce) (group : string) (data : pydict) :
  group_is_dict group data = true ->
  encrypt_group self entropy group data
  = Returns (update (fun k => on_group (encrypted self entropy k) k) data group).
Proof.
  unfold group_is_dict, encrypt_group, update.
  destruct (pydict_get data group) as [c|] eqn:E; [|reflexivity].
  rewrite <- (truthy_on_group (encrypted self entropy group) group c).
  destruct (truthy_value (on_group (encrypted self entropy group) group c)) eqn:Et.
  - destruct c; try discriminate. intros _.
    now rewrite encrypt_fields_update.
  - intros _. rewrite truthy_on_group in Et.
    destruct c as [| | | | |inner]; cbn [on_group];
      try now rewrite (pydict_set_same data group _ E).
    destruct inner; [|discriminate Et].
    rewrite fold_update_nil. now rewrite (pydict_set_same data group _ E).
Qed.

Lemma decrypt_group_update (self : EncryptionService) (group : string)
      (data : pydict) :
  group_is_dict group data = true ->
  decrypt_group self group data
  = Returns (update (fun k => on_group (decrypted self k) k) data group).
Proof.
  unfold group_is_dict, decrypt_group, update.
  destruct (pydict_get data group) as [c|] eqn:E; [|reflexivity].
  rewrite <- (truthy_on_group (decrypted self group) group c).
  destruct (truthy_value (on_group (decrypted self group) group c)) eqn:Et.
  - destruct c; try discriminate. intros _.
    now rewrite (decrypt_fields_update self group).
  - intros _. rewrite truthy_on_group in Et.
    destruct c as [| | | | |inner]; cbn [on_group];
      try now rewrite (pydict_set_same data group _ E).
    destruct inner; [|discriminate Et].
    rewrite fold_update_nil. now rewrite (pydict_set_same data group _ E).
Qed.

(** ** The two methods as one pass over [profile_keys] *)

Lemma group_is_dict_update (G : string -> string -> pyvalue -> pyvalue)
      (group : string) (d : pydict) (k : string) :
  is_group group = true ->
  group_is_dict group (update (on_profile G) d k) = group_is_dict group d.
Proof.
  intros Hg. unfold group_is_dict. destruct (String.eqb_spec k group) as [->|Hne].
  - rewrite get_update_eq. destruct (pydict_get d group) as [c|]; [|reflexivity].
    cbn [option_map]. unfold on_profile. rewrite Hg, truthy_on_group.
    now destruct c.
  - now rewrite get_update_ne.
Qed.

Lemma group_is_dict_fold (G : string -> string -> pyvalue -> pyvalue)
      (group : string) (fs : list string) (d : pydict) :
  is_group group = true ->
  group_is_dict group (fold_left (update (on_profile G)) fs d)
  = group_is_dict group d.
Proof.
  intros Hg. revert d. induction fs as [|f fs IH]; intros d; cbn [fold_left];
    [reflexivity|].
  now rewrite IH, group_is_dict_update.
Qed.

Lemma on_top_fields (G : string -> string -> pyvalue -> pyvalue) (d : pydict) :
  fold_left (update (G "farmer_profile")) (sensitive_fields "farmer_profile") d
  = fold_left (update (on_profile G)) (sensitive_fields "farmer_profile") d.
Proof.
  apply fold_update_ext. intros f v Hf. unfold on_profile.
  cbn in Hf. repeat destruct Hf as [<-|Hf]; try reflexivity. destruct Hf.
Qed.

Lemma on_one_group (G : string -> string -> pyvalue -> pyvalue) (group : string)
      (d : pydict) :
  is_group group = true ->
  update (fun k => on_group (G k) k) d group = update (on_profile G) d group.
Proof.
  intros Hg. apply update_at. intros v _. unfold on_profile. now rewrite Hg.
Qed.

Lemma encrypt_farmer_profile_update (self : EncryptionService)
      (entropy : string -> string -> nonce) (p : pydict) :
  group_is_dict "location" p = true ->
  group_is_dict "contact_info" p = true ->
  encrypt_farmer_profile self entropy p
  = Returns (fold_left (update (on_profile (encrypted self entropy))) profile_keys p).
Proof.
  intros Hl Hc. unfold encrypt_farmer_profile, profile_keys.
  rewrite fold_left_app. cbn [fold_left].
  rewrite encrypt_fields_update, on_top_fields.
  rewrite encrypt_group_update by now rewrite group_is_dict_fold.
  rewrite on_one_group by reflexivity.
  rewrite encrypt_group_update
    by now rewrite group_is_dict_update, group_is_dict_fold.
  now rewrite on_one_group by reflexivity.
Qed.

Lemma decrypt_farmer_profile_update (self : EncryptionService) (e : pydict) :
  group_is_dict "location" e = true ->
  group_is_dict "contact_info" e = true ->
  decrypt_farmer_profile self e
  = Returns (fold_left (update (on_profile (decrypted self))) profile_keys e).
Proof.
  intros Hl Hc. unfold decrypt_farmer_profile, profile_keys.
  rewrite fold_left_app. cbn [fold_left].
  rewrite (decrypt_fields_update self "farmer_profile"), on_top_fields.
  rewrite decrypt_group_update by now rewrite group_is_dict_fold.
  rewrite on_one_group by reflexivity.
  rewrite decrypt_group_update
    by now rewrite group_is_dict_update, group_is_dict_fold.
  now rewrite on_one_group by reflexivity.
Qed.

Lemma on_profile_compose (G1 G2 G : string -> string -> pyvalue -> pyvalue) :
  (forall group f v, G2 group f (G1 group f v) = G group f v) ->
  forall k v, on_profile G2 k (on_profile G1 k v) = on_profile G k v.
Proof.
  intros HG k v. unfold on_profile. destruct (is_group k); [|apply HG].
  destruct v; cbn [on_group]; try reflexivity. f_equal.
  rewrite fold_update_compose by apply NoDup_sensitive_fields.
  apply fold_update_ext. intros f v _. apply HG.
Qed.

Lemma there_and_back (self other : EncryptionService)
      (entropy : string -> string -> nonce)
      (G : string -> string -> pyvalue -> pyvalue) (p : pydict) :
  group_is_dict "location" p = true ->
  group_is_dict "contact_info" p = true ->
  (forall group f v,
     decrypted other group f (encrypted self entropy group f v) = G group f v) ->
  decrypt_farmer_profile other
    (fold_left (update (on_profile (encrypted self entropy))) profile_keys p)
  = Returns (fold_left (update (on_profile G)) profile_keys p).
Proof.
  intros Hl Hc HG.
  rewrite decrypt_farmer_profile_update by now rewrite group_is_dict_fold.
  rewrite fold_update_compose by apply NoDup_profile_keys.
  f_equal. apply fold_update_ext. intros f v _. now apply on_profile_compose.
Qed.

Lemma decrypted_encrypted (self : EncryptionService)
      (entropy : string -> string -> nonce) (group f : string) (v : pyvalue) :
  decrypted self group f (encrypted self entropy group f v) = spelled v.
Proof.
  unfold decrypted, encrypted, spelled.
  destruct (is_none v) eqn:E; [now rewrite E|].
  cbn [is_none decrypt_value]. now rewrite decrypt_token.
Qed.

Lemma decrypted_encrypted_other (self other : EncryptionService)
      (entropy : string -> string -> nonce) (group f : string) (v : pyvalue) :
  key self <> key other ->
  decrypted other group f (encrypted self entropy group f v)
  = encrypted self entropy group f v.
Proof.
  intros Hk. unfold decrypted, encrypted.
  destruct (is_none v) eqn:E; [now rewrite E|].
  cbn [is_none decrypt_value]. now rewrite (decrypt_token_other self other _ _ Hk).
Qed.

Lemma spelled_text (v : pyvalue) : text_or_none v = true -> spelled v = v.
Proof. now destruct v. Qed.

Lemma as_text_fixed (p : pydict) :
  text_fields (sensitive_fields "farmer_profile") p = true ->
  text_group "location" p = true ->
  text_group "contact_info" p = true ->
  as_text p = p.
Proof.
  intros Ht Hl Hc. unfold as_text.
  assert (forall group inner,
            text_fields (sensitive_fields group) inner = true ->
            fold_left (update (fun _ => spelled)) (sensitive_fields group) inner
            = inner) as Hinner.
  { intros group inner Hi. apply fold_update_fixed. intros f v Hf Hv.
    apply spelled_text. unfold text_fields in Hi.
    rewrite forallb_forall in Hi. specialize (Hi f Hf). now rewrite Hv in Hi. }
  assert (forall group v, is_group group = true ->
            pydict_get p group = Some v -> text_group group p = true ->
            on_profile (fun _ _ => spelled) group v = v) as Hgroup.
  { intros group v Hg Hv Htg. unfold on_profile, text_group in *.
    rewrite Hg. rewrite Hv in Htg.
    destruct v; cbn [on_group]; try reflexivity. now rewrite Hinner. }
  apply fold_update_fixed. intros f v Hf Hv.
  unfold profile_keys in Hf. apply in_app_or in Hf as [Hf|Hf].
  - replace (on_profile (fun _ _ => spelled) f v) with (spelled v).
    + apply spelled_text. unfold text_fields in Ht.
      rewrite forallb_forall in Ht. specialize (Ht f Hf). now rewrite Hv in Ht.
    + unfold on_profile. cbn in Hf.
      repeat destruct Hf as [<-|Hf]; try reflexivity. destruct Hf.
  - cbn in Hf. destruct Hf as [<-|[<-|[]]]; now apply Hgroup.
Qed.

(** X22. For a profile whose [location] and [contact_info] are dicts where
    they are set, [encrypt_farmer_profile] returns a profile with the same
    keys in which every key outside the sensitive ones holds what it held.
    [decrypt_farmer_profile] under the same key then gives the profile
    with each sensitive value that is set spelled as text; under another
    key it does not fail and gives the encrypted profile back. *)
Theorem profile_encryption_there_and_back (self other : EncryptionService)
        (entropy : string -> string -> nonce) (p : pydict) :
  group_is_dict "location" p = true ->
  group_is_dict "contact_info" p = true ->
  exists e,
    encrypt_farmer_profile self entropy p = Returns e
    /\ map fst e = map fst p
    /\ (forall k, ~ In k profile_keys -> pydict_get e k = pydict_get p k)
    /\ decrypt_farmer_profile self e = Returns (as_text p)
    /\ (key self <> key other -> decrypt_farmer_profile other e = Returns e).
Proof.
  intros Hl Hc. eexists. split; [now apply encrypt_farmer_profile_update|].
  split; [apply fold_update_keys|].
  split; [intros k Hk; now apply get_fold_update_ne|].
  split.
  - apply there_and_back; [assumption..|]. intros. apply decrypted_encrypted.
  - intros Hk. apply there_and_back; [assumption..|].
    intros. now apply decrypted_encrypted_other.
Qed.

(** X23. A profile whose sensitive fields, at the top and inside
    [location] and [contact_info], hold strings or [None] comes back from
    [encrypt_farmer_profile] and [decrypt_farmer_profile] as it was. *)
Theorem profile_encryption_roundtrip (self : EncryptionService)
        (entropy : string -> string -> nonce) (p : pydict) :
  group_is_dict "location" p = true ->
  group_is_dict "contact_info" p = true ->
  text_fields (sensitive_fields "farmer_profile") p = true ->
  text_group "location" p = true ->
  text_group "contact_info" p = true ->
  exists e,
    encrypt_farmer_profile self entropy p = Returns e
    /\ decrypt_farmer_profile self e = Returns p.
Proof.
  intros Hl Hc Ht Htl Htc. eexists.
  split; [now apply encrypt_farmer_profile_update|].
  rewrite (there_and_back self self entropy (fun _ _ => spelled) p Hl Hc)
    by (intros; apply decrypted_encrypted).
  f_equal. now apply as_text_fixed.
Qed.

(** X24. A profile whose [location] is set to a truthy value that is a
    string, a number or a boolean makes [encrypt_farmer_profile] raise
    [AttributeError]: the method copies the value as a dict. *)
Theorem profile_encryption_raises (self : EncryptionService)
        (entropy : string -> string -> nonce) (p : pydict) (c : pyvalue) :
  pydict_get p "location" = Some c ->
  truthy_value c = true ->
  is_scalar c = true ->
  encrypt_farmer_profile self entropy p = RaisesAttributeError.
Proof.
  intros Hg Ht Hs. unfold encrypt_farmer_profile.
  rewrite encrypt_fields_update. cbv beta iota. unfold encrypt_group at 1.
  rewrite get_fold_update_ne, Hg, Ht by (cbn; intuition discriminate).
  now destruct c.
Qed.

End Facts.

Import Model security_encryption_facts.

Lemma encrypt_dict_then_decrypt_dict_witness :
  exists enc,
    encrypt_dict service_a no_entropy
      [("pincode", PStr "226001"); ("village", PStr "Rampur"); ("email", PNone)]
    = Ok enc
    /\ decrypt_dict service_a enc
       = [("pincode", PInt 226001); ("village", PStr "Rampur"); ("email", PNone)]
    /\ map fst (decrypt_dict service_b enc) = ["pincode"; "village"; "email"].
Proof.
  destruct (encrypt_dict_then_decrypt_dict service_a service_b no_entropy
              [("pincode", PStr "226001"); ("village", PStr "Rampur");
               ("email", PNone)]) as (enc & He & Hk & Hd & Ho).
  exists enc. split; [exact He|]. split; [rewrite Hd; reflexivity|].
  rewrite Ho by (vm_compute; discriminate).
  rewrite map_map. exact Hk.
Defined.

Lemma profile_encryption_there_and_back_witness :
  exists e,
    encrypt_farmer_profile service_a (fun _ _ => tt)
      [("farmer_id", PStr "f-1"); ("name", PStr "Ram Kumar");
       ("bank_account_details", PInt 12345);
       ("location", PDict [("state", PStr "UP"); ("village", PStr "Rampur")])]
    = Returns e
    /\ decrypt_farmer_profile service_a e
       = Returns [("farmer_id", PStr "f-1"); ("name", PStr "Ram Kumar");
                  ("bank_account_details", PStr "12345");
                  ("location", PDict [("state", PStr "UP");
                                      ("village", PStr "Rampur")])]
    /\ decrypt_farmer_profile service_b e = Returns e.
Proof.
  destruct (profile_encryption_there_and_back service_a service_b (fun _ _ => tt)
              [("farmer_id", PStr "f-1"); ("name", PStr "Ram Kumar");
               ("bank_account_details", PInt 12345);
               ("location", PDict [("state", PStr "UP"); ("village", PStr "Rampur")])]
              eq_refl eq_refl) as (e & He & _ & _ & Hd & Ho).
  exists e. split; [exact He|]. split; [exact Hd|].
  apply Ho. vm_compute. discriminate.
Defined.

Lemma profile_encryption_roundtrip_witness :
  exists e,
    encrypt_farmer_profile service_a (fun _ _ => tt)
      [("farmer_id", PStr "f-1"); ("name", PStr "Ram Kumar"); ("email", PNone);
       ("age", PInt 40);
       ("contact_info", PDict [("primary_phone", PStr "+919876543210")])]
    = Returns e
    /\ decrypt_farmer_profile service_a e
       = Returns [("farmer_id", PStr "f-1"); ("name", PStr "Ram Kumar");
                  ("email", PNone); ("age", PInt 40);
                  ("contact_info", PDict [("primary_phone", PStr "+919876543210")])].
Proof.
  apply (profile_encryption_roundtrip service_a (fun _ _ => tt)); reflexivity.
Defined.

Lemma profile_encryption_raises_witness :
  encrypt_farmer_profile service_a (fun _ _ => tt)
    [("name", PStr "Ram Kumar"); ("location", PStr "Rampur, UP")]
  = RaisesAttributeError.
Proof.
  apply (profile_encryption_raises service_a (fun _ _ => tt) _ (PStr "Rampur, UP"));
    reflexivity.
Defined.

End security_encryption_fields_facts.
